(** * Intent resolution and dispatch of the NiFi natural-language server

    A shallow embedding of [src/llm/intent_processor.py] (intent catalogue,
    pattern matcher, parameter extractor, classifier adapter, resolver,
    choice of the provider), [src/mcp/nifi_mcp_server.py] (dispatcher,
    query boundary, session store) and [src/nifi/api_client.py] (the retry
    loop of [_make_request], the health check).

    Conventions of the embedding:
    - a text is a [string] whose characters are code points below 256;
    - a Python [float] confidence is an exact rational ([Q]); on the values
      the pattern matcher produces (multiples of 0.3 compared with 0.0, 0.3,
      0.6 and 0.8) the order of the rationals is the order of the floats;
    - a raised exception is a value of [exn]; a call that may raise returns
      a [result];
    - [datetime.now()] reads a tick counter kept in the server state. *)

From Stdlib Require Import ZArith QArith Qabs Ascii String List Lia Bool.
From Stdlib Require Import DecimalString.
From stdpp Require Import base option gmap strings.
Import ListNotations.

Set Warnings "-register-all".

Local Open Scope string_scope.
Local Open Scope list_scope.
Local Open Scope nat_scope.

(* ================================================================== *)
(** ** Python text primitives *)
(* ================================================================== *)

Module Py.

Definition code (c : ascii) : nat := nat_of_ascii c.

(** [str.isspace] on one code point below 256. *)
Definition isspace (c : ascii) : bool :=
  let n := code c in
  ((9 <=? n) && (n <=? 13)) || ((28 <=? n) && (n <=? 32))
  || (n =? 133) || (n =? 160).

(** [str.lower] on one code point below 256: A-Z and the Latin-1 capitals
    (192..222 but the multiplication sign 215) move up by 32. *)
Definition lower_char (c : ascii) : ascii :=
  let n := code c in
  if ((65 <=? n) && (n <=? 90))
     || ((192 <=? n) && (n <=? 222) && negb (n =? 215))
  then ascii_of_nat (n + 32) else c.

Fixpoint lower (s : string) : string :=
  match s with
  | EmptyString => EmptyString
  | String c t => String (lower_char c) (lower t)
  end.

Fixpoint lstrip_by (p : ascii -> bool) (s : string) : string :=
  match s with
  | EmptyString => EmptyString
  | String c t => if p c then lstrip_by p t else s
  end.

Fixpoint rev_string (acc s : string) : string :=
  match s with
  | EmptyString => acc
  | String c t => rev_string (String c acc) t
  end.

Definition rstrip_by (p : ascii -> bool) (s : string) : string :=
  rev_string EmptyString (lstrip_by p (rev_string EmptyString s)).

Definition strip_by (p : ascii -> bool) (s : string) : string :=
  rstrip_by p (lstrip_by p s).

(** [s.strip()] *)
Definition strip (s : string) : string := strip_by isspace s.

Definition mem_char (cs : list ascii) (c : ascii) : bool :=
  existsb (Ascii.eqb c) cs.

(** [s.strip(chars)] *)
Definition strip_chars (cs : list ascii) (s : string) : string :=
  strip_by (mem_char cs) s.

(** The double-quote character and the text holding just it. *)
Definition dquote : ascii := ascii_of_nat 34.
Definition squote : ascii := ascii_of_nat 39.
Definition DQ : string := String dquote EmptyString.

(** [str(n)] for a non-negative integer. *)
Definition str_of_nat (n : nat) : string :=
  NilEmpty.string_of_uint (Nat.to_uint n).

(** [s.replace(a, b)] for one-character [a] and [b]. *)
Fixpoint replace_char (a b : ascii) (s : string) : string :=
  match s with
  | EmptyString => EmptyString
  | String c t =>
      String (if Ascii.eqb c a then b else c) (replace_char a b t)
  end.

Definition is_lower_letter (c : ascii) : bool :=
  let n := code c in (97 <=? n) && (n <=? 122).
Definition is_upper_letter (c : ascii) : bool :=
  let n := code c in (65 <=? n) && (n <=? 90).
Definition upper_char (c : ascii) : ascii :=
  if is_lower_letter c then ascii_of_nat (code c - 32) else c.

(** [s.title()] on texts of ASCII letters and separators: a letter that
    follows a non-letter is upper-cased, every other letter lower-cased. *)
Fixpoint title_from (prev_cased : bool) (s : string) : string :=
  match s with
  | EmptyString => EmptyString
  | String c t =>
      let cased := is_lower_letter c || is_upper_letter c in
      String (if cased
              then (if prev_cased then lower_char c else upper_char c)
              else c)
             (title_from cased t)
  end.
Definition title (s : string) : string := title_from false s.

(** [sep.join(parts)] *)
Fixpoint join (sep : string) (parts : list string) : string :=
  match parts with
  | [] => EmptyString
  | [p] => p
  | p :: rest => p +:+ sep +:+ join sep rest
  end.

(** [s.split(sep)[-1]] for a one-character separator: the text after the
    last separator, the whole text when there is none. *)
Fixpoint after_last (sep : ascii) (acc s : string) : string :=
  match s with
  | EmptyString => rev_string EmptyString acc
  | String c t =>
      if Ascii.eqb c sep then after_last sep EmptyString t
      else after_last sep (String c acc) t
  end.

End Py.

(* ================================================================== *)
(** ** Regular expressions: the fragment of [re] the catalogue uses *)
(* ================================================================== *)

Module Re.

Inductive class_item : Type :=
| CChar (c : ascii)
| CSpace.

Inductive regex : Type :=
| Empty
| Lit (c : ascii)
| Dot
| Space
| Class (negated : bool) (items : list class_item)
| Cat (r1 r2 : regex)
| Or (r1 r2 : regex)
| Star (greedy : bool) (r : regex)
| Plus (greedy : bool) (r : regex)
| Opt (greedy : bool) (r : regex)
| Group (n : nat) (r : regex).

(** *** Reading a pattern text *)

Definition item_matches (c : ascii) (i : class_item) : bool :=
  match i with
  | CChar d => Ascii.eqb c d
  | CSpace => Py.isspace c
  end.

Definition escape_atom (c : ascii) : regex :=
  if Ascii.eqb c "s"%char then Space else Lit c.

Definition escape_item (c : ascii) : class_item :=
  if Ascii.eqb c "s"%char then CSpace else CChar c.

(** The members of a bracket expression, up to the closing bracket. *)
Fixpoint parse_items (s : string) (acc : list class_item)
  : option (list class_item * string) :=
  match s with
  | EmptyString => None
  | String "]" t => Some (rev acc, t)
  | String "\" (String c t) => parse_items t (escape_item c :: acc)
  | String "\" EmptyString => None
  | String c t => parse_items t (CChar c :: acc)
  end.

(** A quantifier suffix applied to the atom just read. *)
Definition parse_quant (r : regex) (s : string) : regex * string :=
  match s with
  | String "*" (String "?" t) => (Star false r, t)
  | String "*" t => (Star true r, t)
  | String "+" (String "?" t) => (Plus false r, t)
  | String "+" t => (Plus true r, t)
  | String "?" (String "?" t) => (Opt false r, t)
  | String "?" t => (Opt true r, t)
  | _ => (r, s)
  end.

(** Recursive descent; [g] is the number of capturing groups opened so
    far.  [parse_alt] reads alternatives up to a closing parenthesis or the
    end of the text, [parse_seq] one alternative. *)
Fixpoint parse_alt (fuel : nat) (s : string) (g : nat)
  : option (regex * string * nat) :=
  match fuel with
  | O => None
  | S fuel' =>
      let fix parse_seq (n : nat) (s : string) (g : nat) (acc : regex)
        : option (regex * string * nat) :=
        match n with
        | O => None
        | S n' =>
            match s with
            | EmptyString => Some (acc, s, g)
            | String ")" _ => Some (acc, s, g)
            | String "|" _ => Some (acc, s, g)
            | String "(" (String "?" (String ":" t)) =>
                match parse_alt fuel' t g with
                | Some (r, String ")" t', g') =>
                    let '(q, t'') := parse_quant r t' in
                    parse_seq n' t'' g' (Cat acc q)
                | _ => None
                end
            | String "(" t =>
                match parse_alt fuel' t (S g) with
                | Some (r, String ")" t', g') =>
                    let '(q, t'') := parse_quant (Group (S g) r) t' in
                    parse_seq n' t'' g' (Cat acc q)
                | _ => None
                end
            | String "[" (String "^" t) =>
                match parse_items t [] with
                | Some (items, t') =>
                    let '(q, t'') := parse_quant (Class true items) t' in
                    parse_seq n' t'' g (Cat acc q)
                | None => None
                end
            | String "[" t =>
                match parse_items t [] with
                | Some (items, t') =>
                    let '(q, t'') := parse_quant (Class false items) t' in
                    parse_seq n' t'' g (Cat acc q)
                | None => None
                end
            | String "." t =>
                let '(q, t'') := parse_quant Dot t in
                parse_seq n' t'' g (Cat acc q)
            | String "\" (String c t) =>
                let '(q, t'') := parse_quant (escape_atom c) t in
                parse_seq n' t'' g (Cat acc q)
            | String "\" EmptyString => None
            | String "*" _ => None
            | String "+" _ => None
            | String "?" _ => None
            | String c t =>
                let '(q, t'') := parse_quant (Lit c) t in
                parse_seq n' t'' g (Cat acc q)
            end
        end in
      match parse_seq (S (String.length s)) s g Empty with
      | Some (r1, String "|" t, g1) =>
          match parse_alt fuel' t g1 with
          | Some (r2, t', g2) => Some (Or r1 r2, t', g2)
          | None => None
          end
      | other => other
      end
  end.

(** [re.compile(pattern)]; [None] stands for a pattern outside the
    fragment. *)
Definition compile (pattern : string) : option regex :=
  match parse_alt (S (String.length pattern)) pattern 0 with
  | Some (r, EmptyString, _) => Some r
  | _ => None
  end.

(** *** Backtracking matcher *)

(** Captured groups, most recent binding first. *)
Definition caps : Type := list (nat * string).

Fixpoint cap_get (n : nat) (c : caps) : option string :=
  match c with
  | [] => None
  | (m, s) :: rest => if Nat.eqb n m then Some s else cap_get n rest
  end.

(** The first [n] characters of [s]. *)
Fixpoint take (n : nat) (s : string) : string :=
  match n, s with
  | S n', String c t => String c (take n' t)
  | _, _ => EmptyString
  end.

(** The text consumed between [s] and its suffix [s']. *)
Definition consumed (s s' : string) : string :=
  take (String.length s - String.length s') s.

Definition outcome : Type := (string * caps)%type.

Definition orelse (a : option outcome) (b : unit -> option outcome)
  : option outcome :=
  match a with
  | Some x => Some x
  | None => b tt
  end.

(** [rmatch r s c k]: match [r] at the head of [s], then continue with
    [k] on the rest; alternatives are tried in the order of the engine
    (left alternative first, greedy repetitions longest first, lazy ones
    shortest first) and the first success wins. *)
Fixpoint rmatch (r : regex) (s : string) (c : caps)
  (k : string -> caps -> option outcome) {struct r} : option outcome :=
  match r with
  | Empty => k s c
  | Lit a =>
      match s with
      | String b t => if Ascii.eqb a b then k t c else None
      | EmptyString => None
      end
  | Dot =>
      match s with
      | String b t => if Ascii.eqb b (ascii_of_nat 10) then None else k t c
      | EmptyString => None
      end
  | Space =>
      match s with
      | String b t => if Py.isspace b then k t c else None
      | EmptyString => None
      end
  | Class negated items =>
      match s with
      | String b t =>
          if xorb negated (existsb (item_matches b) items)
          then k t c else None
      | EmptyString => None
      end
  | Cat r1 r2 => rmatch r1 s c (fun s' c' => rmatch r2 s' c' k)
  | Or r1 r2 => orelse (rmatch r1 s c k) (fun _ => rmatch r2 s c k)
  | Opt greedy r1 =>
      if greedy
      then orelse (rmatch r1 s c k) (fun _ => k s c)
      else orelse (k s c) (fun _ => rmatch r1 s c k)
  | Star greedy r1 =>
      (fix loop (n : nat) (s : string) (c : caps) : option outcome :=
         match n with
         | O => k s c
         | S n' =>
             let more (_ : unit) :=
               rmatch r1 s c
                 (fun s' c' =>
                    if String.length s' <? String.length s
                    then loop n' s' c' else None) in
             if greedy
             then orelse (more tt) (fun _ => k s c)
             else orelse (k s c) more
         end) (S (String.length s)) s c
  | Plus greedy r1 =>
      rmatch r1 s c
        (fun s1 c1 =>
           (fix loop (n : nat) (s : string) (c : caps) : option outcome :=
              match n with
              | O => k s c
              | S n' =>
                  let more (_ : unit) :=
                    rmatch r1 s c
                      (fun s' c' =>
                         if String.length s' <? String.length s
                         then loop n' s' c' else None) in
                  if greedy
                  then orelse (more tt) (fun _ => k s c)
                  else orelse (k s c) more
              end) (S (String.length s1)) s1 c1)
  | Group n r1 =>
      rmatch r1 s c (fun s' c' => k s' ((n, consumed s s') :: c'))
  end.

(** A match object: the matched text, the groups, the text after it. *)
Record rmatch_result : Type := MkMatch {
  matched : string;
  groups : caps;
  rest : string
}.

(** [m.group(n)] for a group that took part in the match. *)
Definition group (n : nat) (m : rmatch_result) : string :=
  match cap_get n (groups m) with
  | Some s => s
  | None => EmptyString
  end.

(** One attempt at the head of [s]; with [must_advance] an empty match
    is refused. *)
Definition match_here (r : regex) (s : string) (must_advance : bool)
  : option rmatch_result :=
  match rmatch r s []
          (fun s' c =>
             if must_advance && (String.length s' =? String.length s)
             then None else Some (s', c)) with
  | Some (s', c) => Some (MkMatch (consumed s s') c s')
  | None => None
  end.

(** The leftmost match at or after the head of [s]. *)
Fixpoint scan (r : regex) (s : string) (must_advance : bool)
  : option rmatch_result :=
  match match_here r s must_advance with
  | Some m => Some m
  | None =>
      match s with
      | EmptyString => None
      | String _ t => scan r t false
      end
  end.

(** [re.search(pattern, text)] *)
Definition search (pattern text : string) : option rmatch_result :=
  match compile pattern with
  | Some r => scan r text false
  | None => None
  end.

(** The successive non-overlapping matches, left to right; after an empty
    match the next one has to advance. *)
Fixpoint scan_all (fuel : nat) (r : regex) (s : string)
  (must_advance : bool) : list rmatch_result :=
  match fuel with
  | O => []
  | S fuel' =>
      match scan r s must_advance with
      | None => []
      | Some m =>
          m :: scan_all fuel' r (rest m)
                 (String.length (matched m) =? 0)
      end
  end.

Definition matches (pattern text : string) : list rmatch_result :=
  match compile pattern with
  | Some r => scan_all (2 * String.length text + 2) r text false
  | None => []
  end.

(** [re.findall(pattern, text)] for a pattern without group: the matched
    texts. *)
Definition findall (pattern text : string) : list string :=
  map matched (matches pattern text).

(** [re.findall(pattern, text)] for a pattern with one group: the texts
    of the group. *)
Definition findall_group (pattern text : string) : list string :=
  map (group 1) (matches pattern text).

End Re.

(* ================================================================== *)
(** ** Exceptions and results *)
(* ================================================================== *)

Module Exn.

(** The exception classes the program raises, catches or lets through.
    [JSONDecodeError] is a subclass of [ValueError]; pydantic's
    [ValidationError] is raised as a [ValueError]. *)
Inductive exn_kind : Type :=
| ValueError
| JSONDecodeError
| KeyError
| TypeError
| AttributeError
| OverflowError
| RuntimeError
| NiFiAPIError
| RequestError
| OtherException.

(** An exception object: its class and [str(e)]. *)
Record exn : Type := Raise { kind : exn_kind; message : string }.

Inductive result (A : Type) : Type :=
| Return (a : A)
| Raised (e : exn).
Arguments Return {A} a.
Arguments Raised {A} e.

Definition bind {A B : Type} (m : result A) (f : A -> result B)
  : result B :=
  match m with
  | Return a => f a
  | Raised e => Raised e
  end.

(** [isinstance(e, ValueError)] *)
Definition is_value_error (e : exn) : bool :=
  match kind e with
  | ValueError | JSONDecodeError => true
  | _ => false
  end.

Definition is_key_error (e : exn) : bool :=
  match kind e with
  | KeyError => true
  | _ => false
  end.

Definition is_nifi_api_error (e : exn) : bool :=
  match kind e with
  | NiFiAPIError => true
  | _ => false
  end.

Definition is_request_error (e : exn) : bool :=
  match kind e with
  | RequestError => true
  | _ => false
  end.

End Exn.
Import Exn.

Notation "'let!' x ':=' m 'in' k" := (Exn.bind m (fun x => k))
  (at level 10, x name, m at level 100, k at level 200).

(* ================================================================== *)
(** ** Decoded JSON values *)
(* ================================================================== *)

Module Json.

Inductive nonfinite : Type := NaN | PosInfinity | NegInfinity.

(** What [json.loads] builds: [None], [bool], [int], [float] (finite or
    not), [str], [list], and [dict] with text keys in insertion order. *)
Inductive json : Type :=
| JNull
| JBool (b : bool)
| JInt (z : Z)
| JFloat (q : Q)
| JNonFinite (n : nonfinite)
| JString (s : string)
| JArray (items : list json)
| JObject (fields : list (string * json)).

(** [d.get(key)] on the fields of a dict. *)
Fixpoint get (key : string) (fields : list (string * json)) : option json :=
  match fields with
  | [] => None
  | (k, v) :: rest => if String.eqb k key then Some v else get key rest
  end.

(** [d[key] = v]: replaces the value of a key already present (its
    position is kept), appends a new key. *)
Fixpoint set (key : string) (v : json) (fields : list (string * json))
  : list (string * json) :=
  match fields with
  | [] => [(key, v)]
  | (k, w) :: rest =>
      if String.eqb k key then (k, v) :: rest
      else (k, w) :: set key v rest
  end.

(** A Python [float]. *)
Inductive pyfloat : Type :=
| Finite (q : Q)
| NotFinite (n : nonfinite).

(** The largest magnitude an [int] may have for [float(int)] to return;
    beyond it the conversion raises [OverflowError]. *)
Definition float_int_bound : Z := (2 ^ 1024 - 2 ^ 970)%Z.

End Json.
Import Json.

(* ================================================================== *)
(** ** [src/llm/intent_processor.py]: catalogue and data model *)
(* ================================================================== *)

Module Intent.

(** [class NiFiIntent(str, Enum)], in declaration order. *)
Inductive NiFiIntent : Type :=
| LIST_PROCESS_GROUPS
| CREATE_PROCESS_GROUP
| DELETE_PROCESS_GROUP
| START_PROCESS_GROUP
| STOP_PROCESS_GROUP
| LIST_PROCESSORS
| CREATE_PROCESSOR
| DELETE_PROCESSOR
| START_PROCESSOR
| STOP_PROCESSOR
| CONFIGURE_PROCESSOR
| LIST_CONNECTIONS
| CREATE_CONNECTION
| DELETE_CONNECTION
| LIST_TEMPLATES
| CREATE_TEMPLATE
| INSTANTIATE_TEMPLATE
| SEARCH_COMPONENTS
| GET_STATUS
| GET_FLOW_STATUS
| MONITOR_FLOW
| GET_DOCUMENTATION
| GET_PROCESSOR_INFO
| HELP
| UNKNOWN.

Definition all_intents : list NiFiIntent :=
  [ LIST_PROCESS_GROUPS; CREATE_PROCESS_GROUP; DELETE_PROCESS_GROUP;
    START_PROCESS_GROUP; STOP_PROCESS_GROUP; LIST_PROCESSORS;
    CREATE_PROCESSOR; DELETE_PROCESSOR; START_PROCESSOR; STOP_PROCESSOR;
    CONFIGURE_PROCESSOR; LIST_CONNECTIONS; CREATE_CONNECTION;
    DELETE_CONNECTION; LIST_TEMPLATES; CREATE_TEMPLATE;
    INSTANTIATE_TEMPLATE; SEARCH_COMPONENTS; GET_STATUS; GET_FLOW_STATUS;
    MONITOR_FLOW; GET_DOCUMENTATION; GET_PROCESSOR_INFO; HELP; UNKNOWN ].

(** [intent.value] *)
Definition value (i : NiFiIntent) : string :=
  match i with
  | LIST_PROCESS_GROUPS => "list_process_groups"
  | CREATE_PROCESS_GROUP => "create_process_group"
  | DELETE_PROCESS_GROUP => "delete_process_group"
  | START_PROCESS_GROUP => "start_process_group"
  | STOP_PROCESS_GROUP => "stop_process_group"
  | LIST_PROCESSORS => "list_processors"
  | CREATE_PROCESSOR => "create_processor"
  | DELETE_PROCESSOR => "delete_processor"
  | START_PROCESSOR => "start_processor"
  | STOP_PROCESSOR => "stop_processor"
  | CONFIGURE_PROCESSOR => "configure_processor"
  | LIST_CONNECTIONS => "list_connections"
  | CREATE_CONNECTION => "create_connection"
  | DELETE_CONNECTION => "delete_connection"
  | LIST_TEMPLATES => "list_templates"
  | CREATE_TEMPLATE => "create_template"
  | INSTANTIATE_TEMPLATE => "instantiate_template"
  | SEARCH_COMPONENTS => "search_components"
  | GET_STATUS => "get_status"
  | GET_FLOW_STATUS => "get_flow_status"
  | MONITOR_FLOW => "monitor_flow"
  | GET_DOCUMENTATION => "get_documentation"
  | GET_PROCESSOR_INFO => "get_processor_info"
  | HELP => "help"
  | UNKNOWN => "unknown"
  end.

Definition intent_eqb (a b : NiFiIntent) : bool :=
  String.eqb (value a) (value b).

(** [intent in [ ... ]] *)
Definition intent_in (i : NiFiIntent) (l : list NiFiIntent) : bool :=
  existsb (intent_eqb i) l.

(** [NiFiIntent(text)]: the member whose value is the text. *)
Definition intent_of_value (s : string) : option NiFiIntent :=
  find (fun i => String.eqb (value i) s) all_intents.

(** [class IntentParameters(BaseModel)] *)
Record IntentParameters : Type := MkParams {
  process_group_id : option string;
  process_group_name : option string;
  processor_name : option string;
  processor_type : option string;
  processor_id : option string;
  connection_name : option string;
  template_name : option string;
  search_query : option string;
  properties : option (list (string * json));
  relationships : option (list string);
  source_id : option string;
  destination_id : option string;
  position : option (list (string * json));
  additional_params : option (list (string * json))
}.

(** [IntentParameters()]: every field at its default. *)
Definition IntentParameters_default : IntentParameters :=
  {| process_group_id := Some "root";
     process_group_name := None;
     processor_name := None;
     processor_type := None;
     processor_id := None;
     connection_name := None;
     template_name := None;
     search_query := None;
     properties := Some [];
     relationships := Some [];
     source_id := None;
     destination_id := None;
     position := None;
     additional_params := Some [] |}.

Definition set_process_group_name (v : string) (p : IntentParameters) :=
  {| process_group_id := process_group_id p;
     process_group_name := Some v;
     processor_name := processor_name p;
     processor_type := processor_type p;
     processor_id := processor_id p;
     connection_name := connection_name p;
     template_name := template_name p;
     search_query := search_query p;
     properties := properties p;
     relationships := relationships p;
     source_id := source_id p;
     destination_id := destination_id p;
     position := position p;
     additional_params := additional_params p |}.

Definition set_processor_name (v : string) (p : IntentParameters) :=
  {| process_group_id := process_group_id p;
     process_group_name := process_group_name p;
     processor_name := Some v;
     processor_type := processor_type p;
     processor_id := processor_id p;
     connection_name := connection_name p;
     template_name := template_name p;
     search_query := search_query p;
     properties := properties p;
     relationships := relationships p;
     source_id := source_id p;
     destination_id := destination_id p;
     position := position p;
     additional_params := additional_params p |}.

Definition set_processor_type (v : string) (p : IntentParameters) :=
  {| process_group_id := process_group_id p;
     process_group_name := process_group_name p;
     processor_name := processor_name p;
     processor_type := Some v;
     processor_id := processor_id p;
     connection_name := connection_name p;
     template_name := template_name p;
     search_query := search_query p;
     properties := properties p;
     relationships := relationships p;
     source_id := source_id p;
     destination_id := destination_id p;
     position := position p;
     additional_params := additional_params p |}.

Definition set_template_name (v : string) (p : IntentParameters) :=
  {| process_group_id := process_group_id p;
     process_group_name := process_group_name p;
     processor_name := processor_name p;
     processor_type := processor_type p;
     processor_id := processor_id p;
     connection_name := connection_name p;
     template_name := Some v;
     search_query := search_query p;
     properties := properties p;
     relationships := relationships p;
     source_id := source_id p;
     destination_id := destination_id p;
     position := position p;
     additional_params := additional_params p |}.

Definition set_search_query (v : string) (p : IntentParameters) :=
  {| process_group_id := process_group_id p;
     process_group_name := process_group_name p;
     processor_name := processor_name p;
     processor_type := processor_type p;
     processor_id := processor_id p;
     connection_name := connection_name p;
     template_name := template_name p;
     search_query := Some v;
     properties := properties p;
     relationships := relationships p;
     source_id := source_id p;
     destination_id := destination_id p;
     position := position p;
     additional_params := additional_params p |}.

(** [class ProcessedIntent(BaseModel)] *)
Record ProcessedIntent : Type := MkProcessed {
  intent : NiFiIntent;
  parameters : IntentParameters;
  confidence : Q;
  raw_query : string;
  explanation : option string
}.

(** [_build_intent_patterns]: the dict in insertion order. *)
Definition intent_patterns : list (NiFiIntent * list string) :=
  [ (LIST_PROCESS_GROUPS,
      [ "list.*process\s*groups?";
        "show.*process\s*groups?";
        "get.*process\s*groups?";
        "what.*process\s*groups?" ]);
    (CREATE_PROCESS_GROUP,
      [ "create.*process\s*group";
        "make.*process\s*group";
        "add.*process\s*group";
        "new.*process\s*group" ]);
    (DELETE_PROCESS_GROUP,
      [ "delete.*process\s*group";
        "remove.*process\s*group";
        "drop.*process\s*group" ]);
    (START_PROCESS_GROUP,
      [ "start.*process\s*group";
        "run.*process\s*group";
        "begin.*process\s*group" ]);
    (STOP_PROCESS_GROUP,
      [ "stop.*process\s*group";
        "halt.*process\s*group";
        "pause.*process\s*group" ]);
    (LIST_PROCESSORS,
      [ "list.*processors?";
        "show.*processors?";
        "get.*processors?";
        "what.*processors?" ]);
    (CREATE_PROCESSOR,
      [ "create.*processor";
        "make.*processor";
        "add.*processor";
        "new.*processor" ]);
    (START_PROCESSOR,
      [ "start.*processor";
        "run.*processor";
        "begin.*processor" ]);
    (STOP_PROCESSOR,
      [ "stop.*processor";
        "halt.*processor";
        "pause.*processor" ]);
    (LIST_CONNECTIONS,
      [ "list.*connections?";
        "show.*connections?";
        "get.*connections?" ]);
    (CREATE_CONNECTION,
      [ "create.*connection";
        "connect.*";
        "link.*" ]);
    (LIST_TEMPLATES,
      [ "list.*templates?";
        "show.*templates?";
        "get.*templates?" ]);
    (CREATE_TEMPLATE,
      [ "create.*template";
        "make.*template";
        "save.*template" ]);
    (INSTANTIATE_TEMPLATE,
      [ "instantiate.*template";
        "use.*template";
        "apply.*template" ]);
    (SEARCH_COMPONENTS,
      [ "search.*";
        "find.*";
        "look\s+for.*" ]);
    (GET_STATUS,
      [ "status";
        "health";
        "how.*doing";
        "what.*status" ]);
    (GET_FLOW_STATUS,
      [ "flow.*status";
        "pipeline.*status";
        "dataflow.*status" ]);
    (MONITOR_FLOW,
      [ "monitor.*flow";
        "watch.*flow";
        "track.*flow" ]);
    (GET_DOCUMENTATION,
      [ "help.*";
        "documentation.*";
        "docs.*";
        "how.*use";
        "what.*is" ]);
    (GET_PROCESSOR_INFO,
      [ ".*processor.*info";
        ".*processor.*documentation";
        "what.*does.*processor" ]);
    (HELP,
      [ "help";
        "usage";
        "commands?";
        "what.*can.*do" ]) ].

(** *** Pattern matcher *)

(** Python's [min(a, b)]: [b] when it is smaller, else [a]. *)
Definition py_min (a b : Q) : Q := if Qle_bool a b then a else b.

(** [a > b] *)
Definition Qgt_bool (a b : Q) : bool := negb (Qle_bool a b).

(** [len(re.findall(pattern, text)) * 0.3] *)
Definition raw_score (pattern text : string) : Q :=
  (inject_Z (Z.of_nat (length (Re.findall pattern text))) * (3 # 10))%Q.

(** The loop variables [best_match] and [best_confidence]. *)
Definition best : Type := (option NiFiIntent * Q)%type.

(** The body of the inner loop, for one pattern of intent [i]. *)
Definition pattern_step (query_lower : string) (i : NiFiIntent)
  (b : best) (pattern : string) : best :=
  match Re.search pattern query_lower with
  | Some _ =>
      let confidence := raw_score pattern query_lower in
      if Qgt_bool confidence (snd b)
      then (Some i, py_min confidence (8 # 10)%Q)
      else b
  | None => b
  end.

(** The inner loop, over the patterns of one catalogue entry. *)
Definition intent_step (query_lower : string) (b : best)
  (entry : NiFiIntent * list string) : best :=
  fold_left (pattern_step query_lower (fst entry)) (snd entry) b.

(** Both loops, from [best_match = None], [best_confidence = 0.0]. *)
Definition run_patterns (catalogue : list (NiFiIntent * list string))
  (query_lower : string) : best :=
  fold_left (intent_step query_lower) catalogue (None, 0%Q).

(** *** Parameter extractor *)

Definition quoted_name_pattern : string :=
  "[" +:+ Py.DQ +:+ "\']([^" +:+ Py.DQ +:+ "\']+)[" +:+ Py.DQ +:+ "\']".

(** [processor_type_patterns], in insertion order. *)
Definition processor_type_patterns : list (string * string) :=
  [ ("getfile|get\s+file", "org.apache.nifi.processors.standard.GetFile");
    ("putfile|put\s+file", "org.apache.nifi.processors.standard.PutFile");
    ("gethttp|get\s+http", "org.apache.nifi.processors.standard.GetHTTP");
    ("puthttp|put\s+http", "org.apache.nifi.processors.standard.PutHTTP");
    ("kafka.*consume|consume.*kafka",
      "org.apache.nifi.processors.kafka.pubsub.ConsumeKafka_2_6");
    ("kafka.*publish|publish.*kafka",
      "org.apache.nifi.processors.kafka.pubsub.PublishKafka_2_6");
    ("jolt|transform.*json",
      "org.apache.nifi.processors.standard.JoltTransformJSON");
    ("route.*attribute",
      "org.apache.nifi.processors.standard.RouteOnAttribute") ].

Definition search_patterns : list string :=
  [ "search\s+for\s+(.+)";
    "find\s+(.+)";
    "look\s+for\s+(.+)" ].

Definition pg_patterns : list string :=
  [ "in\s+(?:the\s+)?(.+?)\s+(?:process\s+)?group";
    "(?:process\s+)?group\s+(.+)" ].

(** A [for ... if re.search(...): ...; break] loop: the first pattern
    that matches, with its match. *)
Fixpoint first_match {A : Type} (table : list (string * A))
  (query : string) : option (A * Re.rmatch_result) :=
  match table with
  | [] => None
  | (pattern, a) :: rest =>
      match Re.search pattern query with
      | Some m => Some (a, m)
      | None => first_match rest query
      end
  end.

Definition first_match_of (patterns : list string) (query : string)
  : option Re.rmatch_result :=
  option_map snd (first_match (map (fun p => (p, tt)) patterns) query).

(** [_extract_parameters_from_patterns(query, intent)] *)
Definition _extract_parameters_from_patterns (query : string)
  (i : NiFiIntent) : IntentParameters :=
  let params := IntentParameters_default in
  (* Extract names in quotes *)
  let name_matches := Re.findall_group quoted_name_pattern query in
  let params :=
    match name_matches with
    | first :: _ =>
        if intent_in i
             [CREATE_PROCESS_GROUP; START_PROCESS_GROUP; STOP_PROCESS_GROUP]
        then set_process_group_name first params
        else if intent_in i
                  [CREATE_PROCESSOR; START_PROCESSOR; STOP_PROCESSOR]
        then set_processor_name first params
        else if intent_in i [CREATE_TEMPLATE; INSTANTIATE_TEMPLATE]
        then set_template_name first params
        else params
    | [] => params
    end in
  (* Extract processor types *)
  let params :=
    match first_match processor_type_patterns query with
    | Some (ptype, _) => set_processor_type ptype params
    | None => params
    end in
  (* Extract search queries *)
  let params :=
    if intent_eqb i SEARCH_COMPONENTS
    then match first_match_of search_patterns query with
         | Some m => set_search_query (Py.strip (Re.group 1 m)) params
         | None => params
         end
    else params in
  (* Extract process group references *)
  let params :=
    match first_match_of pg_patterns query with
    | Some m =>
        let group_name :=
          Py.strip_chars [Py.dquote; Py.squote]
            (Py.strip (Re.group 1 m)) in
        if negb (existsb (String.eqb (Py.lower group_name))
                   ["root"; "main"; "default"])
        then set_process_group_name group_name params
        else params
    | None => params
    end in
  params.

(** [_process_with_patterns(query)] *)
Definition _process_with_patterns (query : string) : ProcessedIntent :=
  let query_lower := Py.strip (Py.lower query) in
  let '(best_match, best_confidence) :=
    run_patterns intent_patterns query_lower in
  let '(best_match, best_confidence) :=
    match best_match with
    | None => (UNKNOWN, 0%Q)
    | Some i => (i, best_confidence)
    end in
  (* Extract basic parameters using patterns *)
  let parameters :=
    _extract_parameters_from_patterns query_lower best_match in
  {| intent := best_match;
     parameters := parameters;
     confidence := best_confidence;
     raw_query := query;
     explanation := Some ("Matched pattern for " +:+ value best_match) |}.

(** *** Classifier adapter *)

(** What the adapter takes from outside the repository: the JSON decoder
    ([json.loads]), the conversion of a text to a float ([float(text)],
    [None] for its [ValueError]) and pydantic's validation of the fields
    the classifier supplied ([None] for a [ValidationError]).  Of the
    validators only what every pydantic release guarantees is assumed:
    without supplied fields the parameters are the defaults. *)
Class Library : Type := {
  json_loads : string -> result json;
  float_of_text : string -> option pyfloat;
  validate_parameters : list (string * json) -> option IntentParameters;
  validate_text : json -> option string;
  validate_parameters_nil :
    validate_parameters [] = Some IntentParameters_default
}.

Section Adapter.

Context {L : Library}.

(** [float(v)] on a decoded value. *)
Definition py_float (v : json) : result pyfloat :=
  match v with
  | JInt z =>
      if (Z.abs z <? float_int_bound)%Z
      then Return (Finite (inject_Z z))
      else Raised (Raise OverflowError
                     "int too large to convert to float")
  | JFloat q => Return (Finite q)
  | JNonFinite n => Return (NotFinite n)
  | JBool b => Return (Finite (if b then 1%Q else 0%Q))
  | JString s =>
      match float_of_text s with
      | Some f => Return f
      | None => Raised (Raise ValueError
                          "could not convert string to float")
      end
  | JNull | JArray _ | JObject _ =>
      Raised (Raise TypeError
                "float() argument must be a string or a real number")
  end.

(** [NiFiIntent(data.get("intent", NiFiIntent.UNKNOWN))] *)
Definition intent_field (fields : list (string * json))
  : result NiFiIntent :=
  match Json.get "intent" fields with
  | None => Return UNKNOWN
  | Some (JString s) =>
      match intent_of_value s with
      | Some i => Return i
      | None => Raised (Raise ValueError
                          (s +:+ " is not a valid NiFiIntent"))
      end
  | Some _ => Raised (Raise ValueError "not a valid NiFiIntent")
  end.

(** [IntentParameters] built from the keywords
    [data.get("parameters", {})]; unpacking anything but a dict
    raises [TypeError]. *)
Definition parameters_field (fields : list (string * json))
  : result IntentParameters :=
  match Json.get "parameters" fields with
  | None =>
      match validate_parameters [] with
      | Some p => Return p
      | None => Raised (Raise ValueError "validation error")
      end
  | Some (JObject supplied) =>
      match validate_parameters supplied with
      | Some p => Return p
      | None => Raised (Raise ValueError "validation error")
      end
  | Some _ =>
      Raised (Raise TypeError "argument after ** must be a mapping")
  end.

(** [float(data.get("confidence", 0.5))] *)
Definition confidence_field (fields : list (string * json))
  : result pyfloat :=
  match Json.get "confidence" fields with
  | None => Return (Finite (5 # 10)%Q)
  | Some v => py_float v
  end.

(** [ProcessedIntent(intent=..., explanation=...)]: the model
    validates [confidence] against [ge=0.0, le=1.0] and [explanation]
    against [Optional[str]]. *)
Definition ProcessedIntent_validate (i : NiFiIntent)
  (p : IntentParameters) (c : pyfloat) (q : string) (ex : json)
  : result ProcessedIntent :=
  let checked_confidence :=
    match c with
    | Finite x =>
        if Qle_bool 0 x && Qle_bool x 1 then Some x else None
    | NotFinite _ => None
    end in
  let checked_explanation :=
    match ex with
    | JString s => Some (Some s)
    | JNull => Some None
    | other => option_map Some (validate_text other)
    end in
  match checked_confidence, checked_explanation with
  | Some x, Some e =>
      Return {| intent := i; parameters := p; confidence := x;
                raw_query := q; explanation := e |}
  | _, _ => Raised (Raise ValueError "validation error")
  end.

(** The body of the [try] block of [_parse_llm_response]. *)
Definition parse_llm_body (response original_query : string)
  : result ProcessedIntent :=
  let! data := json_loads response in
  match data with
  | JObject fields =>
      let! i := intent_field fields in
      let! p := parameters_field fields in
      let! c := confidence_field fields in
      let ex :=
        match Json.get "explanation" fields with
        | None => JString EmptyString
        | Some v => v
        end in
      ProcessedIntent_validate i p c original_query ex
  | _ => Raised (Raise AttributeError "object has no attribute 'get'")
  end.

(** The result of the [except] branch. *)
Definition parse_failure (original_query : string) : ProcessedIntent :=
  {| intent := UNKNOWN;
     parameters := IntentParameters_default;
     confidence := 0%Q;
     raw_query := original_query;
     explanation := Some "Failed to parse LLM response" |}.

(** [_parse_llm_response(response, original_query)]:
    [except (json.JSONDecodeError, ValueError, KeyError)]. *)
Definition _parse_llm_response (response original_query : string)
  : result ProcessedIntent :=
  match parse_llm_body response original_query with
  | Return r => Return r
  | Raised e =>
      if is_value_error e || is_key_error e
      then Return (parse_failure original_query)
      else Raised e
  end.

End Adapter.

(** *** Prompts *)

Definition NL : string := String (ascii_of_nat 10) EmptyString.

Definition quoted (s : string) : string := Py.DQ +:+ s +:+ Py.DQ.

(** One line per member of [NiFiIntent]. *)
Definition intents_list : string :=
  Py.join NL
    (map (fun i =>
            "- " +:+ value i +:+ ": "
            +:+ Py.title (Py.replace_char "_" " " (value i)))
         all_intents).

(** [_build_system_prompt()] *)
Definition _build_system_prompt : string :=
  Py.join NL
    [ "You are an expert Apache NiFi assistant that processes natural language queries and extracts structured intent and parameters for NiFi operations.";
      EmptyString;
      "Available NiFi Intents:";
      intents_list;
      EmptyString;
      "Your task is to analyze user queries and return a JSON response with the following structure:";
      "{";
      "    " +:+ quoted "intent" +:+ ": "
        +:+ quoted "one_of_the_available_intents" +:+ ",";
      "    " +:+ quoted "parameters" +:+ ": {";
      "        " +:+ quoted "process_group_id" +:+ ": "
        +:+ quoted "root or specific group ID" +:+ ",";
      "        " +:+ quoted "process_group_name" +:+ ": "
        +:+ quoted "name if mentioned" +:+ ",";
      "        " +:+ quoted "processor_name" +:+ ": "
        +:+ quoted "processor name if mentioned" +:+ ",";
      "        " +:+ quoted "processor_type" +:+ ": "
        +:+ quoted "full processor class name if identifiable" +:+ ",";
      "        " +:+ quoted "processor_id" +:+ ": "
        +:+ quoted "processor ID if mentioned" +:+ ",";
      "        " +:+ quoted "connection_name" +:+ ": "
        +:+ quoted "connection name if mentioned" +:+ ",";
      "        " +:+ quoted "template_name" +:+ ": "
        +:+ quoted "template name if mentioned" +:+ ",";
      "        " +:+ quoted "search_query" +:+ ": "
        +:+ quoted "search terms if applicable" +:+ ",";
      "        " +:+ quoted "properties" +:+ ": {},";
      "        " +:+ quoted "relationships" +:+ ": [],";
      "        " +:+ quoted "source_id" +:+ ": "
        +:+ quoted "source component ID if mentioned" +:+ ",";
      "        " +:+ quoted "destination_id" +:+ ": "
        +:+ quoted "destination component ID if mentioned" +:+ ",";
      "        " +:+ quoted "position" +:+ ": {" +:+ quoted "x" +:+ ": 0, "
        +:+ quoted "y" +:+ ": 0},";
      "        " +:+ quoted "additional_params" +:+ ": {}";
      "    },";
      "    " +:+ quoted "confidence" +:+ ": 0.0-1.0,";
      "    " +:+ quoted "explanation" +:+ ": "
        +:+ quoted "Brief explanation of the extracted intent";
      "}";
      EmptyString;
      "Common NiFi processor types:";
      "- GetFile: org.apache.nifi.processors.standard.GetFile";
      "- PutFile: org.apache.nifi.processors.standard.PutFile";
      "- GetHTTP: org.apache.nifi.processors.standard.GetHTTP";
      "- PutHTTP: org.apache.nifi.processors.standard.PutHTTP";
      "- ConsumeKafka: org.apache.nifi.processors.kafka.pubsub.ConsumeKafka_2_6";
      "- PublishKafka: org.apache.nifi.processors.kafka.pubsub.PublishKafka_2_6";
      "- JoltTransformJSON: org.apache.nifi.processors.standard.JoltTransformJSON";
      "- RouteOnAttribute: org.apache.nifi.processors.standard.RouteOnAttribute";
      EmptyString;
      "Be precise and extract as much relevant information as possible from the query." ].

(** [_build_user_prompt(query)] *)
Definition _build_user_prompt (query : string) : string :=
  "Analyze this NiFi query and extract the intent and parameters: "
  +:+ quoted query.

(** *** Resolver *)

Record LLMMessage : Type := { role : string; content : string }.

(** A provider: what [generate_response(messages, temperature,
    max_tokens)] returns or raises. *)
Record LLMProvider : Type := {
  generate_response :
    list LLMMessage -> Q -> nat -> result string
}.

Section Resolver.

Context {L : Library}.

(** [_process_with_llm(query)] *)
Definition _process_with_llm (llm_provider : LLMProvider)
  (query : string) : result ProcessedIntent :=
  let system_prompt := _build_system_prompt in
  let user_prompt := _build_user_prompt query in
  let! response :=
    generate_response llm_provider
      [ {| role := "system"; content := system_prompt |};
        {| role := "user"; content := user_prompt |} ]
      (1 # 10)%Q 1000 in
  _parse_llm_response response query.

(** [process_query(query)]; [llm_provider] is [None] when no provider
    is configured.  [except Exception] catches whatever the adapter
    raises. *)
Definition process_query (llm_provider : option LLMProvider)
  (query : string) : ProcessedIntent :=
  match llm_provider with
  | Some provider =>
      match _process_with_llm provider query with
      | Return llm_result =>
          if Qgt_bool (confidence llm_result) (7 # 10)%Q
          then llm_result
          else _process_with_patterns query
      | Raised _ => _process_with_patterns query
      end
  | None => _process_with_patterns query
  end.

End Resolver.

End Intent.

(* ================================================================== *)
(** ** [src/nifi/api_client.py]: the request loop *)
(* ================================================================== *)

Module ApiClient.

(** The attributes of an [httpx.Response] the loop reads:
    [status_code], whether [content] is non-empty, what [json()] returns
    or raises, the text Python prints for that decoded body, and
    [text]. *)
Record Response : Type := {
  status_code : nat;
  has_content : bool;
  json_body : result json;
  json_body_str : string;
  text : string
}.

(** What one [client.request(...)] does: it returns a response or raises
    ([httpx.RequestError] for a connection error or a timeout). *)
Inductive outcome : Type :=
| Responded (r : Response)
| Failed (e : exn).

(** The arguments of [client.request]. *)
Record Request : Type := {
  method : string;
  url : string;
  params : option (list (string * json));
  json_data : option (list (string * json));
  data : option (list (string * json))
}.

(** The transport: the outcome of the [attempt]-th call of one
    [_make_request]. *)
Definition transport : Type := nat -> Request -> outcome.

(** What the loop does besides computing its result. *)
Inductive event : Type :=
| Sent (attempt : nat)
| Slept (seconds : nat).

Definition starts_with_http (endpoint : string) : bool :=
  String.prefix "http" endpoint.

(** [endpoint if endpoint.startswith('http')
     else f"/{endpoint.lstrip('/')}"] *)
Definition request_url (endpoint : string) : string :=
  if starts_with_http endpoint then endpoint
  else "/" +:+ Py.lstrip_by (Ascii.eqb "/"%char) endpoint.

(** The branch [if response.status_code >= 400]: the error that leaves
    the loop. *)
Definition status_error (req : Request) (response : Response) : exn :=
  let error_msg :=
    "API request failed: " +:+ method req +:+ " " +:+ url req +:+ " - "
    +:+ Py.str_of_nat (status_code response) in
  let error_msg :=
    match json_body response with
    | Return _ => error_msg +:+ " - " +:+ json_body_str response
    | Raised _ => error_msg +:+ " - " +:+ text response
    end in
  if has_content response
  then match json_body response with
       | Return _ => Raise NiFiAPIError error_msg
       | Raised e => e
       end
  else Raise NiFiAPIError error_msg.

(** What the loop does with a response: it raises on a status of 400
    or more, and returns the decoded body ([{}] for an empty one)
    otherwise. *)
Definition on_response (req : Request) (response : Response)
  : result (option json) :=
  if 400 <=? status_code response
  then Raised (status_error req response)
  else if has_content response
  then match json_body response with
       | Return j => Return (Some j)
       | Raised e => Raised e
       end
  else Return (Some (JObject [])).

(** The body of [for attempt in range(max_retries)], over the attempts
    still to run; [None] is the value of falling off the end of the
    loop. *)
Fixpoint attempts (send : transport) (max_retries : nat) (req : Request)
  (remaining : list nat) : result (option json) * list event :=
  match remaining with
  | [] => (Return None, [])
  | attempt :: later =>
      match send attempt req with
      | Responded response => (on_response req response, [Sent attempt])
      | Failed e =>
          if is_request_error e
          then
            if attempt =? max_retries - 1
            then (Raised (Raise NiFiAPIError
                            ("Request failed after "
                             +:+ Py.str_of_nat max_retries
                             +:+ " attempts: " +:+ message e)),
                  [Sent attempt])
            else
              let '(r, trace) := attempts send max_retries req later in
              (r, Sent attempt :: Slept (2 ^ attempt) :: trace)
          else (Raised e, [Sent attempt])
      end
  end.

(** [_make_request(method, endpoint, params, json_data, data)] with
    [config.max_retries = max_retries]. *)
Definition _make_request (send : transport) (max_retries : nat)
  (method endpoint : string)
  (params json_data data : option (list (string * json)))
  : result (option json) * list event :=
  let req := {| method := method; url := request_url endpoint;
                params := params; json_data := json_data;
                data := data |} in
  attempts send max_retries req (seq 0 max_retries).

(** How many times the transport was called. *)
Fixpoint sent_count (trace : list event) : nat :=
  match trace with
  | [] => 0
  | Sent _ :: rest => S (sent_count rest)
  | Slept _ :: rest => sent_count rest
  end.

(** The seconds slept, in order. *)
Fixpoint sleeps (trace : list event) : list nat :=
  match trace with
  | [] => []
  | Slept n :: rest => n :: sleeps rest
  | Sent _ :: rest => sleeps rest
  end.

(** The events of [k] failed attempts from attempt [a] on: each one is
    sent, then slept on. *)
Definition retried (a k : nat) : list event :=
  flat_map (fun i => [Sent i; Slept (2 ^ i)]) (seq a k).

(** The operations of the client that go through [_make_request], and
    the HTTP method each one passes. *)
Inductive operation : Type :=
| get_system_diagnostics | get_cluster_summary | get_controller_status
| get_process_groups | create_process_group | delete_process_group
| get_processors | create_processor | start_processor | stop_processor
| get_connections | create_connection
| get_templates | create_template | instantiate_template
| search_components
| start_process_group | stop_process_group
| get_processor_types | get_processor_documentation.

Definition http_method (op : operation) : string :=
  match op with
  | create_process_group | create_processor | create_connection
  | create_template | instantiate_template => "POST"
  | delete_process_group => "DELETE"
  | start_processor | stop_processor
  | start_process_group | stop_process_group => "PUT"
  | _ => "GET"
  end.

(** The operations that change the backend. *)
Definition mutating (op : operation) : bool :=
  negb (String.eqb (http_method op) "GET").

End ApiClient.

(* ================================================================== *)
(** ** [src/mcp/nifi_mcp_server.py]: dispatcher, query boundary, sessions *)
(* ================================================================== *)

Module Server.

Import Intent.

Definition dict : Type := list (string * json).

(** *** The backend collaborator *)

(** One call of a method of [self.nifi_client], with its arguments. *)
Inductive Call : Type :=
| get_process_groups (parent_group_id : option string)
| create_process_group (parent_group_id : option string) (name : string)
    (position : option dict)
| start_process_group (process_group_id : option string)
| stop_process_group (process_group_id : option string)
| get_processors (process_group_id : option string)
| create_processor (process_group_id : option string)
    (processor_type name : string) (position properties : option dict)
| get_connections (process_group_id : option string)
| create_connection (process_group_id : option string)
    (source_id destination_id : string) (relationships : list string)
    (name : option string)
| get_templates
| create_template (process_group_id : option string) (name : string)
    (description : json)
| search_components (query : string)
| get_system_diagnostics
| get_controller_status
| get_processor_documentation (processor_type : string)
| get_processor_types.

(** What a call returns.  A model object ([ProcessGroup], [Processor],
    [Connection], [Template]) is represented by its [dict()]. *)
Definition reply (c : Call) : Type :=
  match c with
  | get_process_groups _ | get_processors _ | get_connections _
  | get_templates | get_processor_types => list json
  | search_components _ => list (string * list json)
  | start_process_group _ | stop_process_group _ => bool
  | _ => json
  end.

(** The client: what each call returns or raises, given the calls made
    before it. *)
Definition NiFiAPIClient : Type :=
  list Call -> forall c : Call, result (reply c).

(** Computations that call the backend: the log of calls is threaded
    through, an exception keeps the log it was raised at. *)
Definition M (A : Type) : Type := list Call -> result A * list Call.

Definition ret {A : Type} (a : A) : M A := fun log => (Return a, log).

Definition raise {A : Type} (e : exn) : M A := fun log => (Raised e, log).

Definition bindM {A B : Type} (m : M A) (f : A -> M B) : M B :=
  fun log =>
    match m log with
    | (Return a, log') => f a log'
    | (Raised e, log') => (Raised e, log')
    end.

(** [try: m except Exception as e: h(e)] *)
Definition catch {A : Type} (m : M A) (h : exn -> M A) : M A :=
  fun log =>
    match m log with
    | (Return a, log') => (Return a, log')
    | (Raised e, log') => h e log'
    end.

(** [await self.nifi_client.<method>(...)] *)
Definition call (client : NiFiAPIClient) (c : Call) : M (reply c) :=
  fun log => (client log c, log ++ [c]).

Notation "'let*' x ':=' m 'in' k" := (bindM m (fun x => k))
  (at level 10, x name, m at level 100, k at level 200).

(** *** Handlers *)

(** The dict every handler returns: the keys [message] and [data]. *)
Record OpResult : Type := { op_message : string; op_data : json }.

(** An [Optional[str]] inside an f-string. *)
Definition fmt (o : option string) : string :=
  match o with
  | Some s => s
  | None => "None"
  end.

(** The value of [x] in [if not x] for an [Optional[str]]: [None] and
    the empty text are false. *)
Definition nonempty (o : option string) : option string :=
  match o with
  | Some EmptyString => None
  | other => other
  end.

Definition json_of_text (o : option string) : json :=
  match o with
  | Some s => JString s
  | None => JNull
  end.

Definition json_of_dict (o : option dict) : json :=
  match o with
  | Some d => JObject d
  | None => JNull
  end.

(** [params.dict()] *)
Definition params_dict (p : IntentParameters) : json :=
  JObject
    [ ("process_group_id", json_of_text (process_group_id p));
      ("process_group_name", json_of_text (process_group_name p));
      ("processor_name", json_of_text (processor_name p));
      ("processor_type", json_of_text (processor_type p));
      ("processor_id", json_of_text (processor_id p));
      ("connection_name", json_of_text (connection_name p));
      ("template_name", json_of_text (template_name p));
      ("search_query", json_of_text (search_query p));
      ("properties", json_of_dict (properties p));
      ("relationships",
        match relationships p with
        | Some l => JArray (map JString l)
        | None => JNull
        end);
      ("source_id", json_of_text (source_id p));
      ("destination_id", json_of_text (destination_id p));
      ("position", json_of_dict (position p));
      ("additional_params", json_of_dict (additional_params p)) ].

Definition count (l : list json) : json := JInt (Z.of_nat (length l)).

(** [get_intent_examples()] *)
Definition get_intent_examples : json :=
  JObject
    [ (value LIST_PROCESS_GROUPS, JArray
        [ JString "List all process groups";
          JString "Show me the process groups";
          JString "What process groups are available?" ]);
      (value CREATE_PROCESS_GROUP, JArray
        [ JString "Create a process group called 'Data Processing'";
          JString "Make a new process group named 'ETL Pipeline'";
          JString "Add a process group for data transformation" ]);
      (value LIST_PROCESSORS, JArray
        [ JString "List processors in the main process group";
          JString "Show me all processors";
          JString "What processors are running?" ]);
      (value CREATE_PROCESSOR, JArray
        [ JString "Create a GetFile processor";
          JString "Add a new Kafka consumer processor";
          JString "Make a processor to read files" ]);
      (value START_PROCESSOR, JArray
        [ JString "Start the GetFile processor";
          JString "Run all processors in the ETL group";
          JString "Begin processing data" ]);
      (value STOP_PROCESSOR, JArray
        [ JString "Stop the data processing flow";
          JString "Halt all processors";
          JString "Pause the ETL pipeline" ]);
      (value SEARCH_COMPONENTS, JArray
        [ JString "Search for GetFile processors";
          JString "Find all Kafka-related components";
          JString "Look for processors with 'transform' in the name" ]);
      (value GET_STATUS, JArray
        [ JString "What's the status of my flow?";
          JString "How is NiFi doing?";
          JString "Show me the system health" ]);
      (value GET_DOCUMENTATION, JArray
        [ JString "What is the GetFile processor?";
          JString "Help me understand how to use RouteOnAttribute";
          JString "Show documentation for JoltTransformJSON" ]) ].

(** [get_supported_intents()] *)
Definition get_supported_intents : json :=
  JArray (map (fun i => JString (value i)) all_intents).

Section Handlers.

Variable client : NiFiAPIClient.

Definition _list_process_groups (params : IntentParameters)
  : M OpResult :=
  let* process_groups :=
    call client (get_process_groups (process_group_id params)) in
  let message :=
    match process_groups with
    | [] => "No process groups found in '"
            +:+ fmt (process_group_id params) +:+ "'"
    | _ => "Found " +:+ Py.str_of_nat (length process_groups)
           +:+ " process group(s)"
    end in
  ret {| op_message := message;
         op_data := JObject [ ("process_groups", JArray process_groups);
                              ("count", count process_groups) ] |}.

Definition _create_process_group (params : IntentParameters)
  : M OpResult :=
  match nonempty (process_group_name params) with
  | None => raise (Raise ValueError "Process group name is required")
  | Some name =>
      let* pg :=
        call client
          (create_process_group (process_group_id params) name
             (position params)) in
      ret {| op_message := "Created process group '" +:+ name +:+ "'";
             op_data := JObject [ ("process_group", pg) ] |}
  end.

Definition _delete_process_group (params : IntentParameters)
  : M OpResult :=
  ret {| op_message :=
           "Delete process group operation not fully implemented";
         op_data := JObject [ ("parameters", params_dict params) ] |}.

Definition _start_process_group (params : IntentParameters)
  : M OpResult :=
  let* _ := call client (start_process_group (process_group_id params)) in
  ret {| op_message := "Started process group '"
                       +:+ fmt (process_group_id params) +:+ "'";
         op_data :=
           JObject [ ("process_group_id",
                      json_of_text (process_group_id params)) ] |}.

Definition _stop_process_group (params : IntentParameters)
  : M OpResult :=
  let* _ := call client (stop_process_group (process_group_id params)) in
  ret {| op_message := "Stopped process group '"
                       +:+ fmt (process_group_id params) +:+ "'";
         op_data :=
           JObject [ ("process_group_id",
                      json_of_text (process_group_id params)) ] |}.

Definition _list_processors (params : IntentParameters) : M OpResult :=
  let* processors :=
    call client (get_processors (process_group_id params)) in
  let message :=
    match processors with
    | [] => "No processors found in '"
            +:+ fmt (process_group_id params) +:+ "'"
    | _ => "Found " +:+ Py.str_of_nat (length processors)
           +:+ " processor(s)"
    end in
  ret {| op_message := message;
         op_data := JObject [ ("processors", JArray processors);
                              ("count", count processors) ] |}.

Definition _create_processor (params : IntentParameters) : M OpResult :=
  match nonempty (processor_type params) with
  | None => raise (Raise ValueError "Processor type is required")
  | Some ptype =>
      let name :=
        match nonempty (processor_name params) with
        | Some n => n
        | None => "New " +:+ Py.after_last "." EmptyString ptype
        end in
      let* processor :=
        call client
          (create_processor (process_group_id params) ptype name
             (position params) (properties params)) in
      ret {| op_message := "Created processor '" +:+ name
                           +:+ "' of type '" +:+ ptype +:+ "'";
             op_data := JObject [ ("processor", processor) ] |}
  end.

Definition _start_processor (params : IntentParameters) : M OpResult :=
  ret {| op_message := "Start processor operation not fully implemented";
         op_data := JObject [ ("parameters", params_dict params) ] |}.

Definition _stop_processor (params : IntentParameters) : M OpResult :=
  ret {| op_message := "Stop processor operation not fully implemented";
         op_data := JObject [ ("parameters", params_dict params) ] |}.

Definition _list_connections (params : IntentParameters) : M OpResult :=
  let* connections :=
    call client (get_connections (process_group_id params)) in
  let message :=
    match connections with
    | [] => "No connections found in '"
            +:+ fmt (process_group_id params) +:+ "'"
    | _ => "Found " +:+ Py.str_of_nat (length connections)
           +:+ " connection(s)"
    end in
  ret {| op_message := message;
         op_data := JObject [ ("connections", JArray connections);
                              ("count", count connections) ] |}.

Definition _create_connection (params : IntentParameters)
  : M OpResult :=
  match nonempty (source_id params), nonempty (destination_id params) with
  | Some src, Some dst =>
      let rels :=
        match relationships params with
        | Some (r :: rs) => r :: rs
        | _ => ["success"]
        end in
      let* connection :=
        call client
          (create_connection (process_group_id params) src dst rels
             (connection_name params)) in
      ret {| op_message := "Created connection from '" +:+ src
                           +:+ "' to '" +:+ dst +:+ "'";
             op_data := JObject [ ("connection", connection) ] |}
  | _, _ =>
      raise (Raise ValueError "Source and destination IDs are required")
  end.

Definition _list_templates (params : IntentParameters) : M OpResult :=
  let* templates := call client get_templates in
  let message :=
    match templates with
    | [] => "No templates found"
    | _ => "Found " +:+ Py.str_of_nat (length templates)
           +:+ " template(s)"
    end in
  ret {| op_message := message;
         op_data := JObject [ ("templates", JArray templates);
                              ("count", count templates) ] |}.

Definition _create_template (params : IntentParameters) : M OpResult :=
  match nonempty (template_name params) with
  | None => raise (Raise ValueError "Template name is required")
  | Some name =>
      match additional_params params with
      | None =>
          raise (Raise AttributeError
                   "'NoneType' object has no attribute 'get'")
      | Some extra =>
          let description :=
            match Json.get "description" extra with
            | Some v => v
            | None => JString EmptyString
            end in
          let* template :=
            call client
              (create_template (process_group_id params) name
                 description) in
          ret {| op_message := "Created template '" +:+ name +:+ "'";
                 op_data := JObject [ ("template", template) ] |}
      end
  end.

Definition _instantiate_template (params : IntentParameters)
  : M OpResult :=
  ret {| op_message :=
           "Instantiate template operation not fully implemented";
         op_data := JObject [ ("parameters", params_dict params) ] |}.

Definition _search_components (params : IntentParameters)
  : M OpResult :=
  match nonempty (search_query params) with
  | None => raise (Raise ValueError "Search query is required")
  | Some q =>
      let* results := call client (search_components q) in
      let total_results :=
        fold_left Nat.add (map (fun kv => length (snd kv)) results) 0 in
      ret {| op_message := "Found " +:+ Py.str_of_nat total_results
                           +:+ " component(s) matching '" +:+ q +:+ "'";
             op_data :=
               JObject
                 [ ("search_results",
                    JObject (map (fun kv => (fst kv, JArray (snd kv)))
                               results));
                   ("total_count", JInt (Z.of_nat total_results)) ] |}
  end.

Definition _get_status (params : IntentParameters) : M OpResult :=
  let* diagnostics := call client get_system_diagnostics in
  let* controller_status := call client get_controller_status in
  ret {| op_message := "Retrieved NiFi system status";
         op_data :=
           JObject [ ("system_diagnostics", diagnostics);
                     ("controller_status", controller_status) ] |}.

Definition _get_flow_status (params : IntentParameters) : M OpResult :=
  let* status := call client get_controller_status in
  ret {| op_message := "Retrieved flow status";
         op_data := JObject [ ("flow_status", status) ] |}.

Definition _get_help (params : IntentParameters) : M OpResult :=
  let examples := get_intent_examples in
  ret {| op_message := "Here are some example queries you can use:";
         op_data :=
           JObject [ ("examples", examples);
                     ("supported_intents", get_supported_intents) ] |}.

Definition _get_documentation (params : IntentParameters)
  : M OpResult :=
  match nonempty (processor_type params) with
  | Some ptype =>
      let* docs := call client (get_processor_documentation ptype) in
      ret {| op_message := "Retrieved documentation for " +:+ ptype;
             op_data := JObject [ ("documentation", docs) ] |}
  | None => _get_help params
  end.

Definition _get_processor_info (params : IntentParameters)
  : M OpResult :=
  match nonempty (processor_type params) with
  | Some ptype =>
      let* docs := call client (get_processor_documentation ptype) in
      ret {| op_message := "Retrieved information for " +:+ ptype;
             op_data := JObject [ ("processor_info", docs) ] |}
  | None =>
      let* processor_types := call client get_processor_types in
      ret {| op_message := "Found "
                           +:+ Py.str_of_nat (length processor_types)
                           +:+ " processor types";
             op_data :=
               JObject [ ("processor_types", JArray processor_types) ] |}
  end.

(** The [if]/[elif] chain of [_execute_nifi_operation]; the last
    branch is its [else]. *)
Definition dispatch (pi : ProcessedIntent) : M OpResult :=
  let params := parameters pi in
  match intent pi with
  | LIST_PROCESS_GROUPS => _list_process_groups params
  | CREATE_PROCESS_GROUP => _create_process_group params
  | DELETE_PROCESS_GROUP => _delete_process_group params
  | START_PROCESS_GROUP => _start_process_group params
  | STOP_PROCESS_GROUP => _stop_process_group params
  | LIST_PROCESSORS => _list_processors params
  | CREATE_PROCESSOR => _create_processor params
  | START_PROCESSOR => _start_processor params
  | STOP_PROCESSOR => _stop_processor params
  | LIST_CONNECTIONS => _list_connections params
  | CREATE_CONNECTION => _create_connection params
  | LIST_TEMPLATES => _list_templates params
  | CREATE_TEMPLATE => _create_template params
  | INSTANTIATE_TEMPLATE => _instantiate_template params
  | SEARCH_COMPONENTS => _search_components params
  | GET_STATUS => _get_status params
  | GET_FLOW_STATUS => _get_flow_status params
  | GET_DOCUMENTATION => _get_documentation params
  | GET_PROCESSOR_INFO => _get_processor_info params
  | HELP => _get_help params
  | DELETE_PROCESSOR | CONFIGURE_PROCESSOR | DELETE_CONNECTION
  | MONITOR_FLOW | UNKNOWN =>
      ret {| op_message := "Intent '" +:+ value (intent pi)
                           +:+ "' is not yet implemented";
             op_data :=
               JObject [ ("intent", JString (value (intent pi)));
                         ("parameters", params_dict params) ] |}
  end.

End Handlers.

(** The intents with a branch of their own in the chain. *)
Definition has_handler (i : NiFiIntent) : bool :=
  match i with
  | DELETE_PROCESSOR | CONFIGURE_PROCESSOR | DELETE_CONNECTION
  | MONITOR_FLOW | UNKNOWN => false
  | _ => true
  end.

(** *** Server state *)

(** One entry of a session's [queries] list. *)
Record QueryRecord : Type := {
  q_timestamp : nat;
  q_query : string;
  q_intent : string;
  q_confidence : Q;
  q_result : OpResult
}.

(** One value of [self.sessions]. *)
Record Session : Type := {
  created_at : nat;
  queries : list QueryRecord;
  context : dict
}.

(** The server object: the backend client ([None] until [initialize]
    has run), the provider of the intent processor, the sessions; and,
    outside the object, the log of backend calls and the clock. *)
Record State : Type := {
  nifi_client : option NiFiAPIClient;
  llm_provider : option LLMProvider;
  sessions : gmap string Session;
  calls : list Call;
  clock : nat
}.

Definition with_calls (log : list Call) (st : State) : State :=
  {| nifi_client := nifi_client st; llm_provider := llm_provider st;
     sessions := sessions st; calls := log; clock := clock st |}.

Definition with_sessions (m : gmap string Session) (st : State) : State :=
  {| nifi_client := nifi_client st; llm_provider := llm_provider st;
     sessions := m; calls := calls st; clock := clock st |}.

(** [datetime.now()] *)
Definition now (st : State) : nat * State :=
  (clock st,
   {| nifi_client := nifi_client st; llm_provider := llm_provider st;
      sessions := sessions st; calls := calls st;
      clock := S (clock st) |}).

(** [_execute_nifi_operation(intent, context)] *)
Definition _execute_nifi_operation (client : option NiFiAPIClient)
  (pi : ProcessedIntent) (context : option dict) : M OpResult :=
  match client with
  | None => raise (Raise RuntimeError "NiFi client not initialized")
  | Some c =>
      catch (dispatch c pi)
        (fun e =>
           if is_nifi_api_error e
           then raise (Raise RuntimeError
                         ("NiFi API error: " +:+ message e))
           else raise (Raise RuntimeError
                         ("Operation failed: " +:+ message e)))
  end.

(** [queries[-10:]] *)
Definition last10 (l : list QueryRecord) : list QueryRecord :=
  drop (length l - 10) l.

(** [_update_session(session_id, intent, result)] *)
Definition _update_session (session_id : string) (pi : ProcessedIntent)
  (result : OpResult) (st : State) : State :=
  let '(session, st) :=
    match sessions st !! session_id with
    | Some s => (s, st)
    | None =>
        let '(t, st') := now st in
        ({| created_at := t; queries := []; context := [] |}, st')
    end in
  let '(t, st) := now st in
  let appended :=
    queries session
    ++ [ {| q_timestamp := t;
            q_query := raw_query pi;
            q_intent := value (intent pi);
            q_confidence := confidence pi;
            q_result := result |} ] in
  (* Keep only last 10 queries per session *)
  let kept := if 10 <? length appended then last10 appended else appended in
  with_sessions
    (<[ session_id := {| created_at := created_at session;
                         queries := kept;
                         context := context session |} ]> (sessions st))
    st.

Module Request.
(** [class MCPRequest(BaseModel)] *)
Record t : Type := {
  query : string;
  context : option dict;
  session_id : option string
}.
End Request.

Module Response.
(** [class MCPResponse(BaseModel)] *)
Record t : Type := {
  success : bool;
  message : string;
  data : option json;
  intent : option string;
  confidence : option Q;
  timestamp : nat;
  session_id : option string
}.
End Response.

Section Boundary.

Context {L : Library}.

(** [process_query(request)] *)
Definition process_query (request : Request.t) (st : State)
  : Response.t * State :=
  (* Process intent *)
  let processed_intent :=
    Intent.process_query (llm_provider st) (Request.query request) in
  (* Execute NiFi operation *)
  match _execute_nifi_operation (nifi_client st) processed_intent
          (Request.context request) (calls st) with
  | (Return result, log) =>
      let st := with_calls log st in
      (* Build response *)
      let '(t, st) := now st in
      let response :=
        {| Response.success := true;
           Response.message := op_message result;
           Response.data := Some (op_data result);
           Response.intent := Some (value (intent processed_intent));
           Response.confidence := Some (confidence processed_intent);
           Response.timestamp := t;
           Response.session_id := Request.session_id request |} in
      (* Update session context *)
      let st :=
        match nonempty (Request.session_id request) with
        | Some sid => _update_session sid processed_intent result st
        | None => st
        end in
      (response, st)
  | (Raised e, log) =>
      let st := with_calls log st in
      let '(t, st) := now st in
      ({| Response.success := false;
          Response.message := "Error processing query: " +:+ message e;
          Response.data := None;
          Response.intent := None;
          Response.confidence := None;
          Response.timestamp := t;
          Response.session_id := Request.session_id request |}, st)
  end.

End Boundary.

End Server.

(* ================================================================== *)
(** ** A reference library *)
(* ================================================================== *)

(** An instance of [Intent.Library] to run the adapter on concrete
    responses: a decoder for the JSON grammar (with Python's [NaN] and
    [Infinity] literals), decimal float texts, and validators that accept
    the values every pydantic release accepts unchanged (texts and nulls
    for text fields, objects for dict fields, lists of texts for
    [relationships]).  A decimal is rounded to the binary64 number
    [json.loads] returns, kept as the rational it is.  A text nested
    deeper than the interpreter's recursion limit, which [json.loads]
    refuses with a [RecursionError], is decoded all the same.  The
    theorems on the adapter hold for every instance. *)
Module Reference.

Import Intent.

Definition is_json_ws (c : ascii) : bool :=
  let n := Py.code c in (n =? 32) || (n =? 9) || (n =? 10) || (n =? 13).

Definition skip_ws (s : string) : string := Py.lstrip_by is_json_ws s.

(** [Some rest] when [s] is [p] followed by [rest]. *)
Fixpoint strip_prefix (p s : string) : option string :=
  match p, s with
  | EmptyString, _ => Some s
  | String a p', String b s' =>
      if Ascii.eqb a b then strip_prefix p' s' else None
  | String _ _, EmptyString => None
  end.

Definition digit_of (c : ascii) : option Z :=
  let n := Py.code c in
  if (48 <=? n) && (n <=? 57) then Some (Z.of_nat (n - 48)) else None.

Definition hex_of (c : ascii) : option nat :=
  let n := Py.code c in
  if (48 <=? n) && (n <=? 57) then Some (n - 48)
  else if (97 <=? n) && (n <=? 102) then Some (n - 87)
  else if (65 <=? n) && (n <=? 70) then Some (n - 55)
  else None.

(** A run of digits: its value on top of [acc], how many there were, and
    the rest. *)
Fixpoint digits (s : string) (acc : Z) (n : nat) : Z * nat * string :=
  match s with
  | String c t =>
      match digit_of c with
      | Some d => digits t (acc * 10 + d)%Z (S n)
      | None => (acc, n, s)
      end
  | EmptyString => (acc, n, s)
  end.

(** The characters of a JSON string, after its opening quote. *)
Fixpoint string_body (s : string) (acc : string) : option (string * string) :=
  match s with
  | EmptyString => None
  | String c t =>
      if Ascii.eqb c Py.dquote
      then Some (Py.rev_string EmptyString acc, t)
      else if Ascii.eqb c "\"%char
      then
        match t with
        | String "u" (String h1 (String h2 (String h3 (String h4 t')))) =>
            match hex_of h1, hex_of h2, hex_of h3, hex_of h4 with
            | Some a, Some b, Some c3, Some d =>
                let n := ((a * 16 + b) * 16 + c3) * 16 + d in
                if n <? 256
                then string_body t' (String (ascii_of_nat n) acc)
                else None
            | _, _, _, _ => None
            end
        | String e t' =>
            let plain (n : nat) :=
              string_body t' (String (ascii_of_nat n) acc) in
            if Ascii.eqb e Py.dquote then plain 34
            else if Ascii.eqb e "\"%char then plain 92
            else if Ascii.eqb e "/"%char then plain 47
            else if Ascii.eqb e "b"%char then plain 8
            else if Ascii.eqb e "f"%char then plain 12
            else if Ascii.eqb e "n"%char then plain 10
            else if Ascii.eqb e "r"%char then plain 13
            else if Ascii.eqb e "t"%char then plain 9
            else None
        | EmptyString => None
        end
      else if Py.code c <? 32 then None
      else string_body t (String c acc)
  end.

(** [n / d] rounded to the nearest integer, ties to even. *)
Definition round_half_even (n d : Z) : Z :=
  let fl := (n / d)%Z in
  match (2 * (n mod d) ?= d)%Z with
  | Lt => fl
  | Gt => (fl + 1)%Z
  | Eq => if Z.even fl then fl else (fl + 1)%Z
  end.

(** The binary64 number nearest to [q], ties to even, as the rational it
    is: 53 bits of mantissa, exponents down to the subnormals.  A
    magnitude of [2 ^ 1024] stands for an overflow. *)
Definition binary64 (q : Q) : Q :=
  let n := Z.abs (Qnum q) in
  let d := Zpos (Qden q) in
  if (n =? 0)%Z then 0%Q
  else
    let e0 := (Z.log2 n - Z.log2 d)%Z in
    let below :=
      if (0 <=? e0)%Z then (n <? d * 2 ^ e0)%Z
      else (n * 2 ^ (- e0) <? d)%Z in
    let exponent := if below then (e0 - 1)%Z else e0 in
    let ulp := Z.max (exponent - 52) (-1074) in
    let mantissa :=
      if (0 <=? ulp)%Z then round_half_even n (d * 2 ^ ulp)
      else round_half_even (n * 2 ^ (- ulp)) d in
    let magnitude :=
      if (0 <=? ulp)%Z then inject_Z (mantissa * 2 ^ ulp)
      else Qred (Qmake mantissa (Z.to_pos (2 ^ (- ulp)))) in
    if (Qnum q <? 0)%Z then Qopp magnitude else magnitude.

(** The float with mantissa [m] and decimal exponent [e]: the decimal
    rounded to binary64, an infinity when it overflows. *)
Definition decimal (m e : Z) : json :=
  let q :=
    if (0 <=? e)%Z then inject_Z (m * 10 ^ e)
    else Qred (Qmake m (Z.to_pos (10 ^ (- e)))) in
  let r := binary64 q in
  if Qle_bool (inject_Z (2 ^ 1024)) (Qabs r)
  then JNonFinite (if Qle_bool 0 q then PosInfinity else NegInfinity)
  else JFloat r.

(** A number, from its first digit; [neg] when a minus sign came
    before. *)
Definition number (neg : bool) (s : string) : option (json * string) :=
  let sign (z : Z) := if neg then (- z)%Z else z in
  let int_part :=
    match s with
    | String "0" t => Some (0%Z, t)
    | _ => match digits s 0 0 with
           | (_, O, _) => None
           | (v, _, t) => Some (v, t)
           end
    end in
  match int_part with
  | None => None
  | Some (iv, t) =>
      let '(m, scale, t1, has_frac) :=
        match t with
        | String "." t' =>
            match digits t' iv 0 with
            | (_, O, _) => (iv, 0, t, false)
            | (v, n, t'') => (v, n, t'', true)
            end
        | _ => (iv, 0, t, false)
        end in
      let '(ex, t2, has_exp) :=
        let read (t' : string) (positive : bool) :=
          match digits t' 0 0 with
          | (_, O, _) => (0%Z, t1, false)
          | (v, _, t'') => ((if positive then v else - v)%Z, t'', true)
          end in
        match t1 with
        | String e t' =>
            if Ascii.eqb e "e"%char || Ascii.eqb e "E"%char
            then match t' with
                 | String "+" t'' => read t'' true
                 | String "-" t'' => read t'' false
                 | _ => read t' true
                 end
            else (0%Z, t1, false)
        | EmptyString => (0%Z, t1, false)
        end in
      if has_frac || has_exp
      then Some (decimal (sign m) (ex - Z.of_nat scale), t2)
      else Some (JInt (sign iv), t2)
  end.

(** One JSON value at the head of [s] (no leading blank), and the
    rest. *)
Fixpoint parse_value (fuel : nat) (s : string) : option (json * string) :=
  match fuel with
  | O => None
  | S fuel' =>
      match s with
      | EmptyString => None
      | String c t =>
          if Ascii.eqb c Py.dquote then
            match string_body t EmptyString with
            | Some (v, t') => Some (JString v, t')
            | None => None
            end
          else if Ascii.eqb c "{"%char then
            match skip_ws t with
            | String "}" t' => Some (JObject [], t')
            | members =>
                (fix loop (n : nat) (s : string) (acc : list (string * json))
                   : option (json * string) :=
                   match n, s with
                   | S n', String q t1 =>
                       if Ascii.eqb q Py.dquote then
                         match string_body t1 EmptyString with
                         | Some (k, t2) =>
                             match skip_ws t2 with
                             | String ":" t3 =>
                                 match parse_value fuel' (skip_ws t3) with
                                 | Some (v, t4) =>
                                     match skip_ws t4 with
                                     | String "," t5 =>
                                         loop n' (skip_ws t5)
                                           (Json.set k v acc)
                                     | String "}" t5 =>
                                         Some (JObject (Json.set k v acc),
                                               t5)
                                     | _ => None
                                     end
                                 | None => None
                                 end
                             | _ => None
                             end
                         | None => None
                         end
                       else None
                   | _, _ => None
                   end) (String.length members) members []
            end
          else if Ascii.eqb c "["%char then
            match skip_ws t with
            | String "]" t' => Some (JArray [], t')
            | items =>
                (fix loop (n : nat) (s : string) (acc : list json)
                   : option (json * string) :=
                   match n with
                   | S n' =>
                       match parse_value fuel' s with
                       | Some (v, t1) =>
                           match skip_ws t1 with
                           | String "," t2 =>
                               loop n' (skip_ws t2) (v :: acc)
                           | String "]" t2 =>
                               Some (JArray (rev (v :: acc)), t2)
                           | _ => None
                           end
                       | None => None
                       end
                   | O => None
                   end) (String.length items) items []
            end
          else if Ascii.eqb c "-"%char then
            match strip_prefix "Infinity" t with
            | Some t' => Some (JNonFinite NegInfinity, t')
            | None => number true t
            end
          else
            match strip_prefix "null" s, strip_prefix "true" s,
                  strip_prefix "false" s, strip_prefix "NaN" s,
                  strip_prefix "Infinity" s with
            | Some t', _, _, _, _ => Some (JNull, t')
            | _, Some t', _, _, _ => Some (JBool true, t')
            | _, _, Some t', _, _ => Some (JBool false, t')
            | _, _, _, Some t', _ => Some (JNonFinite NaN, t')
            | _, _, _, _, Some t' => Some (JNonFinite PosInfinity, t')
            | _, _, _, _, _ => number false s
            end
      end
  end.

Definition decode_error : exn :=
  Raise JSONDecodeError "Expecting value".

(** [json.loads(text)] *)
Definition loads (text : string) : result json :=
  match parse_value (S (String.length text)) (skip_ws text) with
  | Some (v, t) =>
      match skip_ws t with
      | EmptyString => Return v
      | _ => Raised (Raise JSONDecodeError "Extra data")
      end
  | None => Raised decode_error
  end.

(** [digit (["_"] digit)*] on top of [acc]: value, number of digits,
    rest. *)
Fixpoint digitpart (fuel : nat) (s : string) (acc : Z) (n : nat)
  : Z * nat * string :=
  match fuel, s with
  | S fuel', String c t =>
      match digit_of c with
      | Some d => digitpart fuel' t (acc * 10 + d)%Z (S n)
      | None =>
          match n, t with
          | S _, String c' _ =>
              if Ascii.eqb c "_"%char
              then match digit_of c' with
                   | Some _ => digitpart fuel' t acc n
                   | None => (acc, n, s)
                   end
              else (acc, n, s)
          | _, _ => (acc, n, s)
          end
      end
  | _, _ => (acc, n, s)
  end.

Definition float_of_decimal (m e : Z) : pyfloat :=
  match decimal m e with
  | JNonFinite n => NotFinite n
  | JFloat q => Finite q
  | _ => Finite 0
  end.

(** [float(text)]: blanks stripped, an optional sign, then [inf],
    [infinity], [nan] in any case or a decimal number. *)
Definition float_of_text (text : string) : option pyfloat :=
  let s := Py.lower (Py.strip text) in
  let '(neg, s) :=
    match s with
    | String "-" t => (true, t)
    | String "+" t => (false, t)
    | _ => (false, s)
    end in
  if String.eqb s "inf" || String.eqb s "infinity"
  then Some (NotFinite (if neg then NegInfinity else PosInfinity))
  else if String.eqb s "nan" then Some (NotFinite NaN)
  else
    let fuel := String.length s in
    let '(iv, ni, t) := digitpart fuel s 0 0 in
    let '(m, nf, t) :=
      match t with
      | String "." t' =>
          let '(v, n, t'') := digitpart fuel t' iv 0 in (v, n, t'')
      | _ => (iv, 0, t)
      end in
    if (ni + nf =? 0) then None
    else
      let finish (ex : Z) :=
        Some (float_of_decimal (if neg then - m else m)%Z
                (ex - Z.of_nat nf)) in
      match t with
      | EmptyString => finish 0%Z
      | String "e" t' =>
          let '(positive, t') :=
            match t' with
            | String "+" t'' => (true, t'')
            | String "-" t'' => (false, t'')
            | _ => (true, t')
            end in
          match digitpart fuel t' 0 0 with
          | (_, O, _) => None
          | (v, _, EmptyString) => finish (if positive then v else - v)%Z
          | _ => None
          end
      | _ => None
      end.

(** An [Optional[str]] field. *)
Definition text_field (key : string) (default : option string)
  (supplied : list (string * json)) : option (option string) :=
  match Json.get key supplied with
  | None => Some default
  | Some JNull => Some None
  | Some (JString s) => Some (Some s)
  | Some _ => None
  end.

(** An [Optional[Dict[str, Any]]] field. *)
Definition dict_field (key : string)
  (default : option (list (string * json)))
  (supplied : list (string * json))
  : option (option (list (string * json))) :=
  match Json.get key supplied with
  | None => Some default
  | Some JNull => Some None
  | Some (JObject d) => Some (Some d)
  | Some _ => None
  end.

Fixpoint texts (l : list json) : option (list string) :=
  match l with
  | [] => Some []
  | JString s :: rest => option_map (cons s) (texts rest)
  | _ :: _ => None
  end.

(** The [Optional[List[str]]] field. *)
Definition list_field (key : string) (supplied : list (string * json))
  : option (option (list string)) :=
  match Json.get key supplied with
  | None => Some (Some [])
  | Some JNull => Some None
  | Some (JArray l) => option_map Some (texts l)
  | Some _ => None
  end.

Fixpoint floats (d : list (string * json)) : option (list (string * json)) :=
  match d with
  | [] => Some []
  | (k, JInt z) :: rest =>
      option_map (cons (k, JFloat (inject_Z z))) (floats rest)
  | (k, JFloat q) :: rest => option_map (cons (k, JFloat q)) (floats rest)
  | _ :: _ => None
  end.

(** The [Optional[Dict[str, float]]] field. *)
Definition position_field (supplied : list (string * json))
  : option (option (list (string * json))) :=
  match Json.get "position" supplied with
  | None => Some None
  | Some JNull => Some None
  | Some (JObject d) => option_map Some (floats d)
  | Some _ => None
  end.

(** [IntentParameters] built from the supplied keywords; keys that are
    no field are ignored. *)
Definition validate_parameters (supplied : list (string * json))
  : option IntentParameters :=
  f1 ← text_field "process_group_id" (Some "root") supplied;
  f2 ← text_field "process_group_name" None supplied;
  f3 ← text_field "processor_name" None supplied;
  f4 ← text_field "processor_type" None supplied;
  f5 ← text_field "processor_id" None supplied;
  f6 ← text_field "connection_name" None supplied;
  f7 ← text_field "template_name" None supplied;
  f8 ← text_field "search_query" None supplied;
  f9 ← dict_field "properties" (Some []) supplied;
  f10 ← list_field "relationships" supplied;
  f11 ← text_field "source_id" None supplied;
  f12 ← text_field "destination_id" None supplied;
  f13 ← position_field supplied;
  f14 ← dict_field "additional_params" (Some []) supplied;
  Some (MkParams f1 f2 f3 f4 f5 f6 f7 f8 f9 f10 f11 f12 f13 f14).

#[export] Instance library : Library := {|
  json_loads := loads;
  Intent.float_of_text := float_of_text;
  Intent.validate_parameters := validate_parameters;
  validate_text := fun _ => None;
  validate_parameters_nil := eq_refl
|}.

End Reference.

(* ================================================================== *)
(** ** The pattern matcher as the specification words it *)
(* ================================================================== *)

(** Section 4.1 of the specification, transcribed: the score of an intent
    is the maximum of the raw scores of its patterns that match; one
    running best (intent, score) is kept over the intents and replaced on a
    strictly greater score only; the confidence is the best score capped at
    0.8 at the end.  Kept apart from [Intent.run_patterns], which is the
    loop of the source. *)
Module PatternSpec.

Import Intent.

Definition keep_greater (best : option Q) (c : Q) : option Q :=
  match best with
  | None => Some c
  | Some b => if Qgt_bool c b then Some c else Some b
  end.

(** The maximum raw score over the patterns of one intent that match. *)
Definition intent_score (query_lower : string) (patterns : list string)
  : option Q :=
  fold_left
    (fun best p =>
       match Re.search p query_lower with
       | Some _ => keep_greater best (raw_score p query_lower)
       | None => best
       end)
    patterns None.

(** The running best over the intents, in catalogue order. *)
Definition running_best (catalogue : list (NiFiIntent * list string))
  (query_lower : string) : option (NiFiIntent * Q) :=
  fold_left
    (fun best entry =>
       match intent_score query_lower (snd entry) with
       | None => best
       | Some s =>
           match best with
           | None => Some (fst entry, s)
           | Some (i, b) =>
               if Qgt_bool s b then Some (fst entry, s) else Some (i, b)
           end
       end)
    catalogue None.

(** The intent and the confidence the specification reports. *)
Definition pattern_match (query_lower : string) : NiFiIntent * Q :=
  match running_best intent_patterns query_lower with
  | None => (UNKNOWN, 0%Q)
  | Some (i, s) => (i, py_min s (8 # 10)%Q)
  end.

End PatternSpec.

(* ================================================================== *)
(** ** Scenarios and statement vocabulary *)
(* ================================================================== *)

Module Scenario.

Import Intent Server.

(** A provider that answers every request with the same text. *)
Definition constant_provider (response : string) : LLMProvider :=
  {| generate_response := fun _ _ _ => Return response |}.

(** A provider whose every request times out. *)
Definition failing_provider : LLMProvider :=
  {| generate_response :=
       fun _ _ _ => Raised (Raise OtherException "request timed out") |}.

(** The records the session store holds for a session id. *)
Definition stored_records (session_id : string) (st : State)
  : list QueryRecord :=
  match sessions st !! session_id with
  | Some s => queries s
  | None => []
  end.

(** An interaction to append: the resolved intent and the handler's
    result. *)
Definition interaction : Type := (ProcessedIntent * OpResult)%type.

(** What a stored record keeps of an interaction (its timestamp
    apart). *)
Definition payload (r : QueryRecord) : string * string * Q * OpResult :=
  (q_query r, q_intent r, q_confidence r, q_result r).

Definition payload_of (i : interaction) : string * string * Q * OpResult :=
  (raw_query (fst i), value (intent (fst i)), confidence (fst i), snd i).

(** The interactions appended to one session, one [_update_session]
    each, in order. *)
Definition append_all (session_id : string) (l : list interaction)
  (st : State) : State :=
  fold_left (fun st i => _update_session session_id (fst i) (snd i) st)
    l st.

(** A server before [initialize]: no backend client, no provider, no
    session. *)
Definition fresh_server : State :=
  {| nifi_client := None; llm_provider := None; sessions := ∅;
     calls := []; clock := 0 |}.

(** A backend whose every call fails with a [NiFiAPIError]. *)
Definition unreachable_backend : NiFiAPIClient :=
  fun _ _ => Raised (Raise NiFiAPIError "connection refused").

(** A backend that answers every call with empty data. *)
Definition empty_backend : NiFiAPIClient :=
  fun _ c =>
    match c return result (reply c) with
    | get_process_groups _ | get_processors _ | get_connections _
    | get_templates | get_processor_types => Return []
    | search_components _ => Return []
    | start_process_group _ | stop_process_group _ => Return true
    | create_process_group _ _ _ => Return (JObject [])
    | create_processor _ _ _ _ _ => Return (JObject [])
    | create_connection _ _ _ _ _ => Return (JObject [])
    | create_template _ _ _ => Return (JObject [])
    | get_system_diagnostics => Return (JObject [])
    | get_controller_status => Return (JObject [])
    | get_processor_documentation _ => Return (JObject [])
    end.

(** A server after [initialize], on the given backend. *)
Definition server_on (client : NiFiAPIClient) : State :=
  {| nifi_client := Some client; llm_provider := None; sessions := ∅;
     calls := []; clock := 0 |}.

(** A transport-level failure: the call raised an
    [httpx.RequestError]. *)
Definition transport_failure (o : ApiClient.outcome) : Prop :=
  match o with
  | ApiClient.Failed e => is_request_error e = true
  | ApiClient.Responded _ => False
  end.





(** The running confidence of the pattern loop is between 0 and the
    cap. *)
Definition within_cap (b : best) : Prop := (0 <= snd b <= 8 # 10)%Q.

(** A request without context. *)
Definition ask (query : string) (session_id : option string)
  : Request.t :=
  {| Request.query := query; Request.context := Some [];
     Request.session_id := session_id |}.

(** The [n]-th of a run of distinct interactions. *)
Definition numbered (n : nat) : interaction :=
  ({| intent := HELP;
      parameters := IntentParameters_default;
      confidence := (3 # 10)%Q;
      raw_query := "query " +:+ Py.str_of_nat n;
      explanation := None |},
   {| op_message := "answer " +:+ Py.str_of_nat n; op_data := JNull |}).

Definition fifteen : list interaction := map numbered (seq 1 15).

End Scenario.
Import Scenario.

(* ================================================================== *)
(** ** The pattern loop over an abstract matcher *)
(* ================================================================== *)

(** The two loops of [_process_with_patterns] with the regular-expression
    engine abstracted: [hit p] says whether the pattern is found in the
    query, [sc p] is its raw score.  [Loop.run (Loop.found ql)
    (Loop.score_in ql)] is [Intent.run_patterns] on the query [ql]. *)
Module Loop.

Import Intent.

(** [re.search(pattern, query_lower)] is truthy. *)
Definition found (query_lower pattern : string) : bool :=
  match Re.search pattern query_lower with
  | Some _ => true
  | None => false
  end.

(** [len(re.findall(pattern, query_lower)) * 0.3] *)
Definition score_in (query_lower pattern : string) : Q :=
  raw_score pattern query_lower.

Section Abstract.

Variable T : Type.
Variable hit : T -> bool.
Variable sc : T -> Q.

(** The body of the inner loop. *)
Definition step (i : NiFiIntent) (b : best) (p : T) : best :=
  if hit p
  then if Qgt_bool (sc p) (snd b)
       then (Some i, py_min (sc p) (8 # 10)%Q)
       else b
  else b.

(** Both loops. *)
Definition run (catalogue : list (NiFiIntent * list T)) : best :=
  fold_left (fun b entry => fold_left (step (fst entry)) (snd entry) b)
    catalogue (None, 0%Q).

(** The (intent, pattern) pairs in the order the loops visit them. *)
Definition visits (catalogue : list (NiFiIntent * list T))
  : list (NiFiIntent * T) :=
  flat_map (fun entry => map (pair (fst entry)) (snd entry)) catalogue.

(** The body of the inner loop on one visited pair. *)
Definition visit (b : best) (ip : NiFiIntent * T) : best :=
  step (fst ip) b (snd ip).

(** After the visits [done]: the stored confidence bounds the capped
    score of every pair that hit, and it is the capped score of a pair
    that hit, whose intent is the stored one. *)
Definition best_so_far (done : list (NiFiIntent * T)) (b : best) : Prop :=
  (forall ip, In ip done -> hit (snd ip) = true ->
              (py_min (sc (snd ip)) (8 # 10) <= snd b)%Q)
  /\ ((b = (None, 0%Q) /\ forall ip, In ip done -> hit (snd ip) = false)
      \/ exists ip, In ip done /\ hit (snd ip) = true
                    /\ b = (Some (fst ip), py_min (sc (snd ip)) (8 # 10)%Q))
  /\ (0 <= snd b <= 8 # 10)%Q.

(** After the visits [done]: the stored pair is the first visited pair of
    maximal raw score. *)
Definition first_best (done : list (NiFiIntent * T)) (b : best) : Prop :=
  (b = (None, 0%Q) /\ forall ip, In ip done -> hit (snd ip) = false)
  \/ exists l1 ip l2,
       done = l1 ++ ip :: l2 /\ hit (snd ip) = true
       /\ b = (Some (fst ip), sc (snd ip))
       /\ (forall jq, In jq l1 -> hit (snd jq) = true ->
                      (sc (snd jq) < sc (snd ip))%Q)
       /\ (forall jq, In jq l2 -> hit (snd jq) = true ->
                      (sc (snd jq) <= sc (snd ip))%Q).

End Abstract.

(** The intents the pattern loop can answer. *)
Definition catalogue_intents : list NiFiIntent := map fst intent_patterns.

End Loop.

(* ================================================================== *)
(** ** The requests behind the calls of the server *)
(* ================================================================== *)

Module Backend.

Import Server.

(** The method of [NiFiAPIClient] behind each call the handlers make,
    as an operation of the request loop. *)
Definition operation_of (c : Call) : ApiClient.operation :=
  match c with
  | get_process_groups _ => ApiClient.get_process_groups
  | create_process_group _ _ _ => ApiClient.create_process_group
  | start_process_group _ => ApiClient.start_process_group
  | stop_process_group _ => ApiClient.stop_process_group
  | get_processors _ => ApiClient.get_processors
  | create_processor _ _ _ _ _ => ApiClient.create_processor
  | get_connections _ => ApiClient.get_connections
  | create_connection _ _ _ _ _ => ApiClient.create_connection
  | get_templates => ApiClient.get_templates
  | create_template _ _ _ => ApiClient.create_template
  | search_components _ => ApiClient.search_components
  | get_system_diagnostics => ApiClient.get_system_diagnostics
  | get_controller_status => ApiClient.get_controller_status
  | get_processor_documentation _ => ApiClient.get_processor_documentation
  | get_processor_types => ApiClient.get_processor_types
  end.

(** A call whose request is no [GET]. *)
Definition changes_backend (c : Call) : bool :=
  ApiClient.mutating (operation_of c).

(** The process group a call is addressed to, for the calls that take
    one. *)
Definition group_of (c : Call) : option (option string) :=
  match c with
  | get_process_groups g | create_process_group g _ _
  | start_process_group g | stop_process_group g
  | get_processors g | create_processor g _ _ _ _
  | get_connections g | create_connection g _ _ _ _
  | create_template g _ _ => Some g
  | _ => None
  end.

End Backend.

(* ================================================================== *)
(** ** [src/nifi/api_client.py]: diagnostics and health check *)
(* ================================================================== *)

Module Health.

Import ApiClient.

(** [get_system_diagnostics()] *)
Definition get_system_diagnostics (send : transport) (max_retries : nat)
  : result (option json) * list event :=
  _make_request send max_retries "GET" "/system-diagnostics" None None None.

(** [health_check()]: [True] when the diagnostics call returns, [False]
    when it raises ([except Exception]). *)
Definition health_check (send : transport) (max_retries : nat)
  : bool * list event :=
  match get_system_diagnostics send max_retries with
  | (Return _, trace) => (true, trace)
  | (Raised _, trace) => (false, trace)
  end.

(** A transport that refuses the URL of every request: the exception is
    no [httpx.RequestError]. *)
Definition invalid_url : transport :=
  fun _ _ => Failed (Raise OtherException "Invalid URL").

End Health.

(* ================================================================== *)
(** ** [src/llm/intent_processor.py]: the provider of the processor *)
(* ================================================================== *)

Module Construction.

Import Intent.

Section Providers.

(** The constructors of the two provider classes: what [OpenAIProvider]
    and [AnthropicProvider], called with the given keywords, return or
    raise (each raises [ValueError] when it finds no API key in its
    keywords or in the environment). *)
Variable OpenAIProvider : list (string * json) -> result LLMProvider.
Variable AnthropicProvider : list (string * json) -> result LLMProvider.

(** [_create_default_provider()] *)
Definition _create_default_provider : option LLMProvider :=
  match OpenAIProvider [] with
  | Return provider => Some provider
  | Raised _ =>
      match AnthropicProvider [] with
      | Return provider => Some provider
      | Raised _ => None
      end
  end.

(** [IntentProcessor(llm_provider)]: the provider the processor keeps,
    [llm_provider or self._create_default_provider()]. *)
Definition IntentProcessor (llm_provider : option LLMProvider)
  : option LLMProvider :=
  match llm_provider with
  | Some provider => Some provider
  | None => _create_default_provider
  end.

(** [create_intent_processor(provider_type, **kwargs)] *)
Definition create_intent_processor (provider_type : string)
  (kwargs : list (string * json)) : option LLMProvider :=
  let provider :=
    if String.eqb (Py.lower provider_type) "openai"
    then match OpenAIProvider kwargs with
         | Return p => Some p
         | Raised _ => None
         end
    else if String.eqb (Py.lower provider_type) "anthropic"
    then match AnthropicProvider kwargs with
         | Return p => Some p
         | Raised _ => None
         end
    else None in
  IntentProcessor provider.

End Providers.

(** An environment without any API key: both constructors raise. *)
Definition no_api_key (kwargs : list (string * json)) : result LLMProvider :=
  Raised (Raise ValueError "API key is required").

End Construction.

(* ================================================================== *)
(** * Properties *)
(* ================================================================== *)

Import Intent.

(** ** Resolver *)

Section ResolverFacts.

Context {L : Library}.

Lemma process_query_unconfigured (query : string) :
  process_query None query = _process_with_patterns query.
Proof. reflexivity. Qed.

Lemma process_query_raised (p : LLMProvider) (query : string) (e : exn) :
  _process_with_llm p query = Raised e ->
  process_query (Some p) query = _process_with_patterns query.
Proof. intros H. unfold process_query. now rewrite H. Qed.

Lemma process_query_low_confidence (p : LLMProvider) (query : string)
  (r : ProcessedIntent) :
  _process_with_llm p query = Return r ->
  (confidence r <= 7 # 10)%Q ->
  process_query (Some p) query = _process_with_patterns query.
Proof.
  intros H Hle. unfold process_query. rewrite H.
  unfold Qgt_bool.
  apply Qle_bool_iff in Hle. now rewrite Hle.
Qed.

Lemma process_query_high_confidence (p : LLMProvider) (query : string)
  (r : ProcessedIntent) :
  _process_with_llm p query = Return r ->
  (7 # 10 < confidence r)%Q ->
  process_query (Some p) query = r.
Proof.
  intros H Hlt. unfold process_query. rewrite H.
  unfold Qgt_bool.
  destruct (Qle_bool (confidence r) (7 # 10)) eqn:E; [|reflexivity].
  apply Qle_bool_iff in E. exfalso. now apply (Qlt_not_le _ _ Hlt).
Qed.

(** A provider that raises makes the adapter raise. *)
Lemma _process_with_llm_provider_raises (p : LLMProvider)
  (query : string) (e : exn) :
  (forall messages temperature max_tokens,
      generate_response p messages temperature max_tokens = Raised e) ->
  _process_with_llm p query = Raised e.
Proof. intros H. unfold _process_with_llm. now rewrite H. Qed.

End ResolverFacts.

(** C1. Whenever no classifier is configured, the classifier adapter
    raises, or it returns a result of confidence at most 0.7, [resolve]
    returns exactly the [ProcessedIntent] that the pattern matcher with
    the parameter extractor computes on the query alone: nothing of the
    classifier's result enters it. *)
Theorem C1_resolver_falls_back_to_patterns {L : Library}
  (llm_provider : option LLMProvider) (query : string) :
  (llm_provider = None
   \/ (exists p e,
          llm_provider = Some p /\ _process_with_llm p query = Raised e)
   \/ (exists p r,
          llm_provider = Some p /\ _process_with_llm p query = Return r
          /\ (confidence r <= 7 # 10)%Q)) ->
  process_query llm_provider query = _process_with_patterns query.
Proof.
  intros [-> | [(p & e & -> & H) | (p & r & -> & H & Hle)]].
  - apply process_query_unconfigured.
  - eapply process_query_raised; eassumption.
  - eapply process_query_low_confidence; eassumption.
Qed.

Lemma C1_witness :
  process_query (L := Reference.library)
    (Some (constant_provider "{}")) "list all process groups"
  = _process_with_patterns "list all process groups".
Proof.
  apply (C1_resolver_falls_back_to_patterns (L := Reference.library)).
  right. right.
  exists (constant_provider "{}").
  eexists. split; [reflexivity|]. split.
  - vm_compute. reflexivity.
  - vm_compute. discriminate.
Defined.

(** ** Session store *)

Import Server.

Lemma last10_short (l : list QueryRecord) :
  length l <= 10 -> last10 l = l.
Proof.
  intros H. unfold last10.
  replace (length l - 10) with 0 by lia. reflexivity.
Qed.

(** What one [_update_session] leaves in the store. *)
Lemma stored_records_update (sid : string) (pi : ProcessedIntent)
  (res : OpResult) (st : State) :
  exists t,
    stored_records sid (_update_session sid pi res st)
    = last10 (stored_records sid st
              ++ [ {| q_timestamp := t; q_query := raw_query pi;
                      q_intent := value (intent pi);
                      q_confidence := confidence pi;
                      q_result := res |} ]).
Proof.
  unfold stored_records, _update_session.
  destruct (sessions st !! sid) as [s|] eqn:E; cbn -[Nat.ltb last10].
  - exists (clock st).
    rewrite lookup_insert_eq. cbn -[Nat.ltb last10].
    destruct (10 <? _) eqn:Hlen; [reflexivity|].
    apply Nat.ltb_ge in Hlen. now rewrite last10_short.
  - exists (S (clock st)).
    rewrite lookup_insert_eq. cbn. reflexivity.
Qed.

Lemma stored_records_update_other (sid sid' : string)
  (pi : ProcessedIntent) (res : OpResult) (st : State) :
  sid <> sid' ->
  stored_records sid' (_update_session sid pi res st)
  = stored_records sid' st.
Proof.
  intros Hne. unfold stored_records, _update_session.
  destruct (sessions st !! sid) as [s|] eqn:E; cbn;
    now rewrite lookup_insert_ne.
Qed.

Lemma payload_last10 (l : list QueryRecord) :
  map payload (last10 l)
  = drop (length (map payload l) - 10) (map payload l).
Proof.
  unfold last10. rewrite length_map.
  change (map payload) with (fmap (M := list) payload).
  now rewrite fmap_drop.
Qed.

(** The store after a run of appends, from any state. *)
Lemma stored_records_append_all (sid : string) (l : list interaction)
  (st : State) :
  length (stored_records sid st) <= 10 ->
  map payload (stored_records sid (append_all sid l st))
  = drop (length (stored_records sid st) + length l - 10)
      (map payload (stored_records sid st) ++ map payload_of l).
Proof.
  revert st. induction l as [|i l IH]; intros st Hlen.
  - cbn. rewrite app_nil_r, Nat.add_0_r.
    replace (_ - 10) with 0 by lia. reflexivity.
  - cbn [append_all fold_left].
    change (fold_left _ l ?s) with (append_all sid l s).
    destruct (stored_records_update sid (fst i) (snd i) st) as [t Ht].
    set (st' := _update_session sid (fst i) (snd i) st) in *.
    set (old := stored_records sid st) in *.
    assert (Hpay : map payload (stored_records sid st')
                   = drop (length old + 1 - 10)
                       (map payload old ++ [payload_of i])).
    { rewrite Ht, payload_last10, map_app, length_app, !length_map.
      reflexivity. }
    assert (Hlen' : length (stored_records sid st')
                    = length old + 1 - (length old + 1 - 10)).
    { rewrite Ht. unfold last10.
      rewrite length_drop, length_app. reflexivity. }
    rewrite (IH st') by lia.
    rewrite Hpay, Hlen'. cbn [map length].
    destruct (Nat.le_gt_cases (length old + 1) 10) as [Hle | Hgt].
    + replace (length old + 1 - 10) with 0 by lia.
      rewrite drop_0, <- app_assoc. cbn [app].
      f_equal. lia.
    + assert (Hten : length old = 10) by lia.
      rewrite Hten.
      change (10 + 1 - 10) with 1. change (10 + 1 - 1) with 10.
      replace (10 + length l - 10) with (length l) by lia.
      replace (10 + S (length l) - 10) with (1 + length l) by lia.
      rewrite <- drop_drop.
      destruct (map payload old) as [|o rest] eqn:Eold.
      { apply (f_equal (@length _)) in Eold.
        rewrite length_map, Hten in Eold. discriminate. }
      cbn [app]. rewrite !(skipn_cons 0), !drop_0.
      rewrite <- app_assoc. reflexivity.
Qed.

(** C7. For every session id and every sequence of n interactions
    appended to a session that did not exist before, the store holds
    exactly the last min(n, 10) of them, in the order they were appended;
    after 15 appends these are the last 10. *)
Theorem C7_session_keeps_last_ten (session_id : string)
  (l : list interaction) (st : State) :
  sessions st !! session_id = None ->
  map payload (stored_records session_id (append_all session_id l st))
  = drop (length l - 10) (map payload_of l)
  /\ length (stored_records session_id (append_all session_id l st))
     = Nat.min (length l) 10
  /\ (length l = 15 ->
      map payload (stored_records session_id (append_all session_id l st))
      = drop 5 (map payload_of l)).
Proof.
  intros Hnone.
  assert (Hempty : stored_records session_id st = []).
  { unfold stored_records. now rewrite Hnone. }
  assert (H := stored_records_append_all session_id l st).
  rewrite Hempty in H. cbn [length map app] in H.
  specialize (H ltac:(lia)). rewrite Nat.add_0_l in H.
  split; [exact H|]. split.
  - rewrite <- (length_map payload), H, length_drop, length_map. lia.
  - intros H15. rewrite H, H15. reflexivity.
Qed.

Lemma C7_witness :
  map payload (stored_records "s1" (append_all "s1" fifteen fresh_server))
  = drop (length fifteen - 10) (map payload_of fifteen)
  /\ length (stored_records "s1" (append_all "s1" fifteen fresh_server))
     = Nat.min (length fifteen) 10
  /\ (length fifteen = 15 ->
      map payload (stored_records "s1" (append_all "s1" fifteen fresh_server))
      = drop 5 (map payload_of fifteen)).
Proof.
  apply (C7_session_keeps_last_ten "s1" fifteen fresh_server).
  reflexivity.
Defined.

(** The fifteen appends, run: queries 6 to 15 remain, oldest first. *)
Example fifteen_appends_leave_last_ten :
  map q_query (stored_records "s1" (append_all "s1" fifteen fresh_server))
  = [ "query 6"; "query 7"; "query 8"; "query 9"; "query 10";
      "query 11"; "query 12"; "query 13"; "query 14"; "query 15" ].
Proof. vm_compute. reflexivity. Qed.

(** ** Query boundary and dispatcher *)

Section BoundaryFacts.

Context {L : Library}.

(** The resolved intent of a request. *)
Let resolved (request : Request.t) (st : State) : ProcessedIntent :=
  Intent.process_query (llm_provider st) (Request.query request).

(** The [except] branch of [process_query]. *)
Lemma process_query_dispatch_raised (request : Request.t) (st : State)
  (e : exn) (log : list Call) :
  _execute_nifi_operation (nifi_client st) (resolved request st)
    (Request.context request) (calls st) = (Raised e, log) ->
  process_query request st
  = ({| Response.success := false;
        Response.message := "Error processing query: " +:+ message e;
        Response.data := None;
        Response.intent := None;
        Response.confidence := None;
        Response.timestamp := clock st;
        Response.session_id := Request.session_id request |},
     {| nifi_client := nifi_client st; llm_provider := llm_provider st;
        sessions := sessions st; calls := log;
        clock := S (clock st) |}).
Proof.
  intros H. unfold process_query. unfold resolved in H. rewrite H.
  reflexivity.
Qed.

(** The normal path of [process_query]. *)
Lemma process_query_dispatch_returned (request : Request.t) (st : State)
  (result : OpResult) (log : list Call) :
  _execute_nifi_operation (nifi_client st) (resolved request st)
    (Request.context request) (calls st) = (Return result, log) ->
  fst (process_query request st)
  = {| Response.success := true;
       Response.message := op_message result;
       Response.data := Some (op_data result);
       Response.intent := Some (value (intent (resolved request st)));
       Response.confidence := Some (confidence (resolved request st));
       Response.timestamp := clock st;
       Response.session_id := Request.session_id request |}
  /\ calls (snd (process_query request st)) = log.
Proof.
  intros H. unfold process_query. unfold resolved in H. rewrite H.
  cbn. split; [reflexivity|].
  destruct (nonempty (Request.session_id request)); [|reflexivity].
  unfold _update_session. cbn.
  destruct (sessions st !! s); reflexivity.
Qed.

(** Before [initialize] every dispatch raises, whatever the intent. *)
Lemma _execute_nifi_operation_uninitialized (pi : ProcessedIntent)
  (context : option dict) (log : list Call) :
  _execute_nifi_operation None pi context log
  = (Raised (Raise RuntimeError "NiFi client not initialized"), log).
Proof. reflexivity. Qed.

(** The validation of [_create_process_group] raises before any call. *)
Lemma _create_process_group_unnamed (client : NiFiAPIClient)
  (params : IntentParameters) (log : list Call) :
  nonempty (process_group_name params) = None ->
  _create_process_group client params log
  = (Raised (Raise ValueError "Process group name is required"), log).
Proof. intros H. unfold _create_process_group. now rewrite H. Qed.

(** A backend error in a listing is re-raised as a [RuntimeError]. *)
Lemma _execute_nifi_operation_backend_error (client : NiFiAPIClient)
  (pi : ProcessedIntent) (context : option dict) (log : list Call)
  (msg : string) :
  intent pi = LIST_PROCESSORS ->
  client log (get_processors (process_group_id (parameters pi)))
  = Raised (Raise NiFiAPIError msg) ->
  _execute_nifi_operation (Some client) pi context log
  = (Raised (Raise RuntimeError ("NiFi API error: " +:+ msg)),
     log ++ [get_processors (process_group_id (parameters pi))]).
Proof.
  intros Hi Hc.
  unfold _execute_nifi_operation, catch, dispatch. rewrite Hi.
  unfold _list_processors, bindM, call. rewrite Hc. reflexivity.
Qed.

(** The [else] branch of the chain. *)
Lemma dispatch_without_handler (client : NiFiAPIClient)
  (pi : ProcessedIntent) (log : list Call) :
  has_handler (intent pi) = false ->
  dispatch client pi log
  = (Return {| op_message := "Intent '" +:+ value (intent pi)
                             +:+ "' is not yet implemented";
               op_data :=
                 JObject [ ("intent", JString (value (intent pi)));
                           ("parameters",
                             params_dict (parameters pi)) ] |},
     log).
Proof.
  intros H. unfold dispatch.
  destruct (intent pi); try discriminate H; reflexivity.
Qed.

End BoundaryFacts.

(** C10. For every query whose dispatch raises (a validation failure, a
    backend error, an uninitialized backend client), the server returns an
    envelope with [success = false] and the sessions are exactly what they
    were, whether or not a session id was supplied; a query that changes
    the sessions has been answered with [success = true]. *)
Theorem C10_failed_dispatch_leaves_sessions {L : Library}
  (request : Request.t) (st : State) :
  (forall e log,
      _execute_nifi_operation (nifi_client st)
        (Intent.process_query (llm_provider st) (Request.query request))
        (Request.context request) (calls st) = (Raised e, log) ->
      Response.success (fst (process_query request st)) = false
      /\ sessions (snd (process_query request st)) = sessions st)
  /\ (sessions (snd (process_query request st)) <> sessions st ->
      Response.success (fst (process_query request st)) = true).
Proof.
  split.
  - intros e log H.
    rewrite (process_query_dispatch_raised request st e log H).
    split; reflexivity.
  - intros Hchanged.
    destruct (_execute_nifi_operation (nifi_client st)
                (Intent.process_query (llm_provider st)
                   (Request.query request))
                (Request.context request) (calls st))
      as [[result | e] log] eqn:E.
    + destruct (process_query_dispatch_returned request st result log E)
        as [-> _]. reflexivity.
    + exfalso. apply Hchanged.
      now rewrite (process_query_dispatch_raised request st e log E).
Qed.

Lemma C10_witness :
  Response.success
    (fst (process_query (L := Reference.library)
            (ask "create process group" (Some "s1"))
            (server_on empty_backend))) = false
  /\ sessions
       (snd (process_query (L := Reference.library)
               (ask "create process group" (Some "s1"))
               (server_on empty_backend)))
     = sessions (server_on empty_backend).
Proof.
  eapply (proj1 (C10_failed_dispatch_leaves_sessions
                   (L := Reference.library)
                   (ask "create process group" (Some "s1"))
                   (server_on empty_backend))).
  vm_compute. reflexivity.
Defined.

(** C3.  For every dispatch of create-process-group whose parameters
    carry no process-group name, or an empty one, the query boundary
    returns an envelope with [success = false] and no backend call is made;
    on a server that holds its backend client, the state queries are
    dispatched in, the message is the validation message. *)
Theorem C3_create_process_group_requires_name {L : Library}
  (request : Request.t) (st : State) :
  let pi := Intent.process_query (llm_provider st) (Request.query request) in
  intent pi = CREATE_PROCESS_GROUP ->
  nonempty (process_group_name (parameters pi)) = None ->
  Response.success (fst (process_query request st)) = false
  /\ calls (snd (process_query request st)) = calls st
  /\ (forall client,
         nifi_client st = Some client ->
         Response.message (fst (process_query request st))
         = "Error processing query: Operation failed: "
           +:+ "Process group name is required").
Proof.
  intros pi Hintent Hname.
  destruct (nifi_client st) as [client|] eqn:Hclient.
  - assert (H : _execute_nifi_operation (nifi_client st) pi
                  (Request.context request) (calls st)
                = (Raised (Raise RuntimeError
                             ("Operation failed: "
                              +:+ "Process group name is required")),
                   calls st)).
    { rewrite Hclient. unfold _execute_nifi_operation, catch, dispatch.
      rewrite Hintent, (_create_process_group_unnamed _ _ _ Hname).
      reflexivity. }
    rewrite (process_query_dispatch_raised request st _ _ H).
    split; [reflexivity|]. split; [reflexivity|].
    intros; reflexivity.
  - assert (H : _execute_nifi_operation (nifi_client st) pi
                  (Request.context request) (calls st)
                = (Raised (Raise RuntimeError "NiFi client not initialized"),
                   calls st)).
    { rewrite Hclient. reflexivity. }
    rewrite (process_query_dispatch_raised request st _ _ H).
    split; [reflexivity|]. split; [reflexivity|].
    discriminate.
Qed.

Lemma C3_witness :
  Response.success
    (fst (process_query (L := Reference.library)
            (ask "create process group" None) (server_on empty_backend)))
  = false
  /\ calls (snd (process_query (L := Reference.library)
                   (ask "create process group" None)
                   (server_on empty_backend)))
     = calls (server_on empty_backend)
  /\ Response.message
       (fst (process_query (L := Reference.library)
               (ask "create process group" None)
               (server_on empty_backend)))
     = "Error processing query: Operation failed: "
       +:+ "Process group name is required".
Proof.
  destruct (C3_create_process_group_requires_name (L := Reference.library)
              (ask "create process group" None) (server_on empty_backend))
    as (Hs & Hc & Hm).
  - vm_compute. reflexivity.
  - vm_compute. reflexivity.
  - split; [exact Hs|]. split; [exact Hc|].
    apply (Hm empty_backend). reflexivity.
Defined.

(** C8.  For every resolved intent without a branch of its own in the
    dispatcher, the query boundary of a server that holds its backend
    client returns an envelope with [success = true], whose message says
    that the intent is not yet implemented and whose data echoes the intent
    tag and the extracted parameters; the placeholder is no error, and no
    backend call is made. *)
Theorem C8_unimplemented_intent_placeholder {L : Library}
  (request : Request.t) (st : State) (client : NiFiAPIClient) :
  let pi := Intent.process_query (llm_provider st) (Request.query request) in
  nifi_client st = Some client ->
  has_handler (intent pi) = false ->
  Response.success (fst (process_query request st)) = true
  /\ Response.message (fst (process_query request st))
     = "Intent '" +:+ value (intent pi) +:+ "' is not yet implemented"
  /\ Response.data (fst (process_query request st))
     = Some (JObject [ ("intent", JString (value (intent pi)));
                       ("parameters", params_dict (parameters pi)) ])
  /\ Response.intent (fst (process_query request st))
     = Some (value (intent pi))
  /\ calls (snd (process_query request st)) = calls st.
Proof.
  intros pi Hclient Hnone.
  assert (H : _execute_nifi_operation (nifi_client st) pi
                (Request.context request) (calls st)
              = (Return {| op_message := "Intent '" +:+ value (intent pi)
                                         +:+ "' is not yet implemented";
                           op_data :=
                             JObject
                               [ ("intent", JString (value (intent pi)));
                                 ("parameters",
                                   params_dict (parameters pi)) ] |},
                 calls st)).
  { rewrite Hclient. unfold _execute_nifi_operation, catch.
    now rewrite (dispatch_without_handler client pi (calls st) Hnone). }
  destruct (process_query_dispatch_returned request st _ _ H) as [-> ->].
  repeat split.
Qed.

Lemma C8_witness :
  Response.success
    (fst (process_query (L := Reference.library)
            (ask "hello" (Some "s1")) (server_on empty_backend))) = true
  /\ Response.message
       (fst (process_query (L := Reference.library)
               (ask "hello" (Some "s1")) (server_on empty_backend)))
     = "Intent 'unknown' is not yet implemented".
Proof.
  destruct (C8_unimplemented_intent_placeholder (L := Reference.library)
              (ask "hello" (Some "s1")) (server_on empty_backend)
              empty_backend)
    as (Hs & Hm & _).
  - reflexivity.
  - vm_compute. reflexivity.
  - split; [exact Hs|]. rewrite Hm. vm_compute. reflexivity.
Defined.

(** ** Request loop of the API client *)

Section RequestLoop.

Import ApiClient.

Variable send : transport.
Variable max_retries : nat.
Variable req : Request.

Lemma sent_count_retried (a k : nat) (rest : list event) :
  sent_count (retried a k ++ rest) = k + sent_count rest.
Proof.
  unfold retried. revert a. induction k as [|k IH]; intros a.
  - reflexivity.
  - cbn [seq flat_map app sent_count]. now rewrite IH.
Qed.

Lemma sleeps_retried (a k : nat) (rest : list event) :
  sleeps (retried a k ++ rest) = map (Nat.pow 2) (seq a k) ++ sleeps rest.
Proof.
  unfold retried. revert a. induction k as [|k IH]; intros a.
  - reflexivity.
  - cbn [seq flat_map map app sleeps]. now rewrite IH.
Qed.

(** After [k] transport failures a response ends the loop. *)
Lemma attempts_until_response (k : nat) :
  forall a len response,
    k < len -> a + k < max_retries ->
    (forall i, i < k -> transport_failure (send (a + i) req)) ->
    send (a + k) req = Responded response ->
    attempts send max_retries req (seq a len)
    = (on_response req response, retried a k ++ [Sent (a + k)]).
Proof.
  induction k as [|k IH]; intros a len response Hlen Hmax Hfail Hresp.
  - destruct len as [|len]; [lia|].
    cbn [seq attempts]. rewrite Nat.add_0_r in Hresp.
    rewrite Hresp, Nat.add_0_r. reflexivity.
  - destruct len as [|len]; [lia|].
    cbn [seq attempts].
    assert (H0 := Hfail 0 ltac:(lia)). rewrite Nat.add_0_r in H0.
    destruct (send a req) as [r|e]; [contradiction|].
    cbn in H0. rewrite H0.
    destruct (a =? max_retries - 1) eqn:E;
      [apply Nat.eqb_eq in E; lia|].
    rewrite (IH (S a) len response).
    + unfold retried. cbn [seq flat_map app].
      now rewrite Nat.add_succ_r.
    + lia.
    + lia.
    + intros i Hi. specialize (Hfail (S i) ltac:(lia)).
      now rewrite Nat.add_succ_r in Hfail.
    + now rewrite Nat.add_succ_r in Hresp.
Qed.


End RequestLoop.




(** ** Classifier adapter *)

Lemma intent_of_value_some (s : string) (i : NiFiIntent) :
  intent_of_value s = Some i -> value i = s.
Proof.
  unfold intent_of_value. intros H.
  apply find_some in H. destruct H as [_ H].
  now apply String.eqb_eq in H.
Qed.

Lemma intent_of_value_value (i : NiFiIntent) :
  intent_of_value (value i) = Some i.
Proof. destruct i; reflexivity. Qed.

Section AdapterFacts.

Context {L : Library}.

(** The adapter on a decoded object whose intent and parameters are
    accepted: what is left is the confidence and the validation of the
    model. *)
Lemma _parse_llm_response_object (response q : string)
  (fields : list (string * json)) (i : NiFiIntent) (p : IntentParameters) :
  json_loads response = Return (JObject fields) ->
  intent_field fields = Return i ->
  parameters_field fields = Return p ->
  _parse_llm_response response q
  = match
      (let! c := confidence_field fields in
       ProcessedIntent_validate i p c q
         match Json.get "explanation" fields with
         | None => JString EmptyString
         | Some v => v
         end)
    with
    | Return r => Return r
    | Raised e =>
        if is_value_error e || is_key_error e
        then Return (parse_failure q)
        else Raised e
    end.
Proof.
  intros H Hi Hp. unfold _parse_llm_response, parse_llm_body.
  rewrite H. cbn. rewrite Hi. cbn. rewrite Hp. reflexivity.
Qed.

(** A missing field takes its default, whatever the other fields are;
    a field that is there and well formed is taken as given. *)
Lemma _parse_llm_response_fields (response q : string)
  (fields supplied : list (string * json)) (given : json)
  (i : NiFiIntent) (p : IntentParameters) (c : Q) (e : option string) :
  json_loads response = Return (JObject fields) ->
  (Json.get "intent" fields = None /\ i = UNKNOWN
   \/ Json.get "intent" fields = Some (JString (value i))) ->
  (Json.get "parameters" fields = None /\ p = IntentParameters_default
   \/ Json.get "parameters" fields = Some (JObject supplied)
      /\ validate_parameters supplied = Some p) ->
  (Json.get "confidence" fields = None /\ c = (5 # 10)%Q
   \/ Json.get "confidence" fields = Some given
      /\ py_float given = Return (Finite c) /\ (0 <= c <= 1)%Q) ->
  (Json.get "explanation" fields = None /\ e = Some EmptyString
   \/ (exists text, Json.get "explanation" fields = Some (JString text)
                    /\ e = Some text)
   \/ Json.get "explanation" fields = Some JNull /\ e = None) ->
  _parse_llm_response response q
  = Return {| intent := i; parameters := p; confidence := c;
              raw_query := q; explanation := e |}.
Proof.
  intros H Hi Hp Hc He.
  rewrite (_parse_llm_response_object response q fields i p H).
  - assert (Hconf : confidence_field fields = Return (Finite c)
                    /\ Qle_bool 0 c && Qle_bool c 1 = true).
    { unfold confidence_field.
      destruct Hc as [[-> ->] | (-> & Hf & H0 & H1)].
      - split; reflexivity.
      - split; [exact Hf|].
        apply Qle_bool_iff in H0, H1. now rewrite H0, H1. }
    destruct Hconf as [-> Hle]. cbn.
    unfold ProcessedIntent_validate. rewrite Hle.
    destruct He as [[-> ->] | [(text & -> & ->) | [-> ->]]]; reflexivity.
  - unfold intent_field.
    destruct Hi as [[-> ->] | ->]; [reflexivity|].
    now rewrite intent_of_value_value.
  - unfold parameters_field.
    destruct Hp as [[-> ->] | [-> Hv]].
    + now rewrite validate_parameters_nil.
    + now rewrite Hv.
Qed.

(** A response the decoder rejects is a parse failure. *)
Lemma _parse_llm_response_not_json (response q : string) (e : exn) :
  json_loads response = Raised e ->
  is_value_error e = true ->
  _parse_llm_response response q = Return (parse_failure q).
Proof.
  intros H He. unfold _parse_llm_response, parse_llm_body.
  rewrite H. cbn. now rewrite He.
Qed.

(** An intent value outside the catalogue is a parse failure. *)
Lemma _parse_llm_response_unknown_intent (response q : string)
  (fields : list (string * json)) (v : json) :
  json_loads response = Return (JObject fields) ->
  Json.get "intent" fields = Some v ->
  (forall i, v <> JString (value i)) ->
  _parse_llm_response response q = Return (parse_failure q).
Proof.
  intros H Hv Hnot. unfold _parse_llm_response, parse_llm_body.
  rewrite H. cbn. unfold intent_field. rewrite Hv.
  destruct v; try reflexivity.
  destruct (intent_of_value s) as [i|] eqn:E; [|reflexivity].
  exfalso. apply (Hnot i). now rewrite (intent_of_value_some s i E).
Qed.

(** An object without the four keys takes every default. *)
Lemma _parse_llm_response_defaults (response q : string)
  (fields : list (string * json)) :
  json_loads response = Return (JObject fields) ->
  Json.get "intent" fields = None ->
  Json.get "parameters" fields = None ->
  Json.get "confidence" fields = None ->
  Json.get "explanation" fields = None ->
  _parse_llm_response response q
  = Return {| intent := UNKNOWN;
              parameters := IntentParameters_default;
              confidence := (5 # 10)%Q;
              raw_query := q;
              explanation := Some EmptyString |}.
Proof.
  intros H Hi Hp Hc He. unfold _parse_llm_response, parse_llm_body.
  rewrite H. cbn.
  unfold intent_field, parameters_field, confidence_field.
  rewrite Hi, Hp, Hc, He, validate_parameters_nil. reflexivity.
Qed.

(** Whatever the adapter returns has its confidence within [0, 1]. *)
Lemma _parse_llm_response_confidence (response q : string)
  (r : ProcessedIntent) :
  _parse_llm_response response q = Return r ->
  (0 <= confidence r <= 1)%Q.
Proof.
  unfold _parse_llm_response.
  destruct (parse_llm_body response q) as [r'|e] eqn:E.
  - intros [= <-]. unfold parse_llm_body in E.
    destruct (json_loads response) as [data|]; [|discriminate].
    cbn in E. destruct data; try discriminate.
    destruct (intent_field fields); [|discriminate]. cbn in E.
    destruct (parameters_field fields); [|discriminate]. cbn in E.
    destruct (confidence_field fields) as [c|]; [|discriminate].
    cbn in E. unfold ProcessedIntent_validate in E.
    destruct c as [x|]; [|discriminate].
    destruct (Qle_bool 0 x && Qle_bool x 1) eqn:Hx; [|discriminate].
    apply andb_true_iff in Hx. destruct Hx as [H0 H1].
    apply Qle_bool_iff in H0, H1.
    destruct (match _ with JString s => _ | _ => _ end);
      [|discriminate].
    injection E as <-. cbn. split; assumption.
  - destruct (is_value_error e || is_key_error e); [|discriminate].
    intros [= <-]. cbn. split; discriminate.
Qed.

End AdapterFacts.

(** C4, as amended.  For every classifier response: a response that is
    not valid JSON, and a JSON object whose intent value is not a tag of
    the catalogue, are converted to intent Unknown, confidence exactly 0.0
    and the explanation "Failed to parse LLM response".  A missing field
    is no failure: in a JSON object each of the four fields that is
    missing takes its default (intent Unknown, the default parameters,
    confidence 0.5, an empty explanation), whatever the other fields are,
    and each field that is there and well formed is taken as given; the
    object without any of them gives Unknown with confidence 0.5. *)
Theorem C4_parse_failures_and_defaults {L : Library}
  (response original_query : string) :
  (forall e,
      json_loads response = Raised e -> is_value_error e = true ->
      _parse_llm_response response original_query
      = Return {| intent := UNKNOWN;
                  parameters := IntentParameters_default;
                  confidence := 0%Q;
                  raw_query := original_query;
                  explanation := Some "Failed to parse LLM response" |})
  /\ (forall fields v,
         json_loads response = Return (JObject fields) ->
         Json.get "intent" fields = Some v ->
         (forall i, v <> JString (value i)) ->
         _parse_llm_response response original_query
         = Return {| intent := UNKNOWN;
                     parameters := IntentParameters_default;
                     confidence := 0%Q;
                     raw_query := original_query;
                     explanation := Some "Failed to parse LLM response" |})
  /\ (forall fields supplied given i p c e,
         json_loads response = Return (JObject fields) ->
         (Json.get "intent" fields = None /\ i = UNKNOWN
          \/ Json.get "intent" fields = Some (JString (value i))) ->
         (Json.get "parameters" fields = None
          /\ p = IntentParameters_default
          \/ Json.get "parameters" fields = Some (JObject supplied)
             /\ validate_parameters supplied = Some p) ->
         (Json.get "confidence" fields = None /\ c = (5 # 10)%Q
          \/ Json.get "confidence" fields = Some given
             /\ py_float given = Return (Finite c) /\ (0 <= c <= 1)%Q) ->
         (Json.get "explanation" fields = None /\ e = Some EmptyString
          \/ (exists text,
                 Json.get "explanation" fields = Some (JString text)
                 /\ e = Some text)
          \/ Json.get "explanation" fields = Some JNull /\ e = None) ->
         _parse_llm_response response original_query
         = Return {| intent := i; parameters := p; confidence := c;
                     raw_query := original_query; explanation := e |})
  /\ (forall fields,
         json_loads response = Return (JObject fields) ->
         Json.get "intent" fields = None ->
         Json.get "parameters" fields = None ->
         Json.get "confidence" fields = None ->
         Json.get "explanation" fields = None ->
         _parse_llm_response response original_query
         = Return {| intent := UNKNOWN;
                     parameters := IntentParameters_default;
                     confidence := (5 # 10)%Q;
                     raw_query := original_query;
                     explanation := Some EmptyString |}).
Proof.
  split; [|split; [|split]].
  - intros e H He. now apply (_parse_llm_response_not_json _ _ e).
  - intros fields v H Hv Hnot.
    now apply (_parse_llm_response_unknown_intent _ _ fields v).
  - intros fields supplied given i p c e H Hi Hp Hc He.
    now apply (_parse_llm_response_fields _ _ fields supplied given).
  - intros fields H Hi Hp Hc He.
    now apply (_parse_llm_response_defaults _ _ fields).
Qed.

Lemma C4_witness :
  _parse_llm_response (L := Reference.library)
    "I think the user wants a list" "list processors"
  = Return {| intent := UNKNOWN;
              parameters := IntentParameters_default;
              confidence := 0%Q;
              raw_query := "list processors";
              explanation := Some "Failed to parse LLM response" |}
  /\ _parse_llm_response (L := Reference.library)
       ("{" +:+ quoted "intent" +:+ ": " +:+ quoted "reboot_cluster" +:+ "}")
       "reboot"
     = Return {| intent := UNKNOWN;
                 parameters := IntentParameters_default;
                 confidence := 0%Q;
                 raw_query := "reboot";
                 explanation := Some "Failed to parse LLM response" |}
  /\ _parse_llm_response (L := Reference.library)
       ("{" +:+ quoted "intent" +:+ ": " +:+ quoted "help" +:+ "}")
       "what can you do"
     = Return {| intent := HELP;
                 parameters := IntentParameters_default;
                 confidence := (5 # 10)%Q;
                 raw_query := "what can you do";
                 explanation := Some EmptyString |}
  /\ _parse_llm_response (L := Reference.library)
       ("{" +:+ quoted "confidence" +:+ ": 1, "
        +:+ quoted "explanation" +:+ ": " +:+ quoted "sure" +:+ "}")
       "what can you do"
     = Return {| intent := UNKNOWN;
                 parameters := IntentParameters_default;
                 confidence := 1%Q;
                 raw_query := "what can you do";
                 explanation := Some "sure" |}
  /\ _parse_llm_response (L := Reference.library) "{}" "list processors"
     = Return {| intent := UNKNOWN;
                 parameters := IntentParameters_default;
                 confidence := (5 # 10)%Q;
                 raw_query := "list processors";
                 explanation := Some EmptyString |}.
Proof.
  split; [|split; [|split; [|split]]].
  - eapply (proj1 (C4_parse_failures_and_defaults (L := Reference.library)
                     "I think the user wants a list" "list processors")).
    + vm_compute. reflexivity.
    + reflexivity.
  - eapply (proj1 (proj2 (C4_parse_failures_and_defaults
                            (L := Reference.library)
                            ("{" +:+ quoted "intent" +:+ ": "
                             +:+ quoted "reboot_cluster" +:+ "}")
                            "reboot"))).
    + vm_compute. reflexivity.
    + vm_compute. reflexivity.
    + intros i. destruct i; discriminate.
  - eapply (proj1 (proj2 (proj2 (C4_parse_failures_and_defaults
                                   (L := Reference.library)
                                   ("{" +:+ quoted "intent" +:+ ": "
                                    +:+ quoted "help" +:+ "}")
                                   "what can you do")))
              _ [] JNull).
    + vm_compute. reflexivity.
    + right. reflexivity.
    + left. split; reflexivity.
    + left. split; reflexivity.
    + left. split; reflexivity.
  - eapply (proj1 (proj2 (proj2 (C4_parse_failures_and_defaults
                                   (L := Reference.library)
                                   ("{" +:+ quoted "confidence" +:+ ": 1, "
                                    +:+ quoted "explanation" +:+ ": "
                                    +:+ quoted "sure" +:+ "}")
                                   "what can you do")))
              _ [] (JInt 1)).
    + vm_compute. reflexivity.
    + left. split; reflexivity.
    + left. split; reflexivity.
    + right. split; [reflexivity|]. split; [reflexivity|].
      split; discriminate.
    + right. left. exists "sure". split; reflexivity.
  - eapply (proj2 (proj2 (proj2 (C4_parse_failures_and_defaults
                                   (L := Reference.library)
                                   "{}" "list processors")))).
    + vm_compute. reflexivity.
    + reflexivity.
    + reflexivity.
    + reflexivity.
    + reflexivity.
Defined.

(** C4 as stated fails on a response with missing fields: the empty
    object is answered with confidence 0.5 and an empty explanation, not
    with the parse failure. *)
Lemma C4_counterexample :
  exists r,
    _parse_llm_response (L := Reference.library) "{}" "list processors"
    = Return r
    /\ intent r = UNKNOWN
    /\ confidence r = (5 # 10)%Q
    /\ ~ (confidence r == 0)%Q
    /\ explanation r = Some EmptyString
    /\ explanation r <> Some "Failed to parse LLM response".
Proof.
  eexists. split; [vm_compute; reflexivity|]. cbn.
  repeat split; discriminate.
Qed.

(** A response that is JSON but no object leaves the adapter as an
    exception the [except] clause does not name. *)
Example non_object_response_raises :
  _parse_llm_response (L := Reference.library) "[]" "list processors"
  = Raised (Raise AttributeError "object has no attribute 'get'").
Proof. vm_compute. reflexivity. Qed.

(** ** Pattern matcher and parameter extractor *)

(** Every pattern of the catalogue and of the extractor is in the
    fragment the matcher reads. *)
Example patterns_compile :
  forallb (fun p => match Re.compile p with Some _ => true | None => false end)
    (concat (map snd intent_patterns)
     ++ map fst processor_type_patterns
     ++ search_patterns ++ pg_patterns ++ [quoted_name_pattern])
  = true.
Proof. vm_compute. reflexivity. Qed.

(** A property kept by every step of a loop holds after the loop. *)
Lemma fold_left_preserves {A B : Type} (P : A -> Prop) (f : A -> B -> A)
  (l : list B) :
  forall a, P a -> (forall a b, In b l -> P a -> P (f a b)) ->
            P (fold_left f l a).
Proof.
  induction l as [|x l IH]; intros a Ha Hstep.
  - exact Ha.
  - apply IH.
    + apply Hstep; [now left | exact Ha].
    + intros a' b Hb. apply Hstep. now right.
Qed.

Lemma pattern_step_no_match (ql : string) (i : NiFiIntent) (b : best)
  (p : string) :
  Re.search p ql = None -> pattern_step ql i b p = b.
Proof. intros H. unfold pattern_step. rewrite H. reflexivity. Qed.

Lemma intent_step_no_match (ql : string) (b : best)
  (entry : NiFiIntent * list string) :
  (forall p, In p (snd entry) -> Re.search p ql = None) ->
  intent_step ql b entry = b.
Proof.
  intros H. unfold intent_step.
  apply (fold_left_preserves (fun x => x = b)); [reflexivity|].
  intros a p Hp ->. apply pattern_step_no_match, H, Hp.
Qed.

Lemma run_patterns_no_match (catalogue : list (NiFiIntent * list string))
  (ql : string) :
  (forall i ps p, In (i, ps) catalogue -> In p ps -> Re.search p ql = None) ->
  run_patterns catalogue ql = (None, 0%Q).
Proof.
  intros H. unfold run_patterns.
  apply (fold_left_preserves (fun x => x = (None, 0%Q))); [reflexivity|].
  intros a [i ps] Hin ->. apply intent_step_no_match.
  intros p Hp. apply (H i ps p Hin Hp).
Qed.

(** The running confidence never exceeds the cap. *)
Lemma py_min_cap (c : Q) : (py_min c (8 # 10) <= 8 # 10)%Q.
Proof.
  unfold py_min. destruct (Qle_bool c (8 # 10)) eqn:E.
  - now apply Qle_bool_iff.
  - apply Qle_refl.
Qed.

Lemma Qgt_bool_true (a b : Q) : Qgt_bool a b = true -> (b < a)%Q.
Proof.
  unfold Qgt_bool. intros E. apply negb_true_iff in E.
  apply Qnot_le_lt. intros Hle. apply Qle_bool_iff in Hle. congruence.
Qed.

Lemma py_min_nonneg (c : Q) : (0 <= c)%Q -> (0 <= py_min c (8 # 10))%Q.
Proof.
  intros H. unfold py_min. destruct (Qle_bool c (8 # 10)).
  - exact H.
  - discriminate.
Qed.

Lemma pattern_step_capped (ql : string) (i : NiFiIntent) (b : best)
  (p : string) :
  within_cap b -> within_cap (pattern_step ql i b p).
Proof.
  intros Hb. unfold pattern_step.
  destruct (Re.search p ql) as [m|]; [|exact Hb].
  destruct (Qgt_bool (raw_score p ql) (snd b)) eqn:E; [|exact Hb].
  apply Qgt_bool_true in E. split.
  - apply py_min_nonneg, Qlt_le_weak.
    eapply Qle_lt_trans; [apply Hb | exact E].
  - apply py_min_cap.
Qed.

Lemma run_patterns_capped (catalogue : list (NiFiIntent * list string))
  (ql : string) :
  (0 <= snd (run_patterns catalogue ql) <= 8 # 10)%Q.
Proof.
  unfold run_patterns.
  apply (fold_left_preserves within_cap).
  - split; discriminate.
  - intros a entry _ Ha. unfold intent_step.
    apply (fold_left_preserves within_cap); [exact Ha|].
    intros a' p _. apply pattern_step_capped.
Qed.

(** Pattern-matched confidence lies in [0, 0.8]. *)
Lemma _process_with_patterns_confidence (query : string) :
  (0 <= confidence (_process_with_patterns query) <= 8 # 10)%Q.
Proof.
  unfold _process_with_patterns.
  assert (H := run_patterns_capped intent_patterns
                 (Py.strip (Py.lower query))).
  destruct (run_patterns intent_patterns (Py.strip (Py.lower query)))
    as [[i|] c]; cbn in *.
  - exact H.
  - split; discriminate.
Qed.

(** C6, as amended.  For every query none of whose catalogue patterns
    matches the lower-cased, trimmed text, the pattern-matching result is
    intent Unknown with confidence exactly 0.0 and the explanation
    "Matched pattern for unknown". *)
Theorem C6_no_match_is_unknown (query : string) :
  (forall i patterns p,
      In (i, patterns) intent_patterns -> In p patterns ->
      Re.search p (Py.strip (Py.lower query)) = None) ->
  intent (_process_with_patterns query) = UNKNOWN
  /\ confidence (_process_with_patterns query) = 0%Q
  /\ explanation (_process_with_patterns query)
     = Some "Matched pattern for unknown"
  /\ raw_query (_process_with_patterns query) = query.
Proof.
  intros H. unfold _process_with_patterns.
  rewrite (run_patterns_no_match intent_patterns _ H).
  repeat split.
Qed.

(** Whether some pattern of the catalogue matches. *)
Lemma no_pattern_matches_hello :
  forall i patterns p,
    In (i, patterns) intent_patterns -> In p patterns ->
    Re.search p (Py.strip (Py.lower "hello")) = None.
Proof.
  assert (Hall : forallb
                   (fun p => match Re.search p (Py.strip (Py.lower "hello"))
                             with None => true | Some _ => false end)
                   (concat (map snd intent_patterns)) = true)
    by (vm_compute; reflexivity).
  intros i patterns p Hin Hp.
  rewrite forallb_forall in Hall.
  specialize (Hall p).
  destruct (Re.search p (Py.strip (Py.lower "hello"))); [|reflexivity].
  assert (Hf : false = true); [|discriminate].
  apply Hall. apply in_concat. exists patterns. split; [|exact Hp].
  apply in_map_iff. now exists (i, patterns).
Qed.

Lemma C6_witness :
  intent (_process_with_patterns "hello") = UNKNOWN
  /\ confidence (_process_with_patterns "hello") = 0%Q
  /\ explanation (_process_with_patterns "hello")
     = Some "Matched pattern for unknown"
  /\ raw_query (_process_with_patterns "hello") = "hello".
Proof.
  apply (C6_no_match_is_unknown "hello").
  exact no_pattern_matches_hello.
Defined.

(** C6 as stated fails on the explanation: for a query that matches no
    pattern it is "Matched pattern for unknown". *)
Lemma C6_counterexample :
  run_patterns intent_patterns (Py.strip (Py.lower "hello")) = (None, 0%Q)
  /\ intent (_process_with_patterns "hello") = UNKNOWN
  /\ explanation (_process_with_patterns "hello")
     = Some "Matched pattern for unknown"
  /\ explanation (_process_with_patterns "hello")
     <> Some "no pattern match".
Proof.
  split; [vm_compute; reflexivity|].
  split; [vm_compute; reflexivity|].
  split; [vm_compute; reflexivity|].
  vm_compute. discriminate.
Qed.

(** C5, on the input that shows the defect.  In
    "status help status help status help" the pattern [status] of
    get_status and the pattern [help] of help both match three times (raw
    score 0.9).  A running best kept with a strict comparison, as the
    specification words it, answers get_status, the earlier intent; the
    loop of the source stores the capped 0.8, against which the later 0.9
    is strictly greater, and answers help. *)
Theorem C5_capped_running_best_loses_earlier_intent :
  let query := "status help status help status help" in
  let query_lower := Py.strip (Py.lower query) in
  (raw_score "status" query_lower == 9 # 10)%Q
  /\ (raw_score "help" query_lower == 9 # 10)%Q
  /\ PatternSpec.pattern_match query_lower = (GET_STATUS, (8 # 10)%Q)
  /\ intent (_process_with_patterns query) = HELP
  /\ confidence (_process_with_patterns query) = (8 # 10)%Q.
Proof. vm_compute. repeat split. Qed.

(** C9, on its own input.  The resolved intent is create-process-group,
    but the extractor is handed the lower-cased text and its
    group-reference pattern overwrites the quoted name with the text after
    the word group: the process-group name is not "ETL Pipeline". *)
Theorem C9_quoted_group_name_is_overwritten :
  let r := _process_with_patterns
             "create a process group called 'ETL Pipeline'" in
  intent r = CREATE_PROCESS_GROUP
  /\ Re.findall_group quoted_name_pattern
       (Py.strip (Py.lower (raw_query r))) = ["etl pipeline"]
  /\ process_group_name (parameters r) = Some "called 'etl pipeline"
  /\ process_group_name (parameters r) <> Some "ETL Pipeline".
Proof.
  vm_compute. repeat split. discriminate.
Qed.

(** ** The pattern loop *)

Lemma fold_left_prefix_invariant_in {A B : Type} (P : list B -> A -> Prop)
  (f : A -> B -> A) (l : list B) (a0 : A) :
  P [] a0 ->
  (forall done x a, In x l -> P done a -> P (done ++ [x]) (f a x)) ->
  P l (fold_left f l a0).
Proof.
  intros H0 Hstep.
  assert (H : forall l', (forall x, In x l' -> In x l) ->
                         P l' (fold_left f l' a0)).
  { induction l' as [|x l' IH] using rev_ind; intros Hsub.
    - exact H0.
    - rewrite fold_left_app. apply Hstep.
      + apply Hsub, in_or_app. right. now left.
      + apply IH. intros y Hy. apply Hsub, in_or_app. now left. }
  apply H. auto.
Qed.

Lemma fold_left_map_in {A B C : Type} (f : A -> C -> A) (g : B -> C)
  (l : list B) (a : A) :
  fold_left f (map g l) a = fold_left (fun a x => f a (g x)) l a.
Proof.
  revert a. induction l as [|x l IH]; intros a; [reflexivity|].
  cbn [map fold_left]. apply IH.
Qed.

Lemma fold_left_flat_map {A B C : Type} (f : A -> C -> A)
  (g : B -> list C) (l : list B) (a : A) :
  fold_left f (flat_map g l) a
  = fold_left (fun a x => fold_left f (g x) a) l a.
Proof.
  revert a. induction l as [|x l IH]; intros a; [reflexivity|].
  cbn [flat_map fold_left]. rewrite fold_left_app. apply IH.
Qed.

Lemma fold_left_pointwise {A B : Type} (f g : A -> B -> A) (l : list B)
  (a : A) :
  (forall a x, f a x = g a x) -> fold_left f l a = fold_left g l a.
Proof.
  intros H. revert a. induction l as [|x l IH]; intros a; [reflexivity|].
  cbn [fold_left]. rewrite H. apply IH.
Qed.

Lemma py_min_le_l (a c : Q) : (py_min a c <= a)%Q.
Proof.
  unfold py_min. destruct (Qle_bool a c) eqn:E.
  - apply Qle_refl.
  - apply Qlt_le_weak, Qnot_le_lt. intros H.
    apply Qle_bool_iff in H. congruence.
Qed.

Lemma py_min_id (a c : Q) : (a <= c)%Q -> py_min a c = a.
Proof.
  intros H. unfold py_min. apply Qle_bool_iff in H. now rewrite H.
Qed.

Lemma py_min_glb (x a c : Q) :
  (x <= a)%Q -> (x <= c)%Q -> (x <= py_min a c)%Q.
Proof. intros Ha Hc. unfold py_min. now destruct (Qle_bool a c). Qed.

Lemma Qgt_bool_false (a b : Q) : Qgt_bool a b = false -> (a <= b)%Q.
Proof.
  unfold Qgt_bool. intros E. apply negb_false_iff in E.
  now apply Qle_bool_iff.
Qed.

Section AbstractLoop.

Variable T : Type.
Variable hit : T -> bool.
Variable sc : T -> Q.

(** A pattern that is found is counted at least once. *)
Hypothesis sc_positive : forall p, hit p = true -> (3 # 10 <= sc p)%Q.

Lemma in_visits (catalogue : list (NiFiIntent * list T))
  (i : NiFiIntent) (p : T) :
  In (i, p) (Loop.visits T catalogue)
  <-> exists ps, In (i, ps) catalogue /\ In p ps.
Proof.
  unfold Loop.visits. rewrite in_flat_map. split.
  - intros ([j ps] & Hin & Hp). cbn [fst snd] in Hp.
    apply in_map_iff in Hp. destruct Hp as (q & [= <- <-] & Hq).
    exists ps. split; assumption.
  - intros (ps & Hin & Hp). exists (i, ps). split; [exact Hin|].
    cbn [fst snd]. apply in_map_iff. exists p. split; [reflexivity|].
    exact Hp.
Qed.

(** The two nested loops are one loop over the visited pairs. *)
Lemma run_visits (catalogue : list (NiFiIntent * list T)) :
  Loop.run T hit sc catalogue
  = fold_left (Loop.visit T hit sc) (Loop.visits T catalogue) (None, 0%Q).
Proof.
  unfold Loop.run, Loop.visits. rewrite fold_left_flat_map.
  apply fold_left_pointwise. intros a [i ps].
  rewrite fold_left_map_in. reflexivity.
Qed.

(** What one visit does to the loop variables. *)
Lemma visit_cases (b : best) (x : NiFiIntent * T) :
  (hit (snd x) = false /\ Loop.visit T hit sc b x = b)
  \/ (hit (snd x) = true /\ (snd b < sc (snd x))%Q
      /\ Loop.visit T hit sc b x
         = (Some (fst x), py_min (sc (snd x)) (8 # 10)%Q))
  \/ (hit (snd x) = true /\ (sc (snd x) <= snd b)%Q
      /\ Loop.visit T hit sc b x = b).
Proof.
  unfold Loop.visit, Loop.step.
  destruct (hit (snd x)) eqn:Eh; [|left; split; reflexivity].
  destruct (Qgt_bool (sc (snd x)) (snd b)) eqn:Eg.
  - right. left. split; [reflexivity|]. split; [|reflexivity].
    apply Qgt_bool_true, Eg.
  - right. right. split; [reflexivity|]. split; [|reflexivity].
    apply Qgt_bool_false, Eg.
Qed.

Lemma visit_capped (b : best) (x : NiFiIntent * T) :
  (0 <= snd b <= 8 # 10)%Q ->
  (0 <= snd (Loop.visit T hit sc b x) <= 8 # 10)%Q.
Proof.
  intros Hb.
  destruct (visit_cases b x)
    as [(_ & ->) | [(Hhit & Hlt & ->) | (_ & _ & ->)]];
    [exact Hb | | exact Hb].
  cbn [snd]. split; [|apply py_min_cap].
  apply py_min_glb; [|discriminate].
  apply Qlt_le_weak. eapply Qle_lt_trans; [apply Hb | exact Hlt].
Qed.

Lemma zero_not_positive (x : Q) : (3 # 10 <= x)%Q -> (x <= 0)%Q -> False.
Proof.
  intros H1 H2. assert (H : (3 # 10 <= 0)%Q) by (eapply Qle_trans; eassumption).
  apply H. reflexivity.
Qed.

Lemma best_so_far_visits (l : list (NiFiIntent * T)) :
  Loop.best_so_far T hit sc l
    (fold_left (Loop.visit T hit sc) l (None, 0%Q)).
Proof.
  apply (fold_left_prefix_invariant_in (Loop.best_so_far T hit sc)).
  - split; [intros ip []|]. split.
    + left. split; [reflexivity | intros ip []].
    + split; discriminate.
  - intros done x b _ (Hbound & Hwho & Hcap).
    assert (Hcap' := visit_capped b x Hcap).
    destruct (visit_cases b x)
      as [(Hno & Hv) | [(Hhit & Hlt & Hv) | (Hhit & Hle & Hv)]];
      rewrite Hv in *; clear Hv.
    + split; [|split; [|exact Hcap]].
      * intros ip Hin Hh. apply in_app_or in Hin.
        destruct Hin as [Hin | [<- | []]]; [apply Hbound; assumption|].
        congruence.
      * destruct Hwho as [(-> & Hnone) | (ip & Hin & Hh & ->)].
        -- left. split; [reflexivity|]. intros ip Hin.
           apply in_app_or in Hin.
           destruct Hin as [Hin | [<- | []]];
             [apply Hnone; assumption | exact Hno].
        -- right. exists ip. split; [apply in_or_app; left; exact Hin|].
           split; [exact Hh | reflexivity].
    + split; [|split; [|exact Hcap']].
      * intros ip Hin Hh. cbn [snd]. apply in_app_or in Hin.
        destruct Hin as [Hin | [<- | []]]; [|apply Qle_refl].
        apply py_min_glb.
        -- apply Qlt_le_weak. eapply Qle_lt_trans; [|exact Hlt].
           apply Hbound; assumption.
        -- apply py_min_cap.
      * right. exists x. split; [apply in_or_app; right; left; reflexivity|].
        split; [exact Hhit | reflexivity].
    + split; [|split; [|exact Hcap]].
      * intros ip Hin Hh. apply in_app_or in Hin.
        destruct Hin as [Hin | [<- | []]]; [apply Hbound; assumption|].
        eapply Qle_trans; [apply py_min_le_l | exact Hle].
      * destruct Hwho as [(-> & Hnone) | (ip & Hin & Hh & ->)].
        -- exfalso. cbn [snd] in Hle.
           exact (zero_not_positive _ (sc_positive _ Hhit) Hle).
        -- right. exists ip. split; [apply in_or_app; left; exact Hin|].
           split; [exact Hh | reflexivity].
Qed.

Lemma first_best_visits (l : list (NiFiIntent * T)) :
  (forall ip, In ip l -> hit (snd ip) = true -> (sc (snd ip) <= 8 # 10)%Q) ->
  Loop.first_best T hit sc l
    (fold_left (Loop.visit T hit sc) l (None, 0%Q)).
Proof.
  intros Hsmall.
  apply (fold_left_prefix_invariant_in (Loop.first_best T hit sc)).
  - left. split; [reflexivity | intros ip []].
  - intros done x b Hx Hinv.
    destruct (visit_cases b x)
      as [(Hno & ->) | [(Hhit & Hlt & ->) | (Hhit & Hle & ->)]].
    + destruct Hinv
        as [(-> & Hnone) | (l1 & ip & l2 & -> & Hh & -> & H1 & H2)].
      * left. split; [reflexivity|]. intros ip Hin.
        apply in_app_or in Hin.
        destruct Hin as [Hin | [<- | []]];
          [apply Hnone; assumption | exact Hno].
      * right. exists l1, ip, (l2 ++ [x]).
        split; [rewrite <- app_assoc; reflexivity|].
        split; [exact Hh|]. split; [reflexivity|]. split; [exact H1|].
        intros jq Hin Hj. apply in_app_or in Hin.
        destruct Hin as [Hin | [<- | []]];
          [apply H2; assumption | congruence].
    + right. exists done, x, []. split; [reflexivity|].
      split; [exact Hhit|]. split.
      { rewrite (py_min_id _ _ (Hsmall x Hx Hhit)). reflexivity. }
      split; [|intros jq []].
      destruct Hinv
        as [(-> & Hnone) | (l1 & ip & l2 & -> & Hh & -> & H1 & H2)].
      * intros jq Hin Hj. rewrite (Hnone jq Hin) in Hj. discriminate.
      * cbn [snd] in Hlt. intros jq Hin Hj. apply in_app_or in Hin.
        destruct Hin as [Hin | [<- | Hin]].
        -- eapply Qlt_trans; [apply H1; assumption | exact Hlt].
        -- exact Hlt.
        -- eapply Qle_lt_trans; [apply H2; assumption | exact Hlt].
    + destruct Hinv
        as [(-> & Hnone) | (l1 & ip & l2 & -> & Hh & -> & H1 & H2)].
      * exfalso. cbn [snd] in Hle.
        exact (zero_not_positive _ (sc_positive _ Hhit) Hle).
      * right. exists l1, ip, (l2 ++ [x]).
        split; [rewrite <- app_assoc; reflexivity|].
        split; [exact Hh|]. split; [reflexivity|]. split; [exact H1|].
        cbn [snd] in Hle. intros jq Hin Hj. apply in_app_or in Hin.
        destruct Hin as [Hin | [<- | []]];
          [apply H2; assumption | exact Hle].
Qed.

(** The best-so-far invariant at the end of the loops, on the catalogue. *)
Lemma run_best (catalogue : list (NiFiIntent * list T)) :
  (forall i ps p,
      In (i, ps) catalogue -> In p ps -> hit p = true ->
      (py_min (sc p) (8 # 10) <= snd (Loop.run T hit sc catalogue))%Q)
  /\ ((Loop.run T hit sc catalogue = (None, 0%Q)
       /\ forall i ps p, In (i, ps) catalogue -> In p ps -> hit p = false)
      \/ exists i ps p,
           In (i, ps) catalogue /\ In p ps /\ hit p = true
           /\ Loop.run T hit sc catalogue
              = (Some i, py_min (sc p) (8 # 10)%Q))
  /\ (0 <= snd (Loop.run T hit sc catalogue) <= 8 # 10)%Q.
Proof.
  rewrite run_visits.
  destruct (best_so_far_visits (Loop.visits T catalogue))
    as (Hbound & Hwho & Hcap).
  split; [|split; [|exact Hcap]].
  - intros i ps p Hin Hp Hhit.
    apply (Hbound (i, p)); [|exact Hhit].
    apply in_visits. exists ps. split; assumption.
  - destruct Hwho as [(Hb & Hnone) | ([i p] & Hin & Hhit & Hb)].
    + left. split; [exact Hb|]. intros i ps p Hin Hp.
      apply (Hnone (i, p)). apply in_visits. exists ps. split; assumption.
    + right. apply in_visits in Hin. destruct Hin as (ps & Hcat & Hp).
      exists i, ps, p.
      split; [exact Hcat|]. split; [exact Hp|]. split; [exact Hhit|].
      exact Hb.
Qed.

(** The first-best invariant at the end of the loops. *)
Lemma run_first_best (catalogue : list (NiFiIntent * list T)) :
  (forall i ps p, In (i, ps) catalogue -> In p ps -> hit p = true ->
                  (sc p <= 8 # 10)%Q) ->
  (Loop.run T hit sc catalogue = (None, 0%Q)
   /\ forall i ps p, In (i, ps) catalogue -> In p ps -> hit p = false)
  \/ exists l1 i p l2,
       Loop.visits T catalogue = l1 ++ (i, p) :: l2 /\ hit p = true
       /\ Loop.run T hit sc catalogue = (Some i, sc p)
       /\ (forall j q, In (j, q) l1 -> hit q = true -> (sc q < sc p)%Q)
       /\ (forall j q, In (j, q) l2 -> hit q = true -> (sc q <= sc p)%Q).
Proof.
  intros Hsmall. rewrite run_visits.
  destruct (first_best_visits (Loop.visits T catalogue)) as
    [(Hb & Hnone) | (l1 & [i p] & l2 & Hsplit & Hhit & Hb & H1 & H2)].
  - intros [i p] Hin Hh. apply in_visits in Hin.
    destruct Hin as (ps & Hcat & Hp). exact (Hsmall i ps p Hcat Hp Hh).
  - left. split; [exact Hb|]. intros i ps p Hin Hp.
    apply (Hnone (i, p)). apply in_visits. exists ps. split; assumption.
  - right. exists l1, i, p, l2.
    split; [exact Hsplit|]. split; [exact Hhit|]. split; [exact Hb|].
    split.
    + intros j q Hin Hq. exact (H1 (j, q) Hin Hq).
    + intros j q Hin Hq. exact (H2 (j, q) Hin Hq).
Qed.

End AbstractLoop.

(** *** The loop of the source is the abstract loop on the regex engine *)

Lemma pattern_step_abstract (ql : string) (i : NiFiIntent) (b : best)
  (p : string) :
  pattern_step ql i b p
  = Loop.step string (Loop.found ql) (Loop.score_in ql) i b p.
Proof.
  unfold pattern_step, Loop.step, Loop.found, Loop.score_in.
  destruct (Re.search p ql); reflexivity.
Qed.

Lemma run_patterns_abstract (catalogue : list (NiFiIntent * list string))
  (ql : string) :
  run_patterns catalogue ql
  = Loop.run string (Loop.found ql) (Loop.score_in ql) catalogue.
Proof.
  unfold run_patterns, Loop.run. apply fold_left_pointwise.
  intros a entry. unfold intent_step. apply fold_left_pointwise.
  intros a' p. apply pattern_step_abstract.
Qed.

Lemma found_true (ql p : string) :
  Loop.found ql p = true <-> Re.search p ql <> None.
Proof.
  unfold Loop.found. destruct (Re.search p ql).
  - split; [discriminate | reflexivity].
  - split; [discriminate | intros H; exfalso; apply H; reflexivity].
Qed.

Lemma found_false (ql p : string) :
  Loop.found ql p = false <-> Re.search p ql = None.
Proof.
  unfold Loop.found. destruct (Re.search p ql).
  - split; discriminate.
  - split; reflexivity.
Qed.

Lemma scan_all_step (fuel : nat) (r : Re.regex) (s : string) (adv : bool) :
  Re.scan_all (S fuel) r s adv
  = match Re.scan r s adv with
    | None => []
    | Some m =>
        m :: Re.scan_all fuel r (Re.rest m)
               (String.length (Re.matched m) =? 0)
    end.
Proof. reflexivity. Qed.

(** A pattern that [re.search] finds is found by [re.findall] too. *)
Lemma findall_nonempty (p text : string) :
  Re.search p text <> None -> 1 <= length (Re.findall p text).
Proof.
  unfold Re.search, Re.findall, Re.matches.
  destruct (Re.compile p) as [r|]; [|congruence].
  intros H.
  replace (2 * String.length text + 2)
    with (S (2 * String.length text + 1)) by lia.
  rewrite scan_all_step.
  destruct (Re.scan r text false) as [m|]; [|congruence].
  rewrite map_cons. cbn [length]. lia.
Qed.

Lemma raw_score_of_count (p text : string) (n : nat) :
  length (Re.findall p text) = n ->
  raw_score p text = (Z.of_nat n * 3 # 10)%Q.
Proof.
  intros H. unfold raw_score. rewrite H.
  unfold Qmult, inject_Z. reflexivity.
Qed.

(** A pattern that matches scores at least 0.3. *)
Lemma raw_score_positive (p text : string) :
  Re.search p text <> None -> (3 # 10 <= raw_score p text)%Q.
Proof.
  intros H. apply findall_nonempty in H.
  rewrite (raw_score_of_count p text _ eq_refl).
  unfold Qle. cbn [Qnum Qden]. lia.
Qed.

(** A pattern that matches at most twice scores at most 0.6. *)
Lemma raw_score_small (p text : string) :
  length (Re.findall p text) <= 2 -> (raw_score p text <= 8 # 10)%Q.
Proof.
  intros H. rewrite (raw_score_of_count p text _ eq_refl).
  unfold Qle. cbn [Qnum Qden]. lia.
Qed.

Lemma score_in_positive (ql p : string) :
  Loop.found ql p = true -> (3 # 10 <= Loop.score_in ql p)%Q.
Proof.
  intros H. apply found_true in H. unfold Loop.score_in.
  apply raw_score_positive, H.
Qed.

(** The loop invariants, on the catalogue and its patterns. *)
Lemma run_patterns_best (catalogue : list (NiFiIntent * list string))
  (ql : string) :
  (forall i ps p,
      In (i, ps) catalogue -> In p ps -> Re.search p ql <> None ->
      (py_min (raw_score p ql) (8 # 10)
       <= snd (run_patterns catalogue ql))%Q)
  /\ ((run_patterns catalogue ql = (None, 0%Q)
       /\ forall i ps p,
            In (i, ps) catalogue -> In p ps -> Re.search p ql = None)
      \/ exists i ps p,
           In (i, ps) catalogue /\ In p ps /\ Re.search p ql <> None
           /\ run_patterns catalogue ql
              = (Some i, py_min (raw_score p ql) (8 # 10)%Q))
  /\ (0 <= snd (run_patterns catalogue ql) <= 8 # 10)%Q.
Proof.
  rewrite run_patterns_abstract.
  destruct (run_best string (Loop.found ql) (Loop.score_in ql)
              (score_in_positive ql) catalogue)
    as (Hbound & Hwho & Hcap).
  split; [|split; [|exact Hcap]].
  - intros i ps p Hin Hp Hhit. apply found_true in Hhit.
    exact (Hbound i ps p Hin Hp Hhit).
  - destruct Hwho as [(Hb & Hnone) | (i & ps & p & Hin & Hp & Hhit & Hb)].
    + left. split; [exact Hb|]. intros i ps p Hin Hp.
      apply found_false. exact (Hnone i ps p Hin Hp).
    + right. exists i, ps, p.
      split; [exact Hin|]. split; [exact Hp|].
      split; [apply found_true; exact Hhit | exact Hb].
Qed.

Lemma run_patterns_first_best
  (catalogue : list (NiFiIntent * list string)) (ql : string) :
  (forall i ps p, In (i, ps) catalogue -> In p ps ->
                  length (Re.findall p ql) <= 2) ->
  (run_patterns catalogue ql = (None, 0%Q)
   /\ forall i ps p,
        In (i, ps) catalogue -> In p ps -> Re.search p ql = None)
  \/ exists l1 i p l2,
       Loop.visits string catalogue = l1 ++ (i, p) :: l2
       /\ Re.search p ql <> None
       /\ run_patterns catalogue ql = (Some i, raw_score p ql)
       /\ (forall j q, In (j, q) l1 -> Re.search q ql <> None ->
                       (raw_score q ql < raw_score p ql)%Q)
       /\ (forall j q, In (j, q) l2 -> Re.search q ql <> None ->
                       (raw_score q ql <= raw_score p ql)%Q).
Proof.
  intros Hsmall. rewrite run_patterns_abstract.
  destruct (run_first_best string (Loop.found ql) (Loop.score_in ql)
              (score_in_positive ql) catalogue)
    as [(Hb & Hnone) | (l1 & i & p & l2 & Hsplit & Hhit & Hb & H1 & H2)].
  - intros i ps p Hin Hp _. unfold Loop.score_in.
    apply raw_score_small. exact (Hsmall i ps p Hin Hp).
  - left. split; [exact Hb|]. intros i ps p Hin Hp.
    apply found_false. exact (Hnone i ps p Hin Hp).
  - right. exists l1, i, p, l2.
    split; [exact Hsplit|]. split; [apply found_true; exact Hhit|].
    split; [exact Hb|]. split.
    + intros j q Hin Hq. apply found_true in Hq. exact (H1 j q Hin Hq).
    + intros j q Hin Hq. apply found_true in Hq. exact (H2 j q Hin Hq).
Qed.

(** The pattern-matching result, from the loop variables. *)
Lemma _process_with_patterns_some (query : string) (i : NiFiIntent)
  (c : Q) :
  run_patterns intent_patterns (Py.strip (Py.lower query)) = (Some i, c) ->
  intent (_process_with_patterns query) = i
  /\ confidence (_process_with_patterns query) = c.
Proof.
  intros H. unfold _process_with_patterns. rewrite H. split; reflexivity.
Qed.

Lemma _process_with_patterns_none (query : string) (c : Q) :
  run_patterns intent_patterns (Py.strip (Py.lower query)) = (None, c) ->
  intent (_process_with_patterns query) = UNKNOWN
  /\ confidence (_process_with_patterns query) = 0%Q.
Proof.
  intros H. unfold _process_with_patterns. rewrite H. split; reflexivity.
Qed.

(** What the result always carries: the query as received, the
    explanation naming the intent, the parameters extracted from the
    lower-cased, trimmed text for that intent. *)
Lemma _process_with_patterns_carries (query : string) :
  raw_query (_process_with_patterns query) = query
  /\ explanation (_process_with_patterns query)
     = Some ("Matched pattern for "
             +:+ value (intent (_process_with_patterns query)))
  /\ parameters (_process_with_patterns query)
     = _extract_parameters_from_patterns (Py.strip (Py.lower query))
         (intent (_process_with_patterns query)).
Proof.
  unfold _process_with_patterns.
  destruct (run_patterns intent_patterns (Py.strip (Py.lower query)))
    as [[i|] c]; repeat split.
Qed.

(** Every intent of the catalogue is a real tag, and has a handler unless
    it is monitor_flow. *)
Lemma catalogue_intents_known (i : NiFiIntent) :
  In i Loop.catalogue_intents ->
  i <> UNKNOWN /\ (has_handler i = true \/ i = MONITOR_FLOW).
Proof.
  unfold Loop.catalogue_intents. cbn [intent_patterns map fst].
  intros H.
  repeat (destruct H as [<- | H];
          [split; [discriminate | first [now left | now right]]|]).
  destruct H.
Qed.

(** X1. The confidence of the pattern matcher is the best capped score:
    it lies between 0 and 0.8, no matching pattern has a higher capped score
    min(count * 0.3, 0.8), and it is 0 or the capped score of a pattern
    that matches. *)
Theorem pattern_confidence_is_best_capped_score (query : string) :
  (0 <= confidence (_process_with_patterns query) <= 8 # 10)%Q
  /\ (forall i ps p,
         In (i, ps) intent_patterns -> In p ps ->
         Re.search p (Py.strip (Py.lower query)) <> None ->
         (py_min (raw_score p (Py.strip (Py.lower query))) (8 # 10)
          <= confidence (_process_with_patterns query))%Q)
  /\ (confidence (_process_with_patterns query) = 0%Q
      \/ exists i ps p,
           In (i, ps) intent_patterns /\ In p ps
           /\ Re.search p (Py.strip (Py.lower query)) <> None
           /\ confidence (_process_with_patterns query)
              = py_min (raw_score p (Py.strip (Py.lower query))) (8 # 10)).
Proof.
  destruct (run_patterns_best intent_patterns (Py.strip (Py.lower query)))
    as (Hbound & Hwho & Hcap).
  assert (Hsnd : confidence (_process_with_patterns query)
                 = snd (run_patterns intent_patterns
                          (Py.strip (Py.lower query)))).
  { destruct Hwho as [(Hb & _) | (i & ps & p & _ & _ & _ & Hb)].
    - rewrite Hb. apply (_process_with_patterns_none query _ Hb).
    - rewrite Hb. apply (_process_with_patterns_some query _ _ Hb). }
  rewrite Hsnd. split; [exact Hcap|]. split; [exact Hbound|].
  destruct Hwho as [(Hb & _) | (i & ps & p & Hin & Hp & Hhit & Hb)].
  - left. rewrite Hb. reflexivity.
  - right. exists i, ps, p.
    split; [exact Hin|]. split; [exact Hp|]. split; [exact Hhit|].
    rewrite Hb. reflexivity.
Qed.

(** X2. The pattern matcher answers Unknown exactly when no pattern of
    the catalogue matches the lower-cased, trimmed query; any other answer
    is an intent one of whose own patterns matches, with a confidence of
    at least 0.3. *)
Theorem pattern_intent_has_matching_pattern (query : string) :
  (intent (_process_with_patterns query) <> UNKNOWN
   <-> exists i ps p,
         In (i, ps) intent_patterns /\ In p ps
         /\ Re.search p (Py.strip (Py.lower query)) <> None)
  /\ (intent (_process_with_patterns query) <> UNKNOWN ->
      exists ps p,
        In (intent (_process_with_patterns query), ps) intent_patterns
        /\ In p ps
        /\ Re.search p (Py.strip (Py.lower query)) <> None
        /\ confidence (_process_with_patterns query)
           = py_min (raw_score p (Py.strip (Py.lower query))) (8 # 10)
        /\ (3 # 10 <= confidence (_process_with_patterns query))%Q).
Proof.
  destruct (run_patterns_best intent_patterns (Py.strip (Py.lower query)))
    as (_ & Hwho & _).
  destruct Hwho as [(Hb & Hnone) | (i & ps & p & Hin & Hp & Hhit & Hb)];
    [destruct (_process_with_patterns_none query _ Hb) as [Hi Hc]
    |destruct (_process_with_patterns_some query _ _ Hb) as [Hi Hc]].
  - split.
    + split; [intros H; exfalso; apply H; exact Hi|].
      intros (i & ps & p & Hin & Hp & Hhit). exfalso.
      apply Hhit. exact (Hnone i ps p Hin Hp).
    + intros H. exfalso. apply H. exact Hi.
  - assert (Hknown : i <> UNKNOWN).
    { apply (catalogue_intents_known i).
      unfold Loop.catalogue_intents. apply in_map_iff.
      exists (i, ps). split; [reflexivity | exact Hin]. }
    rewrite Hi, Hc. split.
    + split; [|intros _; exact Hknown].
      intros _. exists i, ps, p.
      split; [exact Hin|]. split; [exact Hp | exact Hhit].
    + intros _. exists ps, p.
      split; [exact Hin|]. split; [exact Hp|]. split; [exact Hhit|].
      split; [reflexivity|].
      apply py_min_glb; [|discriminate].
      apply raw_score_positive, Hhit.
Qed.

(** X3. When no pattern of the catalogue matches the query more than
    twice and some pattern matches, the first pattern, in catalogue order,
    of maximal raw score decides: the answer is its intent with its raw
    score, every matching pattern before it scores strictly less and none
    after it scores more. *)
Theorem earliest_best_pattern_wins (query : string) :
  (forall i ps p,
      In (i, ps) intent_patterns -> In p ps ->
      length (Re.findall p (Py.strip (Py.lower query))) <= 2) ->
  intent (_process_with_patterns query) <> UNKNOWN ->
  exists l1 i p l2,
    Loop.visits string intent_patterns = l1 ++ (i, p) :: l2
    /\ Re.search p (Py.strip (Py.lower query)) <> None
    /\ intent (_process_with_patterns query) = i
    /\ confidence (_process_with_patterns query)
       = raw_score p (Py.strip (Py.lower query))
    /\ (forall j q,
           In (j, q) l1 ->
           Re.search q (Py.strip (Py.lower query)) <> None ->
           (raw_score q (Py.strip (Py.lower query))
            < raw_score p (Py.strip (Py.lower query)))%Q)
    /\ (forall j q,
           In (j, q) l2 ->
           Re.search q (Py.strip (Py.lower query)) <> None ->
           (raw_score q (Py.strip (Py.lower query))
            <= raw_score p (Py.strip (Py.lower query)))%Q).
Proof.
  intros Hsmall Hknown.
  destruct (run_patterns_first_best intent_patterns
              (Py.strip (Py.lower query)) Hsmall)
    as [(Hb & _) | (l1 & i & p & l2 & Hsplit & Hhit & Hb & H1 & H2)];
    [destruct (_process_with_patterns_none query _ Hb) as [Hi Hc]
    |destruct (_process_with_patterns_some query _ _ Hb) as [Hi Hc]].
  - exfalso. apply Hknown. exact Hi.
  - exists l1, i, p, l2. split; [exact Hsplit|]. split; [exact Hhit|].
    split; [exact Hi|]. split; [exact Hc|]. split; [exact H1 | exact H2].
Qed.

Lemma getfile_query_counts :
  forall i ps p,
    In (i, ps) intent_patterns -> In p ps ->
    length (Re.findall p (Py.strip (Py.lower "Create a GetFile processor")))
    <= 2.
Proof.
  assert (Hall : forallb
                   (fun ip =>
                      length (Re.findall (snd ip)
                                (Py.strip
                                   (Py.lower "Create a GetFile processor")))
                      <=? 2)
                   (Loop.visits string intent_patterns) = true)
    by (vm_compute; reflexivity).
  intros i ps p Hin Hp. rewrite forallb_forall in Hall.
  apply Nat.leb_le.
  apply (Hall (i, p)). apply in_visits. exists ps. split; assumption.
Qed.

Lemma earliest_best_pattern_wins_witness :
  exists l1 i p l2,
    Loop.visits string intent_patterns = l1 ++ (i, p) :: l2
    /\ Re.search p (Py.strip (Py.lower "Create a GetFile processor")) <> None
    /\ intent (_process_with_patterns "Create a GetFile processor") = i
    /\ confidence (_process_with_patterns "Create a GetFile processor")
       = raw_score p (Py.strip (Py.lower "Create a GetFile processor"))
    /\ (forall j q,
           In (j, q) l1 ->
           Re.search q (Py.strip (Py.lower "Create a GetFile processor"))
           <> None ->
           (raw_score q (Py.strip (Py.lower "Create a GetFile processor"))
            < raw_score p
                (Py.strip (Py.lower "Create a GetFile processor")))%Q)
    /\ (forall j q,
           In (j, q) l2 ->
           Re.search q (Py.strip (Py.lower "Create a GetFile processor"))
           <> None ->
           (raw_score q (Py.strip (Py.lower "Create a GetFile processor"))
            <= raw_score p
                 (Py.strip (Py.lower "Create a GetFile processor")))%Q).
Proof.
  apply (earliest_best_pattern_wins "Create a GetFile processor").
  - exact getfile_query_counts.
  - vm_compute. discriminate.
Defined.

(** The query above, run: the earlier list_processors pattern
    ([get.*processors?] finds "getfile processor") wins the tie with
    create_processor. *)
Example getfile_query_lists_processors :
  intent (_process_with_patterns "Create a GetFile processor")
  = LIST_PROCESSORS.
Proof. vm_compute. reflexivity. Qed.

(** X4. On the pattern path the answer is Unknown or an intent of the
    catalogue: delete_processor, configure_processor and delete_connection
    are never answered, and the only answers without a handler in the
    dispatcher are Unknown and monitor_flow. *)
Theorem pattern_path_intents (query : string) :
  (intent (_process_with_patterns query) = UNKNOWN
   \/ In (intent (_process_with_patterns query)) Loop.catalogue_intents)
  /\ intent (_process_with_patterns query) <> DELETE_PROCESSOR
  /\ intent (_process_with_patterns query) <> CONFIGURE_PROCESSOR
  /\ intent (_process_with_patterns query) <> DELETE_CONNECTION
  /\ (has_handler (intent (_process_with_patterns query)) = false ->
      intent (_process_with_patterns query) = UNKNOWN
      \/ intent (_process_with_patterns query) = MONITOR_FLOW).
Proof.
  destruct (run_patterns_best intent_patterns (Py.strip (Py.lower query)))
    as (_ & Hwho & _).
  destruct Hwho as [(Hb & _) | (i & ps & p & Hin & _ & _ & Hb)];
    [destruct (_process_with_patterns_none query _ Hb) as [Hi _]
    |destruct (_process_with_patterns_some query _ _ Hb) as [Hi _]];
    rewrite Hi.
  - split; [left; reflexivity|].
    split; [discriminate|]. split; [discriminate|].
    split; [discriminate|]. intros _. left. reflexivity.
  - assert (Hcat : In i Loop.catalogue_intents).
    { unfold Loop.catalogue_intents. apply in_map_iff.
      exists (i, ps). split; [reflexivity | exact Hin]. }
    destruct (catalogue_intents_known i Hcat) as [Hne Hh].
    split; [right; exact Hcat|].
    split; [intros Heq; rewrite Heq in Hh; destruct Hh; discriminate|].
    split; [intros Heq; rewrite Heq in Hh; destruct Hh; discriminate|].
    split; [intros Heq; rewrite Heq in Hh; destruct Hh; discriminate|].
    intros Hf. destruct Hh as [Ht | Hm].
    + rewrite Ht in Hf. discriminate.
    + right. exact Hm.
Qed.

(** ** Parameter extractor *)

Lemma intent_eqb_eq (a b : NiFiIntent) : intent_eqb a b = true -> a = b.
Proof.
  unfold intent_eqb. intros H. apply String.eqb_eq in H.
  destruct a, b; try discriminate H; reflexivity.
Qed.

Lemma intent_in_In (i : NiFiIntent) (l : list NiFiIntent) :
  intent_in i l = true -> In i l.
Proof.
  unfold intent_in. intros H. apply existsb_exists in H.
  destruct H as (j & Hj & E). apply intent_eqb_eq in E. now subst.
Qed.

(** The first matching entry of a table is an entry of the table whose
    pattern is found, and no entry before it is. *)
Lemma first_match_entry {A : Type} (table : list (string * A))
  (query : string) (a : A) (m : Re.rmatch_result) :
  first_match table query = Some (a, m) ->
  exists before pattern after,
    table = before ++ (pattern, a) :: after
    /\ Re.search pattern query = Some m
    /\ forall q b, In (q, b) before -> Re.search q query = None.
Proof.
  induction table as [|[pattern b] rest IH]; [discriminate|].
  cbn [first_match].
  destruct (Re.search pattern query) as [m'|] eqn:E.
  - intros [= <- <-]. exists [], pattern, rest.
    split; [reflexivity|]. split; [exact E|]. intros q b0 [].
  - intros H. destruct (IH H) as (before & p & after & -> & Hs & Hnone).
    exists ((pattern, b) :: before), p, after.
    split; [reflexivity|]. split; [exact Hs|].
    intros q b0 [[= <- <-] | Hin]; [exact E | exact (Hnone q b0 Hin)].
Qed.

Lemma first_match_none {A : Type} (table : list (string * A))
  (query : string) :
  first_match table query = None <->
  forall q b, In (q, b) table -> Re.search q query = None.
Proof.
  induction table as [|[pattern b] rest IH]; cbn [first_match].
  - split; [intros _ q b [] | reflexivity].
  - destruct (Re.search pattern query) as [m'|] eqn:E.
    + split; [discriminate|]. intros H.
      rewrite (H pattern b (or_introl eq_refl)) in E. discriminate.
    + rewrite IH. split.
      * intros H q b0 [[= <- <-] | Hin]; [exact E | exact (H q b0 Hin)].
      * intros H q b0 Hin. apply (H q b0). right. exact Hin.
Qed.

(** The extractor with the regular-expression results abstracted: what
    it does with the quoted names, the processor-type entry, the search
    match and the group-reference match it found. *)
Lemma _extract_parameters_shape (query : string) (i : NiFiIntent) :
  let p := _extract_parameters_from_patterns query i in
  process_group_id p = Some "root"
  /\ processor_id p = None
  /\ connection_name p = None
  /\ properties p = Some []
  /\ relationships p = Some []
  /\ source_id p = None
  /\ destination_id p = None
  /\ position p = None
  /\ additional_params p = Some []
  /\ (search_query p <> None -> i = SEARCH_COMPONENTS)
  /\ (processor_name p <> None ->
      In i [CREATE_PROCESSOR; START_PROCESSOR; STOP_PROCESSOR])
  /\ (template_name p <> None ->
      In i [CREATE_TEMPLATE; INSTANTIATE_TEMPLATE])
  /\ processor_type p
     = option_map fst (first_match processor_type_patterns query).
Proof.
  unfold _extract_parameters_from_patterns.
  generalize (Re.findall_group quoted_name_pattern query) as names.
  generalize (first_match processor_type_patterns query) as ptype.
  generalize (first_match_of search_patterns query) as found_search.
  generalize (first_match_of pg_patterns query) as found_group.
  intros found_group found_search ptype names.
  assert (Hsearch : intent_eqb i SEARCH_COMPONENTS = true ->
                    i = SEARCH_COMPONENTS) by apply intent_eqb_eq.
  assert (Hproc := intent_in_In i
                     [CREATE_PROCESSOR; START_PROCESSOR; STOP_PROCESSOR]).
  assert (Htemp := intent_in_In i [CREATE_TEMPLATE; INSTANTIATE_TEMPLATE]).
  destruct (intent_eqb i SEARCH_COMPONENTS);
    destruct (intent_in i
                [CREATE_PROCESS_GROUP; START_PROCESS_GROUP;
                 STOP_PROCESS_GROUP]);
    destruct (intent_in i
                [CREATE_PROCESSOR; START_PROCESSOR; STOP_PROCESSOR]);
    destruct (intent_in i [CREATE_TEMPLATE; INSTANTIATE_TEMPLATE]);
    destruct names as [|name others];
    destruct ptype as [[t0 m0]|];
    destruct found_search as [ms|];
    destruct found_group as [mg|];
    try destruct (negb _);
    cbn;
    repeat split;
    try (intros H; exfalso; apply H; reflexivity);
    try (intros _; apply Hsearch; reflexivity);
    try (intros _; apply Hproc; reflexivity);
    try (intros _; apply Htemp; reflexivity).
Qed.

(** X5. Whatever the query and the intent, the parameter extractor
    leaves the group id at "root" and never fills the processor id, the
    connection name, the properties, the relationships, the source and
    destination ids, the position or the additional parameters; it fills
    the search query only for the search intent, the processor name only
    for the create, start and stop processor intents, and the template name
    only for the two template intents. *)
Theorem extractor_fills_only_names_type_and_search (query : string)
  (i : NiFiIntent) :
  process_group_id (_extract_parameters_from_patterns query i)
  = Some "root"
  /\ processor_id (_extract_parameters_from_patterns query i) = None
  /\ connection_name (_extract_parameters_from_patterns query i) = None
  /\ properties (_extract_parameters_from_patterns query i) = Some []
  /\ relationships (_extract_parameters_from_patterns query i) = Some []
  /\ source_id (_extract_parameters_from_patterns query i) = None
  /\ destination_id (_extract_parameters_from_patterns query i) = None
  /\ position (_extract_parameters_from_patterns query i) = None
  /\ additional_params (_extract_parameters_from_patterns query i)
     = Some []
  /\ (search_query (_extract_parameters_from_patterns query i) <> None ->
      i = SEARCH_COMPONENTS)
  /\ (processor_name (_extract_parameters_from_patterns query i) <> None ->
      In i [CREATE_PROCESSOR; START_PROCESSOR; STOP_PROCESSOR])
  /\ (template_name (_extract_parameters_from_patterns query i) <> None ->
      In i [CREATE_TEMPLATE; INSTANTIATE_TEMPLATE]).
Proof.
  destruct (_extract_parameters_shape query i)
    as (H1 & H2 & H3 & H4 & H5 & H6 & H7 & H8 & H9 & H10 & H11 & H12 & _).
  repeat (split; [assumption|]). assumption.
Qed.

(** X6. The processor type the extractor fills in is the class name of
    the first entry of the type table, in table order, whose pattern is
    found in the query, whatever the intent; it stays absent exactly when
    no pattern of the table is found. *)
Theorem extractor_processor_type_is_first_table_hit (query : string)
  (i : NiFiIntent) :
  (forall t,
      processor_type (_extract_parameters_from_patterns query i) = Some t ->
      exists before pattern after,
        processor_type_patterns = before ++ (pattern, t) :: after
        /\ Re.search pattern query <> None
        /\ forall q b, In (q, b) before -> Re.search q query = None)
  /\ (processor_type (_extract_parameters_from_patterns query i) = None
      <-> forall q b, In (q, b) processor_type_patterns ->
                      Re.search q query = None).
Proof.
  destruct (_extract_parameters_shape query i)
    as (_ & _ & _ & _ & _ & _ & _ & _ & _ & _ & _ & _ & Ht).
  rewrite Ht. clear Ht.
  generalize (first_match_entry processor_type_patterns query).
  generalize (first_match_none processor_type_patterns query).
  generalize processor_type_patterns as table.
  intros table Hnone Hentry.
  destruct (first_match table query) as [[t0 m0]|].
  - split.
    + intros t [= <-].
      destruct (Hentry t0 m0 eq_refl)
        as (before & pattern & after & Ht & Hs & Hb).
      exists before, pattern, after. split; [exact Ht|].
      split; [|exact Hb]. rewrite Hs. discriminate.
    + split; [discriminate|]. intros H. apply Hnone in H. discriminate H.
  - split; [discriminate|]. split; [|reflexivity].
    intros _. apply Hnone. reflexivity.
Qed.

(** ** Classifier adapter and resolver: what is accepted, what escapes *)

(** X7. The tag of an intent and the intent of a tag are inverse: every
    intent is read back from its tag, a text is read as an intent only if
    it is that intent's tag, and the twenty-five tags the catalogue lists
    are pairwise distinct. *)
Theorem intent_tag_round_trip :
  (forall i, intent_of_value (value i) = Some i)
  /\ (forall s i, intent_of_value s = Some i -> s = value i)
  /\ (forall i j, value i = value j -> i = j)
  /\ NoDup (map value all_intents)
  /\ length all_intents = 25.
Proof.
  split; [exact intent_of_value_value|].
  split; [intros s i H; symmetry; exact (intent_of_value_some s i H)|].
  split.
  - intros i j H.
    assert (E : Some i = Some j).
    { rewrite <- (intent_of_value_value i), <- (intent_of_value_value j).
      now rewrite H. }
    now injection E.
  - split; [|reflexivity].
    apply (bool_decide_unpack _). vm_compute. exact I.
Qed.

Section AdapterEscapes.

Context {L : Library}.

Lemma _parse_llm_response_raw_query (response q : string)
  (r : ProcessedIntent) :
  _parse_llm_response response q = Return r -> raw_query r = q.
Proof.
  unfold _parse_llm_response.
  destruct (parse_llm_body response q) as [r'|e] eqn:E.
  - intros [= <-]. unfold parse_llm_body in E.
    destruct (json_loads response) as [data|]; [|discriminate].
    cbn in E. destruct data; try discriminate.
    destruct (intent_field fields); [|discriminate]. cbn in E.
    destruct (parameters_field fields); [|discriminate]. cbn in E.
    destruct (confidence_field fields) as [c|]; [|discriminate].
    cbn in E. unfold ProcessedIntent_validate in E.
    destruct (match c with Finite _ => _ | NotFinite _ => _ end);
      [|discriminate].
    destruct (match _ with JString s => _ | _ => _ end);
      [|discriminate].
    injection E as <-. reflexivity.
  - destruct (is_value_error e || is_key_error e); [|discriminate].
    intros [= <-]. reflexivity.
Qed.

End AdapterEscapes.

(** X8. Whatever the adapter returns carries the query it was given and a
    confidence between 0 and 1, for every response text. *)
Theorem adapter_result_keeps_query_and_unit_confidence {L : Library}
  (response original_query : string) (r : ProcessedIntent) :
  _parse_llm_response response original_query = Return r ->
  raw_query r = original_query /\ (0 <= confidence r <= 1)%Q.
Proof.
  intros H. split.
  - exact (_parse_llm_response_raw_query _ _ _ H).
  - exact (_parse_llm_response_confidence _ _ _ H).
Qed.

Lemma adapter_result_keeps_query_and_unit_confidence_witness :
  exists r,
    _parse_llm_response (L := Reference.library)
      ("{" +:+ quoted "intent" +:+ ": " +:+ quoted "help" +:+ ", "
       +:+ quoted "confidence" +:+ ": 0.9}") "what can you do"
    = Return r
    /\ raw_query r = "what can you do" /\ (0 <= confidence r <= 1)%Q.
Proof.
  eexists. split; [vm_compute; reflexivity|].
  apply (adapter_result_keeps_query_and_unit_confidence
           (L := Reference.library)
           ("{" +:+ quoted "intent" +:+ ": " +:+ quoted "help" +:+ ", "
            +:+ quoted "confidence" +:+ ": 0.9}") "what can you do").
  vm_compute. reflexivity.
Defined.

(** X9. What the adapter lets through as an exception, because its
    [except] clause does not name it: a response that is JSON but no
    object ([AttributeError]); an object whose parameters are no object
    ([TypeError]); an object whose confidence is null, a list or an object
    ([TypeError]). *)
Theorem adapter_lets_attribute_and_type_errors_through {L : Library}
  (response original_query : string) :
  (forall v,
      json_loads response = Return v ->
      (forall fields, v <> JObject fields) ->
      _parse_llm_response response original_query
      = Raised (Raise AttributeError "object has no attribute 'get'"))
  /\ (forall fields i v,
         json_loads response = Return (JObject fields) ->
         intent_field fields = Return i ->
         Json.get "parameters" fields = Some v ->
         (forall supplied, v <> JObject supplied) ->
         _parse_llm_response response original_query
         = Raised (Raise TypeError "argument after ** must be a mapping"))
  /\ (forall fields i p v,
         json_loads response = Return (JObject fields) ->
         intent_field fields = Return i ->
         parameters_field fields = Return p ->
         Json.get "confidence" fields = Some v ->
         (v = JNull \/ (exists l, v = JArray l) \/ (exists d, v = JObject d)) ->
         _parse_llm_response response original_query
         = Raised (Raise TypeError
                     "float() argument must be a string or a real number")).
Proof.
  split; [|split].
  - intros v H Hnot. unfold _parse_llm_response, parse_llm_body.
    rewrite H. cbn.
    destruct v; try reflexivity. exfalso. now apply (Hnot fields).
  - intros fields i v H Hi Hv Hnot.
    unfold _parse_llm_response, parse_llm_body.
    rewrite H. cbn. rewrite Hi. cbn.
    unfold parameters_field. rewrite Hv.
    destruct v; try reflexivity. exfalso. now apply (Hnot fields0).
  - intros fields i p v H Hi Hp Hv Hkind.
    rewrite (_parse_llm_response_object response original_query fields i p
               H Hi Hp).
    unfold confidence_field. rewrite Hv.
    destruct Hkind as [-> | [[l ->] | [d ->]]]; reflexivity.
Qed.

Lemma adapter_lets_attribute_and_type_errors_through_witness :
  _parse_llm_response (L := Reference.library) "[1, 2]" "list processors"
  = Raised (Raise AttributeError "object has no attribute 'get'")
  /\ _parse_llm_response (L := Reference.library)
       ("{" +:+ quoted "parameters" +:+ ": null}") "list processors"
     = Raised (Raise TypeError "argument after ** must be a mapping")
  /\ _parse_llm_response (L := Reference.library)
       ("{" +:+ quoted "confidence" +:+ ": null}") "list processors"
     = Raised (Raise TypeError
                 "float() argument must be a string or a real number").
Proof.
  split; [|split].
  - eapply (proj1 (adapter_lets_attribute_and_type_errors_through
                     (L := Reference.library) "[1, 2]" "list processors")).
    + vm_compute. reflexivity.
    + discriminate.
  - eapply (proj1 (proj2 (adapter_lets_attribute_and_type_errors_through
                            (L := Reference.library)
                            ("{" +:+ quoted "parameters" +:+ ": null}")
                            "list processors"))).
    + vm_compute. reflexivity.
    + vm_compute. reflexivity.
    + vm_compute. reflexivity.
    + discriminate.
  - eapply (proj2 (proj2 (adapter_lets_attribute_and_type_errors_through
                            (L := Reference.library)
                            ("{" +:+ quoted "confidence" +:+ ": null}")
                            "list processors"))).
    + vm_compute. reflexivity.
    + vm_compute. reflexivity.
    + vm_compute. reflexivity.
    + vm_compute. reflexivity.
    + left. reflexivity.
Defined.

(** X10. A confidence the model refuses makes the whole response a
    parse failure, however good the intent and the parameters are: a
    number below 0 or above 1, an infinity or a NaN, and a text that is no
    number all give intent Unknown with confidence 0.0. *)
Theorem adapter_refused_confidence_is_parse_failure {L : Library}
  (response original_query : string) (fields : list (string * json))
  (i : NiFiIntent) (p : IntentParameters) :
  json_loads response = Return (JObject fields) ->
  intent_field fields = Return i ->
  parameters_field fields = Return p ->
  ((exists c, confidence_field fields = Return (Finite c)
              /\ (c < 0 \/ 1 < c)%Q)
   \/ (exists n, confidence_field fields = Return (NotFinite n))
   \/ (exists s, Json.get "confidence" fields = Some (JString s)
                 /\ float_of_text s = None)) ->
  _parse_llm_response response original_query
  = Return {| intent := UNKNOWN;
              parameters := IntentParameters_default;
              confidence := 0%Q;
              raw_query := original_query;
              explanation := Some "Failed to parse LLM response" |}.
Proof.
  intros H Hi Hp Hc.
  rewrite (_parse_llm_response_object response original_query fields i p
             H Hi Hp).
  destruct Hc as [(c & -> & Hout) | [(n & ->) | (s & Hs & Hf)]].
  - cbn. unfold ProcessedIntent_validate.
    assert (E : Qle_bool 0 c && Qle_bool c 1 = false).
    { apply andb_false_iff.
      destruct Hout as [Hlt | Hlt]; [left | right];
        (destruct (Qle_bool _ _) eqn:E; [|reflexivity]);
        apply Qle_bool_iff in E; exfalso;
        exact (Qlt_not_le _ _ Hlt E). }
    rewrite E. reflexivity.
  - reflexivity.
  - unfold confidence_field. rewrite Hs. cbn. rewrite Hf. reflexivity.
Qed.

Lemma adapter_refused_confidence_is_parse_failure_witness :
  _parse_llm_response (L := Reference.library)
    ("{" +:+ quoted "intent" +:+ ": " +:+ quoted "help" +:+ ", "
     +:+ quoted "confidence" +:+ ": 1.5}") "what can you do"
  = Return {| intent := UNKNOWN;
              parameters := IntentParameters_default;
              confidence := 0%Q;
              raw_query := "what can you do";
              explanation := Some "Failed to parse LLM response" |}.
Proof.
  eapply (adapter_refused_confidence_is_parse_failure
            (L := Reference.library)).
  - vm_compute. reflexivity.
  - vm_compute. reflexivity.
  - vm_compute. reflexivity.
  - left. exists (3 # 2)%Q. split; [vm_compute; reflexivity|].
    right. reflexivity.
Defined.

(** X11. What the resolver answers always carries the query as received
    and a confidence between 0 and 1; it is the pattern matcher's answer
    unless a provider is configured and the adapter returned this very
    result with a confidence above 0.7. *)
Theorem resolver_answer_is_classifier_above_threshold_or_patterns
  {L : Library} (llm_provider : option LLMProvider) (query : string) :
  raw_query (Intent.process_query llm_provider query) = query
  /\ (0 <= confidence (Intent.process_query llm_provider query) <= 1)%Q
  /\ (Intent.process_query llm_provider query
      = _process_with_patterns query
      \/ exists provider,
           llm_provider = Some provider
           /\ _process_with_llm provider query
              = Return (Intent.process_query llm_provider query)
           /\ (7 # 10
               < confidence (Intent.process_query llm_provider query))%Q).
Proof.
  assert (Hpat : raw_query (_process_with_patterns query) = query
                 /\ (0 <= confidence (_process_with_patterns query) <= 1)%Q
                 /\ (_process_with_patterns query
                     = _process_with_patterns query
                     \/ exists provider,
                          llm_provider = Some provider
                          /\ _process_with_llm provider query
                             = Return (_process_with_patterns query)
                          /\ (7 # 10
                              < confidence
                                  (_process_with_patterns query))%Q)).
  { split; [exact (proj1 (_process_with_patterns_carries query))|].
    split; [|left; reflexivity].
    destruct (_process_with_patterns_confidence query) as [H0 H8].
    split; [exact H0|].
    apply (Qle_trans _ (8 # 10)); [exact H8 | discriminate]. }
  destruct llm_provider as [provider|].
  - destruct (_process_with_llm provider query) as [r|e] eqn:E.
    + destruct (Qgt_bool (confidence r) (7 # 10)) eqn:Hgt.
      * assert (Hr : Intent.process_query (Some provider) query = r).
        { unfold Intent.process_query. rewrite E, Hgt. reflexivity. }
        rewrite Hr.
        assert (E' := E). unfold _process_with_llm in E'.
        destruct (generate_response provider _ _ _) as [response|];
          [|discriminate E'].
        split; [exact (_parse_llm_response_raw_query _ _ _ E')|].
        split; [exact (_parse_llm_response_confidence _ _ _ E')|].
        right. exists provider. split; [reflexivity|].
        split; [exact E | exact (Qgt_bool_true _ _ Hgt)].
      * assert (Hr : Intent.process_query (Some provider) query
                     = _process_with_patterns query).
        { unfold Intent.process_query. rewrite E, Hgt. reflexivity. }
        rewrite Hr. exact Hpat.
    + rewrite (process_query_raised provider query e E). exact Hpat.
  - rewrite process_query_unconfigured. exact Hpat.
Qed.

(** ** Dispatcher *)

(** Runs a handler to its end: every validation, every answer of the
    backend. *)
Ltac run_handler client log :=
  cbv beta delta [bindM call ret raise catch] iota;
  repeat match goal with
         | |- context [nonempty ?o] => destruct (nonempty o)
         | |- context [additional_params ?p] =>
             destruct (additional_params p)
         | |- context [client ?l ?c] => destruct (client l c)
         | |- context [is_nifi_api_error ?e] =>
             destruct (is_nifi_api_error e)
         end.

(** The backend calls of one dispatch. *)
Lemma _execute_nifi_operation_calls (client : NiFiAPIClient)
  (pi : ProcessedIntent) (context : option dict) (log : list Call) :
  exists cs,
    snd (_execute_nifi_operation (Some client) pi context log) = log ++ cs
    /\ length cs <= 2
    /\ (In (intent pi)
          [DELETE_PROCESS_GROUP; START_PROCESSOR; STOP_PROCESSOR;
           INSTANTIATE_TEMPLATE; HELP; DELETE_PROCESSOR;
           CONFIGURE_PROCESSOR; DELETE_CONNECTION; MONITOR_FLOW; UNKNOWN] ->
        cs = [])
    /\ (forall c,
           In c cs -> Backend.changes_backend c = true ->
           In (intent pi)
             [CREATE_PROCESS_GROUP; START_PROCESS_GROUP; STOP_PROCESS_GROUP;
              CREATE_PROCESSOR; CREATE_CONNECTION; CREATE_TEMPLATE])
    /\ (forall c g,
           In c cs -> Backend.group_of c = Some g ->
           g = process_group_id (parameters pi)).
Proof.
  unfold _execute_nifi_operation, dispatch.
  destruct (intent pi);
    unfold _list_process_groups, _create_process_group,
      _delete_process_group, _start_process_group, _stop_process_group,
      _list_processors, _create_processor, _start_processor,
      _stop_processor, _list_connections, _create_connection,
      _list_templates, _create_template, _instantiate_template,
      _search_components, _get_status, _get_flow_status, _get_help,
      _get_documentation, _get_processor_info;
    run_handler client log;
    cbn [snd];
    try rewrite <- app_assoc; cbn [app];
    first [ exists []; split; [symmetry; apply app_nil_r|]
          | eexists [_]; split; [reflexivity|]
          | eexists [_; _]; split; [reflexivity|] ];
    (split; [cbn; lia|]);
    (split;
     [intros H;
      first [reflexivity | cbn in H; exfalso; intuition discriminate]|]);
    (split;
     [ intros c Hc Hm; cbn in Hc;
       first [ contradiction
             | cbn; tauto
             | destruct Hc as [<- | Hc];
               [discriminate Hm
               | cbn in Hc; first [contradiction
                                  | destruct Hc as [<- | []];
                                    discriminate Hm]] ]
     | intros c g Hc Hg; cbn in Hc;
       first [ contradiction
             | destruct Hc as [<- | Hc];
               [ first [discriminate Hg | now injection Hg as <-]
               | cbn in Hc; first [contradiction
                                  | destruct Hc as [<- | []];
                                    first [discriminate Hg
                                          | now injection Hg as <-]]] ] ]).
Qed.


Section BoundaryCases.

Context {L : Library}.

(** The two ways through [process_query]. *)
Lemma process_query_cases (request : Request.t) (st : State) :
  let pi :=
    Intent.process_query (llm_provider st) (Request.query request) in
  let st1 (log : list Call) :=
    {| nifi_client := nifi_client st; llm_provider := llm_provider st;
       sessions := sessions st; calls := log; clock := S (clock st) |} in
  (exists result log,
      _execute_nifi_operation (nifi_client st) pi (Request.context request)
        (calls st) = (Return result, log)
      /\ fst (process_query request st)
         = {| Response.success := true;
              Response.message := op_message result;
              Response.data := Some (op_data result);
              Response.intent := Some (value (intent pi));
              Response.confidence := Some (confidence pi);
              Response.timestamp := clock st;
              Response.session_id := Request.session_id request |}
      /\ snd (process_query request st)
         = match nonempty (Request.session_id request) with
           | Some sid => _update_session sid pi result (st1 log)
           | None => st1 log
           end)
  \/ (exists e log,
         _execute_nifi_operation (nifi_client st) pi
           (Request.context request) (calls st) = (Raised e, log)
         /\ process_query request st
            = ({| Response.success := false;
                  Response.message :=
                    "Error processing query: " +:+ message e;
                  Response.data := None;
                  Response.intent := None;
                  Response.confidence := None;
                  Response.timestamp := clock st;
                  Response.session_id := Request.session_id request |},
               st1 log)).
Proof.
  intros pi st1. unfold process_query. fold pi.
  destruct (_execute_nifi_operation (nifi_client st) pi
              (Request.context request) (calls st))
    as [[result | e] log].
  - left. exists result, log. split; [reflexivity|].
    split; reflexivity.
  - right. exists e, log. split; reflexivity.
Qed.

(** [_update_session] touches the sessions only. *)
Lemma _update_session_calls (sid : string) (pi : ProcessedIntent)
  (res : OpResult) (st : State) :
  calls (_update_session sid pi res st) = calls st
  /\ nifi_client (_update_session sid pi res st) = nifi_client st
  /\ clock st < clock (_update_session sid pi res st).
Proof.
  unfold _update_session.
  destruct (sessions st !! sid); cbn; repeat split; lia.
Qed.

(** The backend calls of one query are those of its dispatch. *)
Lemma process_query_calls (request : Request.t) (st : State) :
  calls (snd (process_query request st))
  = snd (_execute_nifi_operation (nifi_client st)
           (Intent.process_query (llm_provider st) (Request.query request))
           (Request.context request) (calls st)).
Proof.
  destruct (process_query_cases request st)
    as [(result & log & E & _ & ->) | (e & log & E & ->)];
    rewrite E; cbn [snd]; [|reflexivity].
  destruct (nonempty (Request.session_id request)); [|reflexivity].
  now rewrite (proj1 (_update_session_calls _ _ _ _)).
Qed.

End BoundaryCases.

(** X12. The backend calls of one query: at most two, appended to the
    log; none at all on a server without client, for help, for the four
    operations that are not fully implemented and for the intents without
    handler; a request that is no GET only for the create intents and for
    starting or stopping a process group; and a process group is addressed
    only by the group id of the resolved parameters. *)
Theorem query_backend_calls {L : Library} (request : Request.t)
  (st : State) :
  exists cs,
    calls (snd (process_query request st)) = calls st ++ cs
    /\ length cs <= 2
    /\ (nifi_client st = None -> cs = [])
    /\ (In (intent (Intent.process_query (llm_provider st)
                      (Request.query request)))
          [DELETE_PROCESS_GROUP; START_PROCESSOR; STOP_PROCESSOR;
           INSTANTIATE_TEMPLATE; HELP; DELETE_PROCESSOR;
           CONFIGURE_PROCESSOR; DELETE_CONNECTION; MONITOR_FLOW; UNKNOWN] ->
        cs = [])
    /\ (forall c,
           In c cs -> Backend.changes_backend c = true ->
           In (intent (Intent.process_query (llm_provider st)
                         (Request.query request)))
             [CREATE_PROCESS_GROUP; START_PROCESS_GROUP; STOP_PROCESS_GROUP;
              CREATE_PROCESSOR; CREATE_CONNECTION; CREATE_TEMPLATE])
    /\ (forall c g,
           In c cs -> Backend.group_of c = Some g ->
           g = process_group_id
                 (parameters (Intent.process_query (llm_provider st)
                                (Request.query request)))).
Proof.
  rewrite process_query_calls.
  destruct (nifi_client st) as [client|].
  - destruct (_execute_nifi_operation_calls client
                (Intent.process_query (llm_provider st)
                   (Request.query request))
                (Request.context request) (calls st))
      as (cs & Hcs & Hlen & Hnone & Hmut & Hgroup).
    exists cs. split; [exact Hcs|]. split; [exact Hlen|].
    split; [discriminate|]. split; [exact Hnone|].
    split; [exact Hmut | exact Hgroup].
  - exists []. split; [symmetry; apply app_nil_r|].
    split; [cbn; lia|]. split; [reflexivity|]. split; [reflexivity|].
    split; [intros c [] | intros c g []].
Qed.


(** The validations of the handlers that require a parameter: each one
    raises before the backend is called. *)
Lemma dispatch_missing_parameter (client : NiFiAPIClient)
  (pi : ProcessedIntent) (log : list Call) (msg : string) :
  (intent pi = CREATE_PROCESS_GROUP
   /\ nonempty (process_group_name (parameters pi)) = None
   /\ msg = "Process group name is required")
  \/ (intent pi = CREATE_PROCESSOR
      /\ nonempty (processor_type (parameters pi)) = None
      /\ msg = "Processor type is required")
  \/ (intent pi = CREATE_CONNECTION
      /\ (nonempty (source_id (parameters pi)) = None
          \/ nonempty (destination_id (parameters pi)) = None)
      /\ msg = "Source and destination IDs are required")
  \/ (intent pi = CREATE_TEMPLATE
      /\ nonempty (template_name (parameters pi)) = None
      /\ msg = "Template name is required")
  \/ (intent pi = SEARCH_COMPONENTS
      /\ nonempty (search_query (parameters pi)) = None
      /\ msg = "Search query is required") ->
  _execute_nifi_operation (Some client) pi None log
  = (Raised (Raise RuntimeError ("Operation failed: " +:+ msg)), log)
  /\ forall context,
       _execute_nifi_operation (Some client) pi context log
       = _execute_nifi_operation (Some client) pi None log.
Proof.
  intros H. split; [|reflexivity].
  unfold _execute_nifi_operation, catch, dispatch.
  destruct H as [(-> & Hn & ->) | [(-> & Hn & ->) | [(-> & Hn & ->)
                | [(-> & Hn & ->) | (-> & Hn & ->)]]]].
  - unfold _create_process_group. rewrite Hn. reflexivity.
  - unfold _create_processor. rewrite Hn. reflexivity.
  - unfold _create_connection. destruct Hn as [Hn | Hn].
    + rewrite Hn. reflexivity.
    + rewrite Hn. destruct (nonempty (source_id (parameters pi)));
        reflexivity.
  - unfold _create_template. rewrite Hn. reflexivity.
  - unfold _search_components. rewrite Hn. reflexivity.
Qed.

(** X14. On a server with its backend client, creating a processor
    without a type, a connection without both endpoint ids, a template
    without a name, and searching without a search text, are refused like
    a process group without a name: the answer is a failure whose message
    names the missing parameter, no backend call is made and the sessions
    stay as they were. *)
Theorem missing_required_parameter_is_refused_before_any_call
  {L : Library} (request : Request.t) (st : State)
  (client : NiFiAPIClient) (msg : string) :
  nifi_client st = Some client ->
  (intent (Intent.process_query (llm_provider st) (Request.query request))
   = CREATE_PROCESSOR
   /\ nonempty (processor_type
                 (parameters (Intent.process_query (llm_provider st)
                                (Request.query request)))) = None
   /\ msg = "Processor type is required")
  \/ (intent (Intent.process_query (llm_provider st)
                (Request.query request))
      = CREATE_CONNECTION
      /\ (nonempty (source_id
                     (parameters (Intent.process_query (llm_provider st)
                                    (Request.query request)))) = None
          \/ nonempty (destination_id
                        (parameters (Intent.process_query (llm_provider st)
                                       (Request.query request)))) = None)
      /\ msg = "Source and destination IDs are required")
  \/ (intent (Intent.process_query (llm_provider st)
                (Request.query request))
      = CREATE_TEMPLATE
      /\ nonempty (template_name
                    (parameters (Intent.process_query (llm_provider st)
                                   (Request.query request)))) = None
      /\ msg = "Template name is required")
  \/ (intent (Intent.process_query (llm_provider st)
                (Request.query request))
      = SEARCH_COMPONENTS
      /\ nonempty (search_query
                    (parameters (Intent.process_query (llm_provider st)
                                   (Request.query request)))) = None
      /\ msg = "Search query is required") ->
  Response.success (fst (process_query request st)) = false
  /\ Response.message (fst (process_query request st))
     = "Error processing query: " +:+ ("Operation failed: " +:+ msg)
  /\ calls (snd (process_query request st)) = calls st
  /\ sessions (snd (process_query request st)) = sessions st.
Proof.
  intros Hclient Hmissing.
  destruct (dispatch_missing_parameter client
              (Intent.process_query (llm_provider st)
                 (Request.query request))
              (calls st) msg (or_intror Hmissing)) as [Hraise Hctx].
  rewrite <- (Hctx (Request.context request)), <- Hclient in Hraise.
  rewrite (process_query_dispatch_raised request st _ _ Hraise).
  repeat split.
Qed.

Lemma missing_required_parameter_is_refused_before_any_call_witness :
  Response.message
    (fst (process_query (L := Reference.library)
            (ask "create a connection from a to b" None)
            (server_on empty_backend)))
  = "Error processing query: Operation failed: "
    +:+ "Source and destination IDs are required"
  /\ calls (snd (process_query (L := Reference.library)
                   (ask "create a connection from a to b" None)
                   (server_on empty_backend))) = [].
Proof.
  destruct (missing_required_parameter_is_refused_before_any_call
              (L := Reference.library)
              (ask "create a connection from a to b" None)
              (server_on empty_backend) empty_backend
              "Source and destination IDs are required")
    as (_ & Hm & Hc & _).
  - reflexivity.
  - right. left. split; [vm_compute; reflexivity|].
    split; [left; vm_compute; reflexivity | reflexivity].
  - split; [exact Hm | exact Hc].
Defined.

(** The parameters of the pattern path. *)
Lemma _process_with_patterns_parameters (query : string) :
  process_group_id (parameters (_process_with_patterns query))
  = Some "root"
  /\ source_id (parameters (_process_with_patterns query)) = None
  /\ destination_id (parameters (_process_with_patterns query)) = None.
Proof.
  rewrite (proj2 (proj2 (_process_with_patterns_carries query))).
  destruct (_extract_parameters_shape (Py.strip (Py.lower query))
              (intent (_process_with_patterns query)))
    as (Hg & _ & _ & _ & _ & Hs & Hd & _).
  split; [exact Hg|]. split; [exact Hs | exact Hd].
Qed.

(** X15. When the resolver answers with the pattern matcher's result (no
    provider, a provider that failed, or a classifier confidence of at most
    0.7), every backend call that takes a process group is addressed to the
    group "root", whatever group the query names: listing, starting,
    stopping and creating all act on the root group. *)
Theorem pattern_path_addresses_the_root_group {L : Library}
  (request : Request.t) (st : State) :
  Intent.process_query (llm_provider st) (Request.query request)
  = _process_with_patterns (Request.query request) ->
  exists cs,
    calls (snd (process_query request st)) = calls st ++ cs
    /\ forall c g,
         In c cs -> Backend.group_of c = Some g -> g = Some "root".
Proof.
  intros Hpat. rewrite process_query_calls, Hpat.
  destruct (nifi_client st) as [client|].
  - destruct (_execute_nifi_operation_calls client
                (_process_with_patterns (Request.query request))
                (Request.context request) (calls st))
      as (cs & Hcs & _ & _ & _ & Hgroup).
    exists cs. split; [exact Hcs|].
    intros c g Hc Hg. rewrite (Hgroup c g Hc Hg).
    exact (proj1 (_process_with_patterns_parameters _)).
  - exists []. split; [symmetry; apply app_nil_r | intros c g []].
Qed.

Lemma pattern_path_addresses_the_root_group_witness :
  exists cs,
    calls (snd (process_query (L := Reference.library)
                  (ask "stop the 'etl' process group" None)
                  (server_on empty_backend))) = [] ++ cs
    /\ forall c g,
         In c cs -> Backend.group_of c = Some g -> g = Some "root".
Proof.
  apply (pattern_path_addresses_the_root_group (L := Reference.library)
           (ask "stop the 'etl' process group" None)
           (server_on empty_backend)).
  reflexivity.
Defined.

(** A query that names the group etl: the group that is
    stopped is root. *)
Example stop_etl_group_stops_root :
  calls (snd (process_query (L := Reference.library)
                (ask "stop the 'etl' process group" None)
                (server_on empty_backend)))
  = [stop_process_group (Some "root")].
Proof. vm_compute. reflexivity. Qed.

(** X16. When the resolver answers with the pattern matcher's result, a
    query resolved to create-connection can never be carried out: the
    extractor fills in no endpoint id, so on a server with its backend
    client the answer is always the failure "Source and destination IDs
    are required", without a backend call. *)
Theorem pattern_path_never_creates_a_connection {L : Library}
  (request : Request.t) (st : State) (client : NiFiAPIClient) :
  nifi_client st = Some client ->
  Intent.process_query (llm_provider st) (Request.query request)
  = _process_with_patterns (Request.query request) ->
  intent (_process_with_patterns (Request.query request))
  = CREATE_CONNECTION ->
  Response.success (fst (process_query request st)) = false
  /\ Response.message (fst (process_query request st))
     = "Error processing query: "
       +:+ ("Operation failed: "
            +:+ "Source and destination IDs are required")
  /\ calls (snd (process_query request st)) = calls st.
Proof.
  intros Hclient Hpat Hintent.
  destruct (_process_with_patterns_parameters (Request.query request))
    as (_ & Hs & _).
  destruct (dispatch_missing_parameter client
              (_process_with_patterns (Request.query request))
              (calls st) "Source and destination IDs are required")
    as [Hraise Hctx].
  { right. right. left. split; [exact Hintent|].
    split; [left; rewrite Hs; reflexivity | reflexivity]. }
  rewrite <- (Hctx (Request.context request)), <- Hclient, <- Hpat
    in Hraise.
  rewrite (process_query_dispatch_raised request st _ _ Hraise).
  repeat split.
Qed.

Lemma pattern_path_never_creates_a_connection_witness :
  Response.success
    (fst (process_query (L := Reference.library)
            (ask "connect getfile to putfile" None)
            (server_on empty_backend))) = false
  /\ calls (snd (process_query (L := Reference.library)
                   (ask "connect getfile to putfile" None)
                   (server_on empty_backend))) = [].
Proof.
  destruct (pattern_path_never_creates_a_connection
              (L := Reference.library)
              (ask "connect getfile to putfile" None)
              (server_on empty_backend) empty_backend)
    as (Hs & _ & Hc).
  - reflexivity.
  - reflexivity.
  - vm_compute. reflexivity.
  - split; [exact Hs | exact Hc].
Defined.

(** ** Sessions at the query boundary *)

(** The record [_update_session] appends. *)
Lemma _update_session_sessions (sid : string) (pi : ProcessedIntent)
  (res : OpResult) (st : State) :
  sessions (_update_session sid pi res st)
  = <[ sid :=
         {| created_at :=
              match sessions st !! sid with
              | Some s => created_at s
              | None => clock st
              end;
            queries :=
              last10
                (stored_records sid st
                 ++ [ {| q_timestamp :=
                           match sessions st !! sid with
                           | Some _ => clock st
                           | None => S (clock st)
                           end;
                         q_query := raw_query pi;
                         q_intent := value (intent pi);
                         q_confidence := confidence pi;
                         q_result := res |} ]);
            context :=
              match sessions st !! sid with
              | Some s => context s
              | None => []
              end |} ]> (sessions st).
Proof.
  unfold stored_records, _update_session.
  destruct (sessions st !! sid) as [s|]; cbn -[Nat.ltb last10].
  - destruct (10 <? _) eqn:Hlen; [reflexivity|].
    apply Nat.ltb_ge in Hlen. now rewrite last10_short.
  - reflexivity.
Qed.

Lemma last10_length (l : list QueryRecord) :
  length (last10 l) = Nat.min (length l) 10.
Proof. unfold last10. rewrite length_drop. lia. Qed.

Section ResolverQuery.

Context {L : Library}.

(** The resolver hands the query on as it received it. *)
Lemma process_query_raw_query (llm_provider : option LLMProvider)
  (query : string) :
  raw_query (Intent.process_query llm_provider query) = query.
Proof.
  assert (Hpat := proj1 (_process_with_patterns_carries query)).
  destruct llm_provider as [provider|]; [|exact Hpat].
  destruct (_process_with_llm provider query) as [r|e] eqn:E.
  - destruct (Qgt_bool (confidence r) (7 # 10)) eqn:Hgt.
    + assert (Hr : Intent.process_query (Some provider) query = r).
      { unfold Intent.process_query. rewrite E, Hgt. reflexivity. }
      rewrite Hr. unfold _process_with_llm in E.
      destruct (generate_response provider _ _ _) as [response|];
        [|discriminate E].
      exact (_parse_llm_response_raw_query _ _ _ E).
    + assert (Hr : Intent.process_query (Some provider) query
                   = _process_with_patterns query).
      { unfold Intent.process_query. rewrite E, Hgt. reflexivity. }
      rewrite Hr. exact Hpat.
  - rewrite (process_query_raised provider query e E). exact Hpat.
Qed.

(** The sessions after a query that was answered and carries a session
    id: the session of the request is replaced. *)
Lemma process_query_sessions_recorded (request : Request.t) (st : State)
  (result : OpResult) (log : list Call) (sid : string) :
  _execute_nifi_operation (nifi_client st)
    (Intent.process_query (llm_provider st) (Request.query request))
    (Request.context request) (calls st) = (Return result, log) ->
  nonempty (Request.session_id request) = Some sid ->
  exists t,
    clock st < t
    /\ sessions (snd (process_query request st))
       = <[ sid :=
              {| created_at :=
                   match sessions st !! sid with
                   | Some s => created_at s
                   | None => S (clock st)
                   end;
                 queries :=
                   last10
                     (stored_records sid st
                      ++ [ {| q_timestamp := t;
                              q_query := Request.query request;
                              q_intent :=
                                value
                                  (intent
                                     (Intent.process_query
                                        (llm_provider st)
                                        (Request.query request)));
                              q_confidence :=
                                confidence
                                  (Intent.process_query
                                     (llm_provider st)
                                     (Request.query request));
                              q_result := result |} ]);
                 context :=
                   match sessions st !! sid with
                   | Some s => context s
                   | None => []
                   end |} ]> (sessions st).
Proof.
  intros E Hsid.
  destruct (process_query_cases request st)
    as [(result' & log' & E' & _ & ->) | (e & log' & E' & _)];
    [|rewrite E in E'; discriminate E'].
  rewrite E in E'. injection E' as <- <-.
  rewrite Hsid, _update_session_sessions, process_query_raw_query.
  unfold stored_records. cbn [sessions clock].
  eexists. split; [|reflexivity].
  destruct (sessions st !! sid); lia.
Qed.

(** The sessions after any other query: those before it. *)
Lemma process_query_sessions_kept (request : Request.t) (st : State) :
  nonempty (Request.session_id request) = None
  \/ (exists e log,
         _execute_nifi_operation (nifi_client st)
           (Intent.process_query (llm_provider st)
              (Request.query request))
           (Request.context request) (calls st) = (Raised e, log)) ->
  sessions (snd (process_query request st)) = sessions st.
Proof.
  intros H.
  destruct (process_query_cases request st)
    as [(result & log & E & _ & ->) | (e & log & E & ->)];
    [|reflexivity].
  destruct H as [-> | (e & log' & E')]; [reflexivity|].
  rewrite E in E'. discriminate E'.
Qed.

End ResolverQuery.

(** X17. A query that is answered with success and carries a non-empty
    session id is recorded in that session and in no other: the session
    then holds the last ten of its earlier records followed by one record
    with the query text of the request, the tag and the confidence of the
    resolved intent and the result of the handler.  A query without
    session id, or with the empty one, leaves the sessions as they
    were. *)
Theorem successful_query_is_recorded_in_its_session {L : Library}
  (request : Request.t) (st : State) :
  (forall result log sid,
      _execute_nifi_operation (nifi_client st)
        (Intent.process_query (llm_provider st) (Request.query request))
        (Request.context request) (calls st) = (Return result, log) ->
      nonempty (Request.session_id request) = Some sid ->
      (exists t,
          clock st < t
          /\ stored_records sid (snd (process_query request st))
             = last10
                 (stored_records sid st
                  ++ [ {| q_timestamp := t;
                          q_query := Request.query request;
                          q_intent :=
                            value
                              (intent
                                 (Intent.process_query (llm_provider st)
                                    (Request.query request)));
                          q_confidence :=
                            confidence
                              (Intent.process_query (llm_provider st)
                                 (Request.query request));
                          q_result := result |} ]))
      /\ forall other,
           other <> sid ->
           sessions (snd (process_query request st)) !! other
           = sessions st !! other)
  /\ (nonempty (Request.session_id request) = None ->
      sessions (snd (process_query request st)) = sessions st).
Proof.
  split.
  - intros result log sid E Hsid.
    destruct (process_query_sessions_recorded request st result log sid
                E Hsid) as (t & Ht & Hs).
    split.
    + exists t. split; [exact Ht|].
      unfold stored_records at 1. rewrite Hs, lookup_insert_eq.
      reflexivity.
    + intros other Hne. rewrite Hs. now apply lookup_insert_ne.
  - intros Hnone. apply process_query_sessions_kept. left. exact Hnone.
Qed.

Lemma successful_query_is_recorded_in_its_session_witness :
  map q_query
    (stored_records "s1"
       (snd (process_query (L := Reference.library)
               (ask "list processors" (Some "s1"))
               (server_on empty_backend))))
  = ["list processors"].
Proof.
  edestruct (proj1 (successful_query_is_recorded_in_its_session
                      (L := Reference.library)
                      (ask "list processors" (Some "s1"))
                      (server_on empty_backend)))
    as [(t & _ & Hrec) _].
  - vm_compute. reflexivity.
  - reflexivity.
  - rewrite Hrec. reflexivity.
Defined.

(** X18. No query drops a session or rewrites its identity: a session
    that exists before a query exists after it with the same creation time
    and the same context; it is the very same session unless the query
    succeeded and carries its id, and then it holds at most ten
    records. *)
Theorem query_keeps_every_session {L : Library} (request : Request.t)
  (st : State) (sid : string) (s : Session) :
  sessions st !! sid = Some s ->
  exists s',
    sessions (snd (process_query request st)) !! sid = Some s'
    /\ created_at s' = created_at s
    /\ context s' = context s
    /\ (s' = s
        \/ (nonempty (Request.session_id request) = Some sid
            /\ Response.success (fst (process_query request st)) = true
            /\ 1 <= length (queries s') <= 10)).
Proof.
  intros Hs.
  destruct (process_query_cases request st)
    as [(result & log & E & Hfst & _) | (e & log & E & _)].
  - destruct (nonempty (Request.session_id request)) as [sid'|] eqn:Hsid.
    + destruct (process_query_sessions_recorded request st result log sid'
                  E Hsid) as (t & _ & Hnew).
      rewrite Hnew.
      destruct (decide (sid' = sid)) as [-> | Hne].
      * rewrite lookup_insert_eq, Hs. eexists. split; [reflexivity|].
        split; [reflexivity|]. split; [reflexivity|].
        right. split; [reflexivity|]. split; [now rewrite Hfst|].
        cbn [queries]. rewrite last10_length, length_app. cbn. lia.
      * rewrite lookup_insert_ne by exact Hne.
        exists s. split; [exact Hs|]. split; [reflexivity|].
        split; [reflexivity|]. left. reflexivity.
    + rewrite (process_query_sessions_kept request st (or_introl Hsid)).
      exists s. split; [exact Hs|]. split; [reflexivity|].
      split; [reflexivity|]. left. reflexivity.
  - rewrite (process_query_sessions_kept request st).
    + exists s. split; [exact Hs|]. split; [reflexivity|].
      split; [reflexivity|]. left. reflexivity.
    + right. exists e, log. exact E.
Qed.

Lemma query_keeps_every_session_witness :
  exists s',
    sessions
      (snd (process_query (L := Reference.library)
              (ask "create process group" (Some "s1"))
              (snd (process_query (L := Reference.library)
                      (ask "help" (Some "s1"))
                      (server_on empty_backend))))) !! "s1" = Some s'
    /\ created_at s' = 1
    /\ map q_query (queries s') = ["help"].
Proof.
  edestruct (query_keeps_every_session (L := Reference.library)
               (ask "create process group" (Some "s1"))
               (snd (process_query (L := Reference.library)
                       (ask "help" (Some "s1"))
                       (server_on empty_backend))) "s1")
    as (s' & Hs' & Hc & _ & [-> | (_ & Hok & _)]).
  - vm_compute. reflexivity.
  - eexists. split; [exact Hs'|]. split; reflexivity.
  - vm_compute in Hok. discriminate Hok.
Defined.

(** ** Request loop of the API client: every run *)

Section RequestLoopShape.

Import ApiClient.

Variable send : transport.
Variable max_retries : nat.
Variable req : Request.

(** How the loop ends, for every transport. *)
Lemma attempts_shape (len : nat) :
  forall a,
    a + len = max_retries ->
    (len = 0 /\ attempts send max_retries req (seq a len) = (Return None, []))
    \/ exists k,
         k < len
         /\ (forall i, i < k -> transport_failure (send (a + i) req))
         /\ snd (attempts send max_retries req (seq a len))
            = retried a k ++ [Sent (a + k)]
         /\ ((exists response,
                 send (a + k) req = Responded response
                 /\ fst (attempts send max_retries req (seq a len))
                    = on_response req response)
             \/ (exists e,
                    send (a + k) req = Failed e
                    /\ is_request_error e = false
                    /\ fst (attempts send max_retries req (seq a len))
                       = Raised e)
             \/ (exists e,
                    send (a + k) req = Failed e
                    /\ is_request_error e = true
                    /\ S k = len
                    /\ fst (attempts send max_retries req (seq a len))
                       = Raised
                           (Raise NiFiAPIError
                              ("Request failed after "
                               +:+ Py.str_of_nat max_retries
                               +:+ " attempts: " +:+ message e)))).
Proof.
  induction len as [|len IH]; intros a Hmax.
  - left. split; reflexivity.
  - right. cbn [seq attempts].
    destruct (send a req) as [response | e] eqn:Hsend.
    + exists 0. split; [lia|]. split; [intros i Hi; lia|].
      rewrite Nat.add_0_r. split; [reflexivity|].
      left. exists response. split; [exact Hsend | reflexivity].
    + destruct (is_request_error e) eqn:He.
      * destruct (a =? max_retries - 1) eqn:Hlast.
        -- apply Nat.eqb_eq in Hlast.
           exists 0. split; [lia|]. split; [intros i Hi; lia|].
           rewrite Nat.add_0_r. split; [reflexivity|].
           right. right. exists e. split; [exact Hsend|].
           split; [exact He|]. split; [lia | reflexivity].
        -- apply Nat.eqb_neq in Hlast.
           destruct (IH (S a) ltac:(lia))
             as [[Hzero _] | (k & Hk & Hfail & Htrace & Hend)];
             [lia|].
           destruct (attempts send max_retries req (seq (S a) len))
             as [r trace].
           cbn [fst snd] in *.
           exists (S k). split; [lia|]. split.
           { intros i Hi. destruct i as [|i].
             - rewrite Nat.add_0_r, Hsend. exact He.
             - rewrite Nat.add_succ_r. apply Hfail. lia. }
           rewrite Nat.add_succ_r. split.
           { rewrite Htrace. unfold retried. cbn [seq flat_map app].
             reflexivity. }
           destruct Hend as [(response & Hr & ->)
                            | [(e' & Hr & He' & ->)
                              | (e' & Hr & He' & Hlen & ->)]].
           ++ left. exists response. split; [exact Hr | reflexivity].
           ++ right. left. exists e'. split; [exact Hr|].
              split; [exact He' | reflexivity].
           ++ right. right. exists e'. split; [exact Hr|].
              split; [exact He'|]. split; [lia | reflexivity].
      * exists 0. split; [lia|]. split; [intros i Hi; lia|].
        rewrite Nat.add_0_r. split; [reflexivity|].
        right. left. exists e. split; [exact Hsend|].
        split; [exact He | reflexivity].
Qed.

Lemma on_response_not_none (response : Response) :
  on_response req response <> Return None.
Proof.
  unfold on_response.
  destruct (400 <=? status_code response); [discriminate|].
  destruct (has_content response); [|discriminate].
  destruct (json_body response); discriminate.
Qed.

End RequestLoopShape.

(** X19. Every call of the API client, whatever the transport does,
    sends at most [max_retries] requests, sleeps only between two requests
    and for 1, 2, 4, ... seconds; it sends at least one request unless
    [max_retries] is 0, and that is the only case in which it returns
    without a result: it then returns None without sending anything. *)
Theorem request_loop_is_bounded (send : ApiClient.transport)
  (max_retries : nat) (method endpoint : string)
  (params json_data data : option (list (string * json))) :
  ApiClient.sent_count
    (snd (ApiClient._make_request send max_retries method endpoint
            params json_data data)) <= max_retries
  /\ ApiClient.sleeps
       (snd (ApiClient._make_request send max_retries method endpoint
               params json_data data))
     = map (Nat.pow 2)
         (seq 0 (ApiClient.sent_count
                   (snd (ApiClient._make_request send max_retries method
                           endpoint params json_data data)) - 1))
  /\ (0 < max_retries ->
      1 <= ApiClient.sent_count
             (snd (ApiClient._make_request send max_retries method endpoint
                     params json_data data)))
  /\ (fst (ApiClient._make_request send max_retries method endpoint
             params json_data data) = Return None
      <-> max_retries = 0).
Proof.
  unfold ApiClient._make_request.
  destruct (attempts_shape send max_retries
              {| ApiClient.method := method;
                 ApiClient.url := ApiClient.request_url endpoint;
                 ApiClient.params := params;
                 ApiClient.json_data := json_data;
                 ApiClient.data := data |} max_retries 0 eq_refl)
    as [[-> ->] | (k & Hk & _ & Htrace & Hend)].
  - cbn. split; [lia|]. split; [reflexivity|]. split; [lia|].
    split; reflexivity.
  - rewrite Htrace, sent_count_retried, sleeps_retried.
    cbn [ApiClient.sent_count ApiClient.sleeps].
    replace (k + 1 - 1) with k by lia.
    split; [lia|]. split; [apply app_nil_r|]. split; [lia|].
    split; [|lia].
    intros Hnone. exfalso.
    destruct Hend as [(response & _ & Hr) | [(e & _ & _ & Hr)
                     | (e & _ & _ & _ & Hr)]];
      rewrite Hr in Hnone.
    + exact (on_response_not_none _ _ Hnone).
    + discriminate Hnone.
    + discriminate Hnone.
Qed.

(** X20. An exception of the transport that is no [httpx.RequestError]
    is not retried and not wrapped: after any number of retried transport
    failures it leaves the call as it is, and no further request is
    sent. *)
Theorem other_exception_leaves_the_loop_at_once
  (send : ApiClient.transport) (max_retries : nat)
  (method endpoint : string)
  (params json_data data : option (list (string * json)))
  (k : nat) (e : exn) :
  k < max_retries ->
  (forall i,
      i < k ->
      transport_failure
        (send i {| ApiClient.method := method;
                   ApiClient.url := ApiClient.request_url endpoint;
                   ApiClient.params := params;
                   ApiClient.json_data := json_data;
                   ApiClient.data := data |})) ->
  send k {| ApiClient.method := method;
            ApiClient.url := ApiClient.request_url endpoint;
            ApiClient.params := params;
            ApiClient.json_data := json_data;
            ApiClient.data := data |} = ApiClient.Failed e ->
  is_request_error e = false ->
  fst (ApiClient._make_request send max_retries method endpoint
         params json_data data) = Raised e
  /\ ApiClient.sent_count
       (snd (ApiClient._make_request send max_retries method endpoint
               params json_data data)) = S k
  /\ ApiClient.sleeps
       (snd (ApiClient._make_request send max_retries method endpoint
               params json_data data)) = map (Nat.pow 2) (seq 0 k).
Proof.
  intros Hk Hfail Hsend He.
  unfold ApiClient._make_request.
  destruct (attempts_shape send max_retries
              {| ApiClient.method := method;
                 ApiClient.url := ApiClient.request_url endpoint;
                 ApiClient.params := params;
                 ApiClient.json_data := json_data;
                 ApiClient.data := data |} max_retries 0 eq_refl)
    as [[Hzero _] | (k' & Hk' & Hfail' & Htrace & Hend)]; [lia|].
  cbn [Nat.add] in Hfail', Htrace, Hend.
  assert (Hsame : k' = k).
  { destruct (Nat.lt_trichotomy k' k) as [Hlt | [Heq | Hgt]];
      [exfalso | exact Heq | exfalso].
    - specialize (Hfail k' Hlt).
      destruct Hend as [(response & Hr & _) | [(e' & Hr & He' & _)
                       | (e' & Hr & _ & Hlast & _)]].
      + rewrite Hr in Hfail. exact Hfail.
      + rewrite Hr in Hfail. cbn in Hfail. congruence.
      + lia.
    - specialize (Hfail' k Hgt). rewrite Hsend in Hfail'.
      cbn in Hfail'. congruence. }
  subst k'. rewrite Htrace, sent_count_retried, sleeps_retried.
  cbn [ApiClient.sent_count ApiClient.sleeps].
  split; [|split; [lia | apply app_nil_r]].
  destruct Hend as [(response & Hr & _) | [(e' & Hr & _ & ->)
                   | (e' & Hr & He' & _)]].
  - rewrite Hsend in Hr. discriminate Hr.
  - rewrite Hsend in Hr. now injection Hr as <-.
  - rewrite Hsend in Hr. injection Hr as <-. congruence.
Qed.

Lemma other_exception_leaves_the_loop_at_once_witness :
  fst (ApiClient._make_request Health.invalid_url 3 "GET" "flow/status"
         None None None)
  = Raised (Raise OtherException "Invalid URL")
  /\ ApiClient.sent_count
       (snd (ApiClient._make_request Health.invalid_url 3 "GET"
               "flow/status" None None None)) = 1.
Proof.
  destruct (other_exception_leaves_the_loop_at_once Health.invalid_url 3
              "GET" "flow/status" None None None 0
              (Raise OtherException "Invalid URL"))
    as (Hr & Hsent & _).
  - lia.
  - intros i Hi. lia.
  - reflexivity.
  - reflexivity.
  - split; [exact Hr | exact Hsent].
Defined.

(** X21. The health check never raises.  It reports a healthy backend
    exactly when the diagnostics request, after retried transport failures
    at most, is answered with a status below 400 and a body that is empty
    or JSON; and also, without sending any request, when [max_retries] is
    0. *)
Theorem health_check_is_true_exactly_when (send : ApiClient.transport)
  (max_retries : nat) :
  fst (Health.health_check send max_retries) = true
  <-> (max_retries = 0
       \/ exists k response,
            k < max_retries
            /\ (forall i,
                   i < k ->
                   transport_failure
                     (send i {| ApiClient.method := "GET";
                                ApiClient.url := "/system-diagnostics";
                                ApiClient.params := None;
                                ApiClient.json_data := None;
                                ApiClient.data := None |}))
            /\ send k {| ApiClient.method := "GET";
                         ApiClient.url := "/system-diagnostics";
                         ApiClient.params := None;
                         ApiClient.json_data := None;
                         ApiClient.data := None |}
               = ApiClient.Responded response
            /\ ApiClient.status_code response < 400
            /\ (ApiClient.has_content response = true ->
                exists body, ApiClient.json_body response = Return body)).
Proof.
  unfold Health.health_check, Health.get_system_diagnostics,
    ApiClient._make_request.
  change (ApiClient.request_url "/system-diagnostics")
    with "/system-diagnostics".
  set (req := {| ApiClient.method := "GET";
                 ApiClient.url := "/system-diagnostics";
                 ApiClient.params := None;
                 ApiClient.json_data := None;
                 ApiClient.data := None |}).
  split.
  - intros Htrue.
    destruct (attempts_shape send max_retries req max_retries 0 eq_refl)
      as [[Hzero _] | (k & Hk & Hfail & _ & Hend)]; [left; exact Hzero|].
    right. cbn [Nat.add] in Hfail, Hend.
    destruct (ApiClient.attempts send max_retries req (seq 0 max_retries))
      as [[r|e] trace]; [|discriminate Htrue].
    cbn [fst] in Hend.
    destruct Hend as [(response & Hr & Hon) | [(e & _ & _ & Hon)
                     | (e & _ & _ & _ & Hon)]];
      [|discriminate Hon | discriminate Hon].
    exists k, response. split; [exact Hk|]. split; [exact Hfail|].
    split; [exact Hr|].
    unfold ApiClient.on_response in Hon.
    destruct (400 <=? ApiClient.status_code response) eqn:Hstatus;
      [discriminate Hon|].
    apply Nat.leb_gt in Hstatus. split; [exact Hstatus|].
    intros Hcontent. rewrite Hcontent in Hon.
    destruct (ApiClient.json_body response) as [body|];
      [|discriminate Hon].
    exists body. reflexivity.
  - intros [-> | (k & response & Hk & Hfail & Hr & Hstatus & Hbody)];
      [reflexivity|].
    rewrite (attempts_until_response send max_retries req k 0 max_retries
               response Hk ltac:(lia) Hfail Hr).
    unfold ApiClient.on_response.
    apply Nat.leb_gt in Hstatus. rewrite Hstatus.
    destruct (ApiClient.has_content response); [|reflexivity].
    destruct (Hbody eq_refl) as [body ->]. reflexivity.
Qed.

Lemma lstrip_by_idempotent (p : ascii -> bool) (s : string) :
  Py.lstrip_by p (Py.lstrip_by p s) = Py.lstrip_by p s.
Proof.
  induction s as [|c t IH]; [reflexivity|].
  cbn [Py.lstrip_by]. destruct (p c) eqn:Hc; [exact IH|].
  cbn [Py.lstrip_by]. now rewrite Hc.
Qed.

Lemma lstrip_by_head (p : ascii -> bool) (s : string) (c : ascii)
  (t : string) :
  Py.lstrip_by p s = String c t -> p c = false.
Proof.
  induction s as [|c' t' IH]; [discriminate|].
  cbn [Py.lstrip_by]. destruct (p c') eqn:Hc; [exact IH|].
  now intros [= <- _].
Qed.

(** X22. The URL a request is sent to: an endpoint that starts with
    "http" is used as it is; any other endpoint is used with exactly one
    leading slash, however many it is written with; and normalising twice
    changes nothing. *)
Theorem request_url_has_one_leading_slash (endpoint : string) :
  ApiClient.request_url (ApiClient.request_url endpoint)
  = ApiClient.request_url endpoint
  /\ (ApiClient.starts_with_http endpoint = true ->
      ApiClient.request_url endpoint = endpoint)
  /\ (ApiClient.starts_with_http endpoint = false ->
      (exists rest,
          ApiClient.request_url endpoint = String "/" rest
          /\ forall rest', rest <> String "/" rest')
      /\ ApiClient.request_url (String "/" endpoint)
         = ApiClient.request_url endpoint).
Proof.
  unfold ApiClient.request_url.
  destruct (ApiClient.starts_with_http endpoint) eqn:Hhttp.
  - rewrite Hhttp. split; [reflexivity|]. split; [reflexivity|].
    discriminate.
  - split; [|split; [discriminate|]].
    + change (ApiClient.starts_with_http
                ("/" +:+ Py.lstrip_by (Ascii.eqb "/") endpoint))
        with false.
      change ("/" +:+ Py.lstrip_by (Ascii.eqb "/") endpoint)
        with (String "/" (Py.lstrip_by (Ascii.eqb "/") endpoint)).
      cbn [Py.lstrip_by]. change (Ascii.eqb "/" "/") with true.
      cbn iota. now rewrite lstrip_by_idempotent.
    + intros _. split.
      * exists (Py.lstrip_by (Ascii.eqb "/") endpoint).
        split; [reflexivity|]. intros rest' Hrest.
        apply lstrip_by_head in Hrest. discriminate Hrest.
      * reflexivity.
Qed.

(** ** The provider of the processor *)

(** X23. The provider of the processor that [create_intent_processor]
    builds is the first that can be constructed among: the requested class with the given keywords (for the types
    openai and anthropic, in any case of letters), the OpenAI provider
    with defaults, the Anthropic provider with defaults.  So a request for
    anthropic whose construction fails is served by an OpenAI provider
    when one can be built; any other provider type gets the default
    choice; and only when all constructions fail is there no provider, and
    then every query is answered by the pattern matcher. *)
Theorem processor_provider_is_first_that_constructs {L : Library}
  (OpenAIProvider AnthropicProvider
     : list (string * json) -> result LLMProvider)
  (provider_type : string) (kwargs : list (string * json)) :
  (forall p,
      Py.lower provider_type = "openai" ->
      OpenAIProvider kwargs = Return p ->
      Construction.create_intent_processor OpenAIProvider AnthropicProvider
        provider_type kwargs = Some p)
  /\ (forall p,
         Py.lower provider_type = "anthropic" ->
         AnthropicProvider kwargs = Return p ->
         Construction.create_intent_processor OpenAIProvider
           AnthropicProvider provider_type kwargs = Some p)
  /\ ((Py.lower provider_type = "openai"
       /\ exists e, OpenAIProvider kwargs = Raised e)
      \/ (Py.lower provider_type = "anthropic"
          /\ exists e, AnthropicProvider kwargs = Raised e)
      \/ (Py.lower provider_type <> "openai"
          /\ Py.lower provider_type <> "anthropic") ->
      Construction.create_intent_processor OpenAIProvider AnthropicProvider
        provider_type kwargs
      = match OpenAIProvider [] with
        | Return p => Some p
        | Raised _ =>
            match AnthropicProvider [] with
            | Return p => Some p
            | Raised _ => None
            end
        end)
  /\ (Construction.create_intent_processor OpenAIProvider AnthropicProvider
        provider_type kwargs = None ->
      (exists e, OpenAIProvider [] = Raised e)
      /\ (exists e, AnthropicProvider [] = Raised e)
      /\ forall query,
           Intent.process_query
             (Construction.create_intent_processor OpenAIProvider
                AnthropicProvider provider_type kwargs) query
           = _process_with_patterns query).
Proof.
  unfold Construction.create_intent_processor, Construction.IntentProcessor,
    Construction._create_default_provider.
  split; [|split; [|split]].
  - intros p Ht Hp. rewrite Ht, Hp. reflexivity.
  - intros p Ht Hp. rewrite Ht, Hp. reflexivity.
  - intros [(Ht & e & He) | [(Ht & e & He) | (Ho & Ha)]].
    + rewrite Ht, He. reflexivity.
    + rewrite Ht, He. reflexivity.
    + apply String.eqb_neq in Ho, Ha. rewrite Ho, Ha. reflexivity.
  - intros Hnone.
    assert (Hdefault :
              match OpenAIProvider [] with
              | Return p => Some p
              | Raised _ =>
                  match AnthropicProvider [] with
                  | Return p => Some p
                  | Raised _ => None
                  end
              end = None).
    { destruct (String.eqb (Py.lower provider_type) "openai").
      - destruct (OpenAIProvider kwargs); [discriminate Hnone|].
        exact Hnone.
      - destruct (String.eqb (Py.lower provider_type) "anthropic").
        + destruct (AnthropicProvider kwargs); [discriminate Hnone|].
          exact Hnone.
        + exact Hnone. }
    rewrite Hnone.
    destruct (OpenAIProvider []) as [p|e]; [discriminate Hdefault|].
    destruct (AnthropicProvider []) as [p'|e']; [discriminate Hdefault|].
    split; [exists e; reflexivity|]. split; [exists e'; reflexivity|].
    intros query. apply process_query_unconfigured.
Qed.

Lemma processor_provider_is_first_that_constructs_witness :
  Construction.create_intent_processor
    (fun _ => Return (constant_provider "{}")) Construction.no_api_key
    "Anthropic" []
  = Some (constant_provider "{}")
  /\ forall query,
       Intent.process_query (L := Reference.library)
         (Construction.create_intent_processor Construction.no_api_key
            Construction.no_api_key "openai" []) query
       = _process_with_patterns query.
Proof.
  split.
  - rewrite (proj1 (proj2 (proj2 (processor_provider_is_first_that_constructs
                                    (L := Reference.library)
                                    (fun _ => Return (constant_provider "{}"))
                                    Construction.no_api_key
                                    "Anthropic" [])))).
    + reflexivity.
    + right. left. split; [reflexivity|]. eexists. reflexivity.
  - apply (proj2 (proj2 (proj2 (processor_provider_is_first_that_constructs
                                  (L := Reference.library)
                                  Construction.no_api_key
                                  Construction.no_api_key "openai" [])))).
    reflexivity.
Defined.
